(** * OSkhQuant: point-in-time bar retrieval and custom-period aggregation

    A shallow embedding of the retrieval and aggregation functions of
    [khQTTools.py] ([is_trade_day], [khHistory], [khKline], [_process_930_data],
    [_aggregate_kline], [_get_minute_kline], [_get_hour_kline],
    [_get_day_kline] and their helpers), with the properties that the
    specification states about them.

    Conventions of the embedding:
    - a pandas [DataFrame] is its column list together with its rows, a row
      being a finite map from column name to value, and the one text column
      that the routes of [khKline] attach (the group labels);
    - numeric cells are integers held in [int64] columns (prices in ticks,
      volumes in lots, times in milliseconds): sums wrap around modulo 2^64;
      floating-point rounding is outside the model;
    - a naive [datetime] / pandas [Timestamp] is the number of milliseconds
      since 1970-01-01 00:00 on its own clock;
    - strings are ASCII byte strings;
    - a Python call that can raise returns an [outcome];
    - the market data source, [datetime.strptime] and the holiday calendar
      are collaborators outside the repository and are taken as parameters. *)

From Stdlib Require Import ZArith Lia Ascii String Sorted.
From stdpp Require Import gmap strings list fin_maps sorting.

Local Open Scope string_scope.
Local Open Scope Z_scope.

(** ** Exceptions and outcomes *)

Inductive exn : Type :=
| ValueError (msg : string)
| KeyError (msg : string)
| ZeroDivisionError
| OverflowError
| AttributeError (msg : string).

Inductive outcome (A : Type) : Type :=
| Returned (a : A)
| Raised (e : exn).

Arguments Returned {A} a.
Arguments Raised {A} e.

#[global] Instance outcome_ret : MRet outcome := fun A a => Returned a.

#[global] Instance outcome_bind : MBind outcome := fun A B k m =>
  match m with
  | Returned a => k a
  | Raised e => Raised e
  end.

(** [try: m except Exception: h] *)
Definition try_except {A} (m : outcome A) (h : exn -> outcome A) : outcome A :=
  match m with
  | Returned a => Returned a
  | Raised e => h e
  end.

(** ** Data frames *)

(** [x in l] for a Python list of strings. *)
Definition has (x : string) (l : list string) : bool :=
  existsb (String.eqb x) l.

(** The names of all columns, the numeric cells row by row, and the text
    column when there is one: its name and its cells, top to bottom, [None]
    for a missing one.  The tables of the data source hold numbers only. *)
Record DataFrame : Type := mk_frame {
  columns : list string;
  rows : list (gmap string Z);
  labels : option (string * list (option string))
}.

(** A frame of numeric columns. *)
Abbreviation mkDF c r := (mk_frame c r None).

(** [pd.DataFrame()] *)
Definition empty_frame : DataFrame := mkDF [] [].

(** [df.empty]: some axis has length zero. *)
Definition df_empty (df : DataFrame) : bool :=
  match columns df, rows df with
  | [], _ => true
  | _, [] => true
  | _, _ => false
  end.

(** [len(df)] *)
Definition len (df : DataFrame) : Z := Z.of_nat (length (rows df)).

(** Every row has a cell in every column. *)
Definition well_formed (df : DataFrame) : Prop :=
  forall r c, In r (rows df) -> In c (columns df) -> is_Some (r !! c).

(** The same, as a test. *)
Definition well_formedb (df : DataFrame) : bool :=
  forallb (fun r : gmap string Z =>
             forallb (fun c => bool_decide (is_Some (r !! c))) (columns df))
    (rows df).

(** [df[col]] as the list of its cells, top to bottom. *)
Definition column (c : string) (g : list (gmap string Z)) : list Z :=
  omap (fun r : gmap string Z => r !! c) g.

(** [df[mask]] *)
Definition select (mask : gmap string Z -> bool) (df : DataFrame) : DataFrame :=
  mkDF (columns df) (List.filter mask (rows df)).

(** [df.tail(n)] for [n >= 0]. *)
Definition tail (n : Z) (df : DataFrame) : DataFrame :=
  mk_frame (columns df) (skipn (length (rows df) - Z.to_nat n) (rows df))
    (match labels df with
     | Some (name, cells) =>
         Some (name, skipn (length (rows df) - Z.to_nat n) cells)
     | None => None
     end).

(** [df[name] = cells]: the text column is set, in place of a column of that
    name or as a new last column. *)
Definition set_labels (name : string) (cells : list (option string))
  (df : DataFrame) : DataFrame :=
  mk_frame
    (if has name (columns df) then columns df else (columns df ++ [name])%list)
    (map (delete name) (rows df))
    (Some (name, cells)).

(** [df[df[name].notna()]] on the text column. *)
Definition notna_labels (df : DataFrame) : DataFrame :=
  match labels df with
  | Some (name, cells) =>
      let kept :=
        List.filter (fun p : option string * gmap string Z => bool_decide (is_Some p.1))
          (combine cells (rows df)) in
      mk_frame (columns df) (map snd kept) (Some (name, map fst kept))
  | None => df
  end.

(** [df.drop(columns=[name])] for a column that [df] has. *)
Definition drop_column (name : string) (df : DataFrame) : DataFrame :=
  mk_frame
    (List.filter (fun c => negb (String.eqb c name)) (columns df))
    (map (delete name) (rows df))
    (match labels df with
     | Some (n, cells) => if String.eqb n name then None else Some (n, cells)
     | None => None
     end).

(** ** [_aggregate_kline] *)

Inductive how : Type := First | Last | Max | Min | Sum.

Definition agg_dict (fields : list string) : list (string * how) :=
  [("time", Last)]
  ++ (if has "open" fields then [("open", First)] else [])
  ++ (if has "high" fields then [("high", Max)] else [])
  ++ (if has "low" fields then [("low", Min)] else [])
  ++ (if has "close" fields then [("close", Last)] else [])
  ++ (if has "volume" fields then [("volume", Sum)] else [])
  ++ (if has "amount" fields then [("amount", Sum)] else []).

(** The value of an [int64] after an addition: two's complement wrap-around. *)
Definition wrap64 (x : Z) : Z := (x + 2 ^ 63) mod 2 ^ 64 - 2 ^ 63.

(** One pandas reduction over the cells of a group that are not missing; the
    sum of no cell is 0, the other reductions of no cell are missing. *)
Definition reduce (h : how) (xs : list Z) : option Z :=
  match xs with
  | [] => match h with Sum => Some 0 | _ => None end
  | x :: t =>
      Some match h with
           | First => x
           | Last => List.last t x
           | Max => fold_left Z.max t x
           | Min => fold_left Z.min t x
           | Sum => wrap64 (fold_left Z.add t x)
           end
  end.

(** The output row of one group under an aggregation dictionary. *)
Definition agg_row (d : list (string * how)) (g : list (gmap string Z))
  : gmap string Z :=
  fold_right
    (fun (ch : string * how) (acc : gmap string Z) =>
       match reduce (snd ch) (column (fst ch) g) with
       | Some v => <[fst ch := v]> acc
       | None => acc
       end)
    ∅ d.

(** Group labels in ascending string order, each once: the order in which
    [groupby] (with its default [sort=True]) emits the groups. *)
Fixpoint insert_key (k : string) (l : list string) : list string :=
  match l with
  | [] => [k]
  | h :: t =>
      match String.compare k h with
      | Lt => k :: l
      | Eq => l
      | Gt => h :: insert_key k t
      end
  end.

Definition group_keys (labels : list string) : list string :=
  fold_right insert_key [] labels.

(** The rows of [g] whose label under [group_col] is [k], in their original
    order. *)
Definition group_rows (group_col : gmap string Z -> string) (k : string)
  (g : list (gmap string Z)) : list (gmap string Z) :=
  List.filter (fun r => String.eqb (group_col r) k) g.

(** The rows whose text cell is [k], in their original order. *)
Definition rows_of_group (k : string) (cells : list (option string))
  (g : list (gmap string Z)) : list (gmap string Z) :=
  map snd
    (List.filter (fun p : option string * gmap string Z =>
                    bool_decide (p.1 = Some k))
       (combine cells g)).

(** [_aggregate_kline(df, group_col, fields)]:
    [df.groupby(group_col, as_index=False).agg(agg_dict)].  [group_col] names
    the text column of [df], as in every call of the repository; rows whose
    label is missing belong to no group; the output has the group column
    first, then the aggregated columns, one row per label in ascending
    order. *)
Definition _aggregate_kline (df : DataFrame) (group_col : string)
  (fields : list string) : outcome DataFrame :=
  let d := agg_dict fields in
  match labels df with
  | Some (name, cells) =>
      if negb (String.eqb name group_col) then Raised (KeyError group_col)
      else if forallb (fun c => has c (columns df)) (map fst d) then
        let keys := group_keys (omap fst (combine cells (rows df))) in
        Returned
          (mk_frame (group_col :: map fst d)
             (map (fun k => agg_row d (rows_of_group k cells (rows df))) keys)
             (Some (group_col, map Some keys)))
      else Raised (KeyError "Column(s) do not exist")
  | None => Raised (KeyError group_col)
  end.

(** ** Python strings *)

Definition is_digit (c : ascii) : bool :=
  let n := nat_of_ascii c in (48 <=? n)%nat && (n <=? 57)%nat.

(** [str.isspace] on one ASCII character. *)
Definition is_space (c : ascii) : bool :=
  let n := nat_of_ascii c in
  ((9 <=? n)%nat && (n <=? 13)%nat) || ((28 <=? n)%nat && (n <=? 32)%nat).

Definition lower_char (c : ascii) : ascii :=
  let n := nat_of_ascii c in
  if (65 <=? n)%nat && (n <=? 90)%nat then ascii_of_nat (n + 32) else c.

(** [s.lower()] *)
Fixpoint lower (s : string) : string :=
  match s with
  | EmptyString => EmptyString
  | String c t => String (lower_char c) (lower t)
  end.

Fixpoint all_digits (s : string) : bool :=
  match s with
  | EmptyString => true
  | String c t => is_digit c && all_digits t
  end.

(** [s.isdigit()] *)
Definition isdigit (s : string) : bool :=
  match s with
  | EmptyString => false
  | _ => all_digits s
  end.

(** [c in s] for a one-character [c]. *)
Fixpoint contains (c : ascii) (s : string) : bool :=
  match s with
  | EmptyString => false
  | String a t => Ascii.eqb a c || contains c t
  end.

Fixpoint lstrip (s : string) : string :=
  match s with
  | EmptyString => EmptyString
  | String c t => if is_space c then lstrip t else s
  end.

(** [s.strip()] *)
Definition strip (s : string) : string :=
  String.rev (lstrip (String.rev (lstrip s))).

(** [len(s)] *)
Definition slen (s : string) : Z := Z.of_nat (String.length s).

(** The longest prefix of decimal digits, and what follows it. *)
Fixpoint span_digits (s : string) : string * string :=
  match s with
  | EmptyString => (EmptyString, EmptyString)
  | String c t =>
      if is_digit c
      then let (d, r) := span_digits t in (String c d, r)
      else (EmptyString, s)
  end.

Definition digit_value (c : ascii) : Z := Z.of_nat (nat_of_ascii c) - 48.

Fixpoint int_acc (acc : Z) (s : string) : Z :=
  match s with
  | EmptyString => acc
  | String c t => int_acc (10 * acc + digit_value c) t
  end.

(** [int(s)] on a string of decimal digits. *)
Definition int (s : string) : Z := int_acc 0 s.

Definition is_unit (c : ascii) : bool :=
  Ascii.eqb c "m" || Ascii.eqb c "h" || Ascii.eqb c "d".

Definition newline : ascii := "010"%char.

(** [re.match(r'^(\d+)([mhd])$', s)]: the two groups on a match.  [$] also
    matches just before one final newline. *)
Definition match_period (s : string) : option (string * ascii) :=
  let (d, r) := span_digits s in
  match d, r with
  | EmptyString, _ => None
  | _, String u EmptyString =>
      if is_unit u then Some (d, u) else None
  | _, String u (String n EmptyString) =>
      if is_unit u && Ascii.eqb n newline then Some (d, u) else None
  | _, _ => None
  end.

(** ** Naive datetimes *)

Definition ms_per_minute : Z := 60000.
Definition ms_per_hour : Z := 3600000.
Definition ms_per_day : Z := 86400000.

(** [t.date()], as the number of days since 1970-01-01. *)
Definition date_of (t : Z) : Z := t / ms_per_day.

(** [t.hour] and [t.minute] *)
Definition hour_of (t : Z) : Z := (t mod ms_per_day) / ms_per_hour.
Definition minute_of (t : Z) : Z := (t mod ms_per_hour) / ms_per_minute.

(** [t.replace(second=0, microsecond=0)] *)
Definition truncate_seconds (t : Z) : Z := t - t mod ms_per_minute.

(** [d.weekday()] of a day number: Monday is 0; 1970-01-01 was a Thursday. *)
Definition weekday (d : Z) : Z := (d + 3) mod 7.

(** The time [n] days after [t]. *)
Definition add_days (t n : Z) : Z := t + n * ms_per_day.

(** Day number of a proleptic Gregorian civil date. *)
Definition days_from_civil (y m d : Z) : Z :=
  let y' := if m <=? 2 then y - 1 else y in
  let era := y' / 400 in
  let yoe := y' - era * 400 in
  let doy := (153 * (if 2 <? m then m - 3 else m + 9) + 2) / 5 + d - 1 in
  let doe := yoe * 365 + yoe / 4 - yoe / 100 + doy in
  era * 146097 + doe - 719468.

(** [t.year] *)
Definition year_of (t : Z) : Z :=
  let z := date_of t + 719468 in
  let era := z / 146097 in
  let doe := z - era * 146097 in
  let yoe := (doe - doe / 1460 + doe / 36524 - doe / 146096) / 365 in
  let doy := doe - (365 * yoe + yoe / 4 - yoe / 100) in
  let mp := (5 * doy + 2) / 153 in
  yoe + era * 400 + (if mp <? 10 then 0 else 1).

(** [datetime(year, month, day)]; the year must lie in 1..9999. *)
Definition datetime (year month day : Z) : outcome Z :=
  if (1 <=? year) && (year <=? 9999)
  then Returned (days_from_civil year month day * ms_per_day)
  else Raised (ValueError "year is out of range").

(** [datetime.min] and [datetime.max], to the millisecond. *)
Definition datetime_min : Z := days_from_civil 1 1 1 * ms_per_day.
Definition datetime_max : Z :=
  days_from_civil 9999 12 31 * ms_per_day + (ms_per_day - 1).

(** [t + timedelta(days=n)]: an [OverflowError] when [n] is no valid number
    of days or the sum leaves the range of [datetime]. *)
Definition plus_days (t n : Z) : outcome Z :=
  if (Z.abs n <=? 999999999)
     && (datetime_min <=? add_days t n) && (add_days t n <=? datetime_max)
  then Returned (add_days t n)
  else Raised OverflowError.

(** ** Sorting and positions *)

(** Order of two rows on their [time] cell; a missing cell (NaT) sorts last. *)
Definition time_le (a b : gmap string Z) : bool :=
  match a !! "time", b !! "time" with
  | Some x, Some y => x <=? y
  | Some _, None => true
  | None, Some _ => false
  | None, None => true
  end.

Fixpoint insert_row (r : gmap string Z) (l : list (gmap string Z))
  : list (gmap string Z) :=
  match l with
  | [] => [r]
  | h :: t => if time_le r h then r :: l else h :: insert_row r t
  end.

(** Rows in ascending [time] order.  Rows with equal times keep their order
    here; the quicksort that [sort_values] uses by default leaves their
    order open, and the statements about sorted frames speak of the order of
    times and of the bars that a frame holds only. *)
Definition sort_rows (l : list (gmap string Z)) : list (gmap string Z) :=
  fold_right insert_row [] l.

(** [df.sort_values('time').reset_index(drop=True)] *)
Definition sort_values_time (df : DataFrame) : outcome DataFrame :=
  if has "time" (columns df)
  then Returned (mkDF (columns df) (sort_rows (rows df)))
  else Raised (KeyError "time").

(** Position of the first row satisfying [p]. *)
Fixpoint find_index {A} (p : A -> bool) (l : list A) : option nat :=
  match l with
  | [] => None
  | h :: t => if p h then Some O else S <$> find_index p t
  end.

Fixpoint insert_day (d : Z) (l : list Z) : list Z :=
  match l with
  | [] => [d]
  | h :: t =>
      if d <? h then d :: l
      else if d =? h then l
      else h :: insert_day d t
  end.

(** Ascending distinct values. *)
Definition sorted_days (l : list Z) : list Z := fold_right insert_day [] l.

(** ** [_process_930_data] *)

(** [(df['time'].dt.hour == h) & (df['time'].dt.minute == m)] on one row. *)
Definition at_hm (h m : Z) (r : gmap string Z) : bool :=
  match r !! "time" with
  | Some t => (hour_of t =? h) && (minute_of t =? m)
  | None => false
  end.

Definition on_date (d : Z) (r : gmap string Z) : bool :=
  match r !! "time" with
  | Some t => date_of t =? d
  | None => false
  end.

(** [df.loc[i, c] = v]; assigning a missing value leaves the cell missing. *)
Definition set_cell (c : string) (v : option Z) (r : gmap string Z)
  : gmap string Z :=
  match v with
  | Some x => <[c := x]> r
  | None => delete c r
  end.

(** The sum of two [int64] cells; a missing operand gives a missing sum. *)
Definition add_cells (a b : option Z) : option Z :=
  match a, b with
  | Some x, Some y => Some (wrap64 (x + y))
  | _, _ => None
  end.

(** The assignments made to the 09:31 row [r931] from the 09:30 row [r930]. *)
Definition merge_930 (fields cols : list string) (r930 r931 : gmap string Z)
  : gmap string Z :=
  let r1 :=
    if has "open" fields && has "open" cols
    then set_cell "open" (r930 !! "open") r931 else r931 in
  let r2 :=
    if has "volume" fields && has "volume" cols
    then set_cell "volume" (add_cells (r930 !! "volume") (r1 !! "volume")) r1
    else r1 in
  if has "amount" fields && has "amount" cols
  then set_cell "amount" (add_cells (r930 !! "amount") (r2 !! "amount")) r2
  else r2.

(** The body of the loop over dates, on the rows [g] of one date. *)
Definition process_930_group (fields cols : list string)
  (g : list (gmap string Z)) : list (gmap string Z) :=
  match List.find (at_hm 9 30) g, find_index (at_hm 9 31) g with
  | Some r930, Some i931 =>
      List.filter (fun r => negb (at_hm 9 30 r))
        (alter (merge_930 fields cols r930) i931 g)
  | _, _ => g
  end.

Definition _process_930_data (df : DataFrame) (fields : list string)
  : outcome DataFrame :=
  if df_empty df then Returned df
  else if negb (has "time" (columns df)) then Raised (KeyError "time")
  else
    let dates := sorted_days (omap (fun r : gmap string Z =>
                                      date_of <$> r !! "time") (rows df)) in
    let result_dfs :=
      map (fun d => process_930_group fields (columns df)
                      (List.filter (on_date d) (rows df))) dates in
    match result_dfs with
    | [] => Returned df
    | _ => Returned (mkDF (columns df) (sort_rows (concat result_dfs)))
    end.

(** ** Arguments and results of the retrieval functions *)

(** [symbol_list: Union[str, List[str]]] *)
Inductive symbols : Type :=
| One (code : string)
| Many (codes : list string).

(** [not symbol_list] *)
Definition no_symbols (sl : symbols) : bool :=
  match sl with
  | One "" => true
  | One _ => false
  | Many [] => true
  | Many _ => false
  end.

(** [[symbol_list] if isinstance(symbol_list, str) else list(symbol_list)] *)
Definition stock_codes_of (sl : symbols) : list string :=
  match sl with
  | One code => [code]
  | Many codes => codes
  end.

(** A Python [dict] keyed by stock code, in insertion order. *)
Fixpoint dict_set {V} (k : string) (v : V) (d : list (string * V))
  : list (string * V) :=
  match d with
  | [] => [(k, v)]
  | (k', v') :: t =>
      if String.eqb k' k then (k', v) :: t else (k', v') :: dict_set k v t
  end.

Fixpoint dict_get {V} (k : string) (d : list (string * V)) : option V :=
  match d with
  | [] => None
  | (k', v) :: t => if String.eqb k' k then Some v else dict_get k t
  end.

(** [dividend_type_map.get(fq, 'front')] *)
Definition dividend_type_of (fq : string) : string :=
  if String.eqb fq "pre" then "front"
  else if String.eqb fq "post" then "back"
  else if String.eqb fq "none" then "none"
  else "front".

(** One row under
    [pd.to_datetime(df['time'].astype(float), unit='ms') + pd.Timedelta(hours=8)]. *)
Definition local_row (r : gmap string Z) : gmap string Z :=
  alter (fun t => t + 8 * ms_per_hour) "time" r.

(** The first and the last millisecond that a pandas [Timestamp] holds. *)
Definition timestamp_min : Z := -9223372036854.
Definition timestamp_max : Z := 9223372036854.

(** The [time] cell of the row converts to a [Timestamp]; a missing cell
    becomes [NaT]. *)
Definition convertible (r : gmap string Z) : bool :=
  match r !! "time" with
  | Some t => (timestamp_min <=? t) && (t <=? timestamp_max)
  | None => true
  end.

(** Eight hours can be added to it. *)
Definition shiftable (r : gmap string Z) : bool :=
  match r !! "time" with
  | Some t => t + 8 * ms_per_hour <=? timestamp_max
  | None => true
  end.

(** The conversion stored back into the [time] column. *)
Definition to_local_time (df : DataFrame) : outcome DataFrame :=
  if has "time" (columns df) then
    if negb (forallb convertible (rows df))
    then Raised (ValueError "Out of bounds nanosecond timestamp")
    else if negb (forallb shiftable (rows df)) then Raised OverflowError
    else Returned (mkDF (columns df) (map local_row (rows df)))
  else Raised (KeyError "time").

(** Masks on one row; a comparison with a missing cell is false. *)
Definition time_lt (t : Z) (r : gmap string Z) : bool :=
  match r !! "time" with Some x => x <? t | None => false end.

Definition time_leb (t : Z) (r : gmap string Z) : bool :=
  match r !! "time" with Some x => x <=? t | None => false end.

Definition date_lt (t : Z) (r : gmap string Z) : bool :=
  match r !! "time" with Some x => date_of x <? date_of t | None => false end.

Definition date_leb (t : Z) (r : gmap string Z) : bool :=
  match r !! "time" with Some x => date_of x <=? date_of t | None => false end.

Definition volume_positive (r : gmap string Z) : bool :=
  match r !! "volume" with Some v => 0 <? v | None => false end.

(** [df[cols]]: the listed columns, in that order. *)
Definition project (cols : list string) (df : DataFrame) : outcome DataFrame :=
  if forallb (fun c => has c (columns df)) cols
  then Returned (mkDF cols
                   (map (fun r : gmap string Z =>
                           filter (fun kv : string * Z => has kv.1 cols = true) r)
                      (rows df)))
  else Raised (KeyError "not in index").

(** The look-back span in days of [khHistory]. *)
Definition history_lookback_days (period : string) (bar_count : Z) : Z :=
  if String.eqb period "tick" then 3
  else if has period ["1m"; "5m"] then Z.max 10 ((bar_count * 10 + 1439) / 1440)
  else if has period ["1d"] then bar_count * 5
  else bar_count * 3.

(** The mask that keeps the bars before the reference time: on the exact
    time for tick and minute bars, on the calendar date otherwise. *)
Definition history_mask (period : string) (current_datetime : Z)
  : gmap string Z -> bool :=
  if String.eqb period "tick" then time_lt current_datetime
  else if has period ["1m"; "5m"] then time_lt current_datetime
  else date_lt current_datetime.

(** The per-symbol part of [khHistory] on a non-empty source table. *)
Definition history_frame (period : string) (current_datetime : Z)
  (skip_paused : bool) (bar_count : Z) (fields : list string)
  (stock_data : DataFrame) : outcome DataFrame :=
  sd1 ← (if has "time" (columns stock_data) then
           sd ← to_local_time stock_data;
           sort_values_time (select (history_mask period current_datetime) sd)
         else Returned stock_data);
  let sd2 :=
    if skip_paused && has "volume" (columns sd1)
    then select volume_positive sd1 else sd1 in
  let sd3 :=
    if negb (df_empty sd2) && (bar_count <? len sd2)
    then tail bar_count sd2 else sd2 in
  let columns_order :=
    "time" :: List.filter (fun col => has col (columns sd3)) fields in
  sd4 ← project columns_order sd3;
  if negb (df_empty sd4) && has "time" (columns sd4) then
    (* the report of the time range: with [time] among the fields the
       selection holds that column twice and [sd4['time']] is a frame *)
    if has "time" fields then
      if has period ["1d"]
      then Raised (AttributeError "'DataFrame' object has no attribute 'dt'")
      else Raised (ValueError "The truth value of a Series is ambiguous")
    else Returned sd4
  else Returned sd4.

(** ** Formatting *)

(** Civil date (year, month, day) of a day number. *)
Definition civil_from_days (days : Z) : Z * Z * Z :=
  let z := days + 719468 in
  let era := z / 146097 in
  let doe := z - era * 146097 in
  let yoe := (doe - doe / 1460 + doe / 36524 - doe / 146096) / 365 in
  let doy := doe - (365 * yoe + yoe / 4 - yoe / 100) in
  let mp := (5 * doy + 2) / 153 in
  let d := doy - (153 * mp + 2) / 5 + 1 in
  let m := if mp <? 10 then mp + 3 else mp - 9 in
  (yoe + era * 400 + (if m <=? 2 then 1 else 0), m, d).

Definition digit_char (n : Z) : ascii := ascii_of_nat (48 + Z.to_nat n).

Fixpoint digits_acc (fuel : nat) (n : Z) (acc : string) : string :=
  match fuel with
  | O => acc
  | S f =>
      let acc' := String (digit_char (n mod 10)) acc in
      if n <? 10 then acc' else digits_acc f (n / 10) acc'
  end.

(** [str(n)] for [n >= 0]. *)
Definition str_nat (n : Z) : string :=
  digits_acc (S (Z.to_nat (Z.log2 n))) n "".

Fixpoint zeros (n : nat) : string :=
  match n with
  | O => ""
  | S k => String "0" (zeros k)
  end.

Definition zfill (w : nat) (s : string) : string :=
  (zeros (w - String.length s) ++ s)%string.

(** [f"{x:0wd}"]: zero padding to width [w], the sign counted in the width. *)
Definition format_0d (w : nat) (x : Z) : string :=
  if x <? 0 then String "-" (zfill (w - 1) (str_nat (- x)))
  else zfill w (str_nat x).

(** [str(d)] for a [date] given by its day number: [YYYY-MM-DD]. *)
Definition str_date (days : Z) : string :=
  let '(y, m, d) := civil_from_days days in
  (format_0d 4 y ++ "-" ++ format_0d 2 m ++ "-" ++ format_0d 2 d)%string.

(** ** Grouping of minute bars *)

(** [(hour - 9) * 60 + minute - 31], less 90 from 13:00 on. *)
Definition minutes_since_931 (t : Z) : Z :=
  (hour_of t - 9) * 60 + minute_of t - 31
  - (if 13 <=? hour_of t then 90 else 0).

(** The [group_id] of a minute bar, for [period_minutes <> 0]. *)
Definition minute_group_id (period_minutes : Z) (r : gmap string Z) : string :=
  match r !! "time" with
  | Some t =>
      (str_date (date_of t) ++ "_"
       ++ format_0d 3 (minutes_since_931 t / period_minutes))%string
  | None => "NaT"
  end.

(** [len(df) > bar_count] guards [df.tail(bar_count)]. *)
Definition trim (bar_count : Z) (df : DataFrame) : DataFrame :=
  if bar_count <? len df then tail bar_count df else df.

(** Sequential loop with an accumulator; an exception ends it. *)
Fixpoint for_each {A S} (f : S -> A -> outcome S) (l : list A) (s : S)
  : outcome S :=
  match l with
  | [] => Returned s
  | a :: t => s' ← f s a; for_each f t s'
  end.

(** [not data] / the table of a symbol when present and non-empty. *)
Definition no_data (data : gmap string (option DataFrame)) : bool :=
  bool_decide (size data = 0%nat).

Definition table_of (data : gmap string (option DataFrame)) (code : string)
  : option DataFrame :=
  match data !! code with
  | Some (Some df) => if df_empty df then None else Some df
  | _ => None
  end.

(** ** The functions that use the collaborators *)

(** The collaborators outside the repository. *)
Class Collaborators : Type := {
  (** [datetime.strptime(s, fmt)]; [None] stands for its [ValueError]. *)
  strptime : string -> string -> option Z;
  (** [t.strftime(fmt)] *)
  strftime : Z -> string -> string;
  (** [d in _cn_holidays], on a day number. *)
  cn_holidays : Z -> bool;
  (** [datetime.now()] *)
  now : Z;
  (** The state of the market data store, [xtdata.download_history_data]
      and [xtdata.get_market_data_ex].  The two date arguments are the days
      that the code prints with [strftime('%Y%m%d')]. *)
  source : Type;
  download_history_data :
    source -> string -> string -> Z -> Z -> outcome source;
  get_market_data_ex :
    source -> list string -> list string -> string -> Z -> Z -> string ->
    outcome (gmap string (option DataFrame))
}.

Section Functions.

Context {collaborators : Collaborators}.

(** [for fmt in fmts: try: return strptime(s, fmt) except ValueError: continue] *)
Definition first_format (s : string) (fmts : list string) : option Z :=
  fold_right
    (fun fmt rest => match strptime s fmt with Some t => Some t | None => rest end)
    None fmts.

Definition strptime_exn (s fmt : string) : outcome Z :=
  match strptime s fmt with
  | Some t => Returned t
  | None => Raised (ValueError "time data does not match format")
  end.

(** *** [is_trade_day] *)

(** The body of the outer [try]. *)
Definition trade_day_main (date_str : string) : outcome bool :=
  date_obj ←
    (if contains "-" date_str && (slen date_str =? 10) then
       t ← strptime_exn date_str "%Y-%m-%d"; Returned (Some t)
     else if isdigit date_str && (slen date_str =? 8) then
       t ← strptime_exn date_str "%Y%m%d"; Returned (Some t)
     else
       Returned (first_format date_str ["%Y-%m-%d"; "%Y%m%d"; "%Y/%m/%d"]));
  match date_obj with
  | None => Raised (ValueError "cannot parse date")
  | Some t =>
      if 5 <=? weekday (date_of t) then Returned false
      else if cn_holidays (date_of t) then Returned false
      else Returned true
  end.

(** The body of the [try] inside the handler. *)
Definition trade_day_fallback (date_str : string) : outcome bool :=
  match first_format date_str ["%Y-%m-%d"; "%Y%m%d"] with
  | None => Returned true
  | Some t =>
      if cn_holidays (date_of t) then Returned false
      else if 5 <=? weekday (date_of t) then Returned false
      else Returned true
  end.

Definition is_trade_day (date_str : option string) : outcome bool :=
  let s :=
    match date_str with
    | None => strftime now "%Y-%m-%d"
    | Some s => s
    end in
  try_except (trade_day_main s)
    (fun _ => try_except (trade_day_fallback s) (fun _ => Returned true)).

(** *** [_get_year_first_trade_day] and [_get_trade_days_list] *)

(** The [while current_date < end_date] loop; [None] when it runs out.  The
    step of one day stays below February 1 of a year of [datetime], where
    [current_date + timedelta(days=1)] cannot overflow. *)
Fixpoint first_trade_day_loop (fuel : nat) (current_date end_date : Z)
  : outcome (option Z) :=
  match fuel with
  | O => Returned None
  | S n =>
      if current_date <? end_date then
        b ← is_trade_day (Some (strftime current_date "%Y-%m-%d"));
        if b : bool then Returned (Some current_date)
        else first_trade_day_loop n (add_days current_date 1) end_date
      else Returned None
  end.

Definition _get_year_first_trade_day (year : Z) : outcome Z :=
  current_date ← datetime year 1 1;
  end_date ← datetime year 2 1;
  found ← first_trade_day_loop
             (Z.to_nat ((end_date - current_date) / ms_per_day + 1))
             current_date end_date;
  match found with
  | Some d => Returned d
  | None => datetime year 1 1
  end.

(** The [while current <= end_date] loop. *)
Fixpoint trade_days_loop (fuel : nat) (current end_date : Z)
  : outcome (list Z) :=
  match fuel with
  | O => Returned []
  | S n =>
      if current <=? end_date then
        b ← is_trade_day (Some (strftime current "%Y-%m-%d"));
        next ← plus_days current 1;
        rest ← trade_days_loop n next end_date;
        Returned (if b : bool then current :: rest else rest)
      else Returned []
  end.

Definition _get_trade_days_list (start_date end_date : Z) : outcome (list Z) :=
  trade_days_loop (Z.to_nat ((end_date - start_date) / ms_per_day + 1))
    start_date end_date.

(** *** Refresh of the store *)

(** The per-symbol [try: download_history_data(...) except: log] loop. *)
Definition download_all (src : source) (stock_codes : list string)
  (period : string) (start_day end_day : Z) : source :=
  fold_left
    (fun s code =>
       match download_history_data s code period start_day end_day with
       | Returned s' => s'
       | Raised _ => s
       end)
    stock_codes src.

(** *** [khHistory] *)

Definition parse_history_time (current_time : option string) : outcome Z :=
  match current_time with
  | None => Returned now
  | Some s =>
      match first_format (strip s)
              ["%Y%m%d %H%M%S"; "%Y-%m-%d %H:%M:%S"; "%Y%m%d"; "%Y-%m-%d"] with
      | Some t => Returned t
      | None => Raised (ValueError "cannot parse time format")
      end
  end.

(** One turn of the loop over [stock_codes]. *)
Definition history_step (period : string) (current_datetime : Z)
  (skip_paused : bool) (bar_count : Z) (fields : list string)
  (data : gmap string (option DataFrame))
  (result : list (string * DataFrame)) (stock_code : string)
  : outcome (list (string * DataFrame)) :=
  match table_of data stock_code with
  | None => Returned (dict_set stock_code empty_frame result)
  | Some stock_data =>
      sd ← history_frame period current_datetime skip_paused bar_count fields
             stock_data;
      Returned (dict_set stock_code sd result)
  end.

(** The body of the [try] of [khHistory]. *)
Definition history_body (src : source) (stock_codes fields : list string)
  (bar_count : Z) (period : string) (current_datetime : Z)
  (skip_paused : bool) (dividend_type : string) (force_download : bool)
  : outcome (list (string * DataFrame)) :=
  let current_day := date_of current_datetime in
  let lookback_days := history_lookback_days period bar_count in
  start_dt ← plus_days current_datetime (- lookback_days);
  let start_day := date_of start_dt in
  let src1 :=
    if force_download
    then download_all src stock_codes period start_day current_day
    else src in
  data ← get_market_data_ex src1 ("time" :: fields) stock_codes period
            start_day current_day dividend_type;
  if no_data data then Returned []
  else
    for_each
      (history_step period current_datetime skip_paused bar_count fields data)
      stock_codes [].

Definition khHistory (src : source) (symbol_list : symbols)
  (fields : list string) (bar_count : Z) (fre_step : string)
  (current_time : option string) (skip_paused : bool) (fq : string)
  (force_download : bool) : outcome (list (string * DataFrame)) :=
  if no_symbols symbol_list then Raised (ValueError "symbol_list is empty")
  else if bool_decide (fields = []) then Raised (ValueError "fields is empty")
  else if bar_count <=? 0 then Raised (ValueError "bar_count must be positive")
  else
    current_datetime ← parse_history_time current_time;
    Returned
      (match history_body src (stock_codes_of symbol_list) fields bar_count
               fre_step current_datetime skip_paused (dividend_type_of fq)
               force_download with
       | Returned result => result
       | Raised _ => []
       end).

(** *** [khKline] and its routes *)

(** [max(10, (bar_count * period_minutes + 1439) // 1440)] *)
Definition minute_lookback_days (bar_count period_minutes : Z) : Z :=
  Z.max 10 ((bar_count * period_minutes + 1439) / 1440).

(** The refresh and the bulk read shared by the routes. *)
Definition fetch (src : source) (stock_codes fields : list string)
  (period_str : string) (start_day end_day : Z) (dividend_type : string)
  (force_download : bool) : outcome (gmap string (option DataFrame)) :=
  let src1 :=
    if force_download
    then download_all src stock_codes period_str start_day end_day
    else src in
  get_market_data_ex src1 ("time" :: fields) stock_codes period_str
    start_day end_day dividend_type.

(** [start_dt = target_datetime - timedelta(days=lookback_days)], then the
    refresh and the read from the day of [start_dt] to the day of the
    target. *)
Definition look_back (src : source) (stock_codes fields : list string)
  (period_str : string) (lookback_days target_datetime : Z)
  (dividend_type : string) (force_download : bool)
  : outcome (gmap string (option DataFrame)) :=
  start_dt ← plus_days target_datetime (- lookback_days);
  fetch src stock_codes fields period_str (date_of start_dt)
    (date_of target_datetime) dividend_type force_download.

(** Native route, one symbol: keep the bars up to the target under [mask],
    sort, trim. *)
Definition native_frame (mask : gmap string Z -> bool) (bar_count : Z)
  (df0 : DataFrame) : outcome DataFrame :=
  df1 ← to_local_time df0;
  df2 ← sort_values_time (select mask df1);
  Returned (trim bar_count df2).

(** Synthesized minute and hour routes, one symbol. *)
Definition minute_frame (period_minutes bar_count : Z) (fields : list string)
  (target_datetime : Z) (df0 : DataFrame) : outcome DataFrame :=
  df1 ← to_local_time df0;
  let df2 := select (time_leb target_datetime) df1 in
  if df_empty df2 then Returned empty_frame
  else
    df3 ← sort_values_time df2;
    df4 ← _process_930_data df3 fields;
    if (period_minutes =? 0) && negb (df_empty df4)
    then Raised (ValueError "format code 'd' for object of type 'float'")
    else
      (* the working columns [date] and [minutes_since_931] only feed the
         labels and never leave the aggregation *)
      let df5 :=
        set_labels "group_id"
          (map (fun r => Some (minute_group_id period_minutes r)) (rows df4))
          df4 in
      agg_df ← _aggregate_kline df5 "group_id" fields;
      let agg_df :=
        if has "group_id" (columns agg_df)
        then drop_column "group_id" agg_df else agg_df in
      Returned (trim bar_count agg_df).

(** The loop over [stock_codes] common to all routes. *)
Definition per_symbol (frame : DataFrame -> outcome DataFrame)
  (data : gmap string (option DataFrame)) (stock_codes : list string)
  : outcome (list (string * DataFrame)) :=
  for_each
    (fun result stock_code =>
       match table_of data stock_code with
       | None => Returned (dict_set stock_code empty_frame result)
       | Some df =>
           out ← frame df;
           Returned (dict_set stock_code out result)
       end)
    stock_codes [].

Definition _get_minute_kline (src : source) (stock_codes : list string)
  (period_minutes bar_count : Z) (fields : list string) (target_datetime : Z)
  (dividend_type : string) (force_download : bool)
  : outcome (list (string * DataFrame)) :=
  if bool_decide (period_minutes = 1 \/ period_minutes = 5) then
    data ← look_back src stock_codes fields
              (str_nat period_minutes ++ "m")%string
              (minute_lookback_days bar_count period_minutes) target_datetime
              dividend_type force_download;
    if no_data data then Returned []
    else per_symbol (native_frame (time_leb target_datetime) bar_count)
           data stock_codes
  else
    data ← look_back src stock_codes fields "1m"
              (minute_lookback_days bar_count period_minutes) target_datetime
              dividend_type force_download;
    if no_data data then Returned []
    else per_symbol
           (minute_frame period_minutes bar_count fields target_datetime)
           data stock_codes.

Definition _get_hour_kline (src : source) (stock_codes : list string)
  (period_hours bar_count : Z) (fields : list string) (target_datetime : Z)
  (dividend_type : string) (force_download : bool)
  : outcome (list (string * DataFrame)) :=
  let period_minutes := period_hours * 60 in
  data ← look_back src stock_codes fields "1m"
            (minute_lookback_days bar_count period_minutes) target_datetime
            dividend_type force_download;
  if no_data data then Returned []
  else per_symbol
         (minute_frame period_minutes bar_count fields target_datetime)
         data stock_codes.

(** [trade_day_to_index]: date of each listed day to its position. *)
Definition trade_day_to_index (trade_days_list : list Z) : gmap Z Z :=
  fold_left
    (fun (m : gmap Z Z) (it : nat * Z) => <[date_of it.2 := Z.of_nat it.1]> m)
    (imap pair trade_days_list) ∅.

(** [get_group_id(row)] *)
Definition get_group_id (index : gmap Z Z) (period_days target_year : Z)
  (r : gmap string Z) : outcome (option string) :=
  match date_of <$> r !! "time" with
  | None => Returned None
  | Some trade_date =>
      match index !! trade_date with
      | None => Returned None
      | Some trade_index =>
          if period_days =? 0 then Raised ZeroDivisionError
          else Returned
                 (Some (str_nat target_year ++ "_"
                        ++ format_0d 3 (trade_index / period_days))%string)
      end
  end.

(** [df.apply(f, axis=1)]: the results row by row; an exception ends it. *)
Fixpoint apply_rows {B} (f : gmap string Z -> outcome B)
  (l : list (gmap string Z)) : outcome (list B) :=
  match l with
  | [] => Returned []
  | r :: t => b ← f r; bs ← apply_rows f t; Returned (b :: bs)
  end.

(** Multi-day route, one symbol.  The working column [trade_date] only
    feeds the labels. *)
Definition multi_day_frame (trade_days_list : list Z)
  (period_days bar_count target_year : Z) (fields : list string)
  (target_datetime : Z) (df0 : DataFrame) : outcome DataFrame :=
  df1 ← to_local_time df0;
  let df2 := select (date_leb target_datetime) df1 in
  if df_empty df2 then Returned empty_frame
  else
    df3 ← sort_values_time df2;
    let index := trade_day_to_index trade_days_list in
    cells ← apply_rows (get_group_id index period_days target_year) (rows df3);
    let df4 := notna_labels (set_labels "group_id" cells df3) in
    if df_empty df4 then Returned empty_frame
    else
      agg_df ← _aggregate_kline df4 "group_id" fields;
      Returned (trim bar_count agg_df).

Definition _get_day_kline (src : source) (stock_codes : list string)
  (period_days bar_count : Z) (fields : list string) (target_datetime : Z)
  (dividend_type : string) (force_download : bool)
  : outcome (list (string * DataFrame)) :=
  let end_day := date_of target_datetime in
  if period_days =? 1 then
    data ← look_back src stock_codes fields "1d" (bar_count * 5)
              target_datetime dividend_type force_download;
    if no_data data then Returned []
    else per_symbol (native_frame (date_leb target_datetime) bar_count)
           data stock_codes
  else
    first0 ← _get_year_first_trade_day (year_of target_datetime);
    '(target_year, year_first_day) ←
      (if target_datetime <? first0 then
         first1 ← _get_year_first_trade_day (year_of target_datetime - 1);
         Returned (year_of target_datetime - 1, first1)
       else Returned (year_of target_datetime, first0));
    let lookback_days := bar_count * period_days * 5 in
    back ← plus_days target_datetime (- lookback_days);
    let start_dt := Z.max year_first_day back in
    data ← fetch src stock_codes fields "1d" (date_of start_dt) end_day
              dividend_type force_download;
    if no_data data then Returned []
    else
      year_end ← datetime target_year 12 31;
      trade_days_list ←
        _get_trade_days_list year_first_day (Z.min target_datetime year_end);
      match trade_days_list with
      | [] => Returned []
      | _ =>
          per_symbol
            (multi_day_frame trade_days_list period_days bar_count target_year
               fields target_datetime)
            data stock_codes
      end.

Definition parse_kline_time (end_time : option string) : outcome Z :=
  match end_time with
  | None => Returned now
  | Some s =>
      match first_format (strip s)
              ["%Y-%m-%d %H:%M:%S"; "%Y%m%d %H%M%S"; "%Y%m%d %H%M";
               "%Y-%m-%d %H:%M"; "%Y%m%d"; "%Y-%m-%d"] with
      | Some t => Returned (truncate_seconds t)
      | None => Raised (ValueError "cannot parse time format")
      end
  end.

Definition default_fields : list string :=
  ["open"; "high"; "low"; "close"; "volume"].

Definition khKline (src : source) (symbol_list : symbols) (period : string)
  (bar_count : Z) (fields : option (list string)) (end_time : option string)
  (fq : string) (force_download : bool)
  : outcome (list (string * DataFrame)) :=
  let fields := default default_fields fields in
  if no_symbols symbol_list then Raised (ValueError "symbol_list is empty")
  else if String.eqb period "" then Raised (ValueError "period is empty")
  else if bar_count <=? 0 then Raised (ValueError "bar_count must be positive")
  else
    match match_period (lower period) with
    | None => Raised (ValueError "unsupported period format")
    | Some (digits, period_unit) =>
        let period_num := int digits in
        let stock_codes := stock_codes_of symbol_list in
        target_datetime ← parse_kline_time end_time;
        let dividend_type := dividend_type_of fq in
        let route :=
          if Ascii.eqb period_unit "m" then
            _get_minute_kline src stock_codes period_num bar_count fields
              target_datetime dividend_type force_download
          else if Ascii.eqb period_unit "h" then
            _get_hour_kline src stock_codes period_num bar_count fields
              target_datetime dividend_type force_download
          else if Ascii.eqb period_unit "d" then
            _get_day_kline src stock_codes period_num bar_count fields
              target_datetime dividend_type force_download
          else Raised (ValueError "unsupported period unit") in
        Returned
          (match route with
           | Returned result => result
           | Raised _ => []
           end)
    end.

End Functions.

(** ** Further functions of [khQTTools.py] *)

(** [_parse_period(period)] *)
Definition _parse_period (period : string) : outcome (Z * ascii) :=
  match match_period (lower period) with
  | Some (digits, u) => Returned (int digits, u)
  | None => Raised (ValueError "unsupported period format")
  end.

(** [s.split('.')[0]]: the text before the first dot. *)
Fixpoint before_dot (s : string) : string :=
  match s with
  | EmptyString => EmptyString
  | String c t => if Ascii.eqb c "." then EmptyString else String c (before_dot t)
  end.

(** [is_etf(stock_code)] *)
Definition is_etf (stock_code : string) : bool :=
  let code := before_dot stock_code in
  existsb (fun p => String.prefix p code) ["51"; "52"; "53"; "55"; "56"; "58"]
  || String.prefix "159" code.

(** [determine_pool_type(stock_list)]: the pool type and the price decimals. *)
Definition determine_pool_type (stock_list : list string) : string * Z :=
  match stock_list with
  | [] => ("stock_only", 2)
  | _ =>
      let has_stock := existsb (fun code => negb (is_etf code)) stock_list in
      let has_etf := existsb is_etf stock_list in
      if has_stock && negb has_etf then ("stock_only", 2)
      else if has_etf && negb has_stock then ("etf_only", 3)
      else ("mixed", 3)
  end.

(** [code in t0_list], for the set that [load_t0_etf_list] returns. *)
Definition in_t0 (t0_list : gset string) (code : string) : bool :=
  bool_decide (code ∈ t0_list).

(** [check_t0_support(stock_list)], given the loaded set. *)
Definition check_t0_support (t0_list : gset string) (stock_list : list string)
  : string * bool :=
  match stock_list with
  | [] => ("no_t0", false)
  | _ =>
      let t0_count := Z.of_nat (length (List.filter (in_t0 t0_list) stock_list)) in
      let total_count := Z.of_nat (length stock_list) in
      if t0_count =? total_count then ("all_t0", true)
      else if 0 <? t0_count then ("mixed", false)
      else ("no_t0", false)
  end.

Record t0_details : Type := mk_t0_details {
  t0_stocks : list string;
  non_t0_stocks : list string;
  t0_count : Z;
  total_count : Z
}.

(** [get_t0_details(stock_list)], given the loaded set. *)
Definition get_t0_details (t0_list : gset string) (stock_list : list string)
  : t0_details :=
  let t0 := List.filter (in_t0 t0_list) stock_list in
  let non_t0 := List.filter (fun code => negb (in_t0 t0_list code)) stock_list in
  mk_t0_details t0 non_t0 (Z.of_nat (length t0)) (Z.of_nat (length stock_list)).

Section Counting.

Context {collaborators : Collaborators}.

(** The [while current_dt <= end_dt] loop of [get_trade_days_count]. *)
Fixpoint trade_days_count_loop (fuel : nat) (current_dt end_dt trade_days : Z)
  : outcome Z :=
  match fuel with
  | O => Returned trade_days
  | S n =>
      if current_dt <=? end_dt then
        b ← is_trade_day (Some (strftime current_dt "%Y-%m-%d"));
        next ← plus_days current_dt 1;
        trade_days_count_loop n next end_dt
          (if b : bool then trade_days + 1 else trade_days)
      else Returned trade_days
  end.

(** [get_trade_days_count(start_date, end_date)]; any exception gives 0. *)
Definition get_trade_days_count (start_date end_date : string) : Z :=
  match
    (start_dt ← strptime_exn start_date "%Y-%m-%d";
     end_dt ← strptime_exn end_date "%Y-%m-%d";
     if end_dt <? start_dt then Returned 0
     else trade_days_count_loop
            (Z.to_nat ((end_dt - start_dt) / ms_per_day + 1))
            start_dt end_dt 0)
  with
  | Returned n => n
  | Raised _ => 0
  end.

End Counting.

(** ** A reference instance of the collaborators

    A strict [strptime] for fixed-width numeric fields, an ISO [strftime], a
    two-day holiday table, and a store that answers every read with the
    tables it holds. *)

Module Reference.

Fixpoint take_digits (n : nat) (s : string) (acc : Z) : option (Z * string) :=
  match n with
  | O => Some (acc, s)
  | S k =>
      match s with
      | String c t =>
          if is_digit c then take_digits k t (10 * acc + digit_value c)
          else None
      | EmptyString => None
      end
  end.

Definition field_width (c : ascii) : nat :=
  if Ascii.eqb c "Y" then 4%nat else 2%nat.

Definition field (c : ascii) (dflt : Z) (fs : list (ascii * Z)) : Z :=
  match List.find (fun cv : ascii * Z => Ascii.eqb cv.1 c) fs with
  | Some cv => cv.2
  | None => dflt
  end.

Definition build (fs : list (ascii * Z)) : option Z :=
  let y := field "Y" 1900 fs in
  let m := field "m" 1 fs in
  let d := field "d" 1 fs in
  let hh := field "H" 0 fs in
  let mm := field "M" 0 fs in
  let ss := field "S" 0 fs in
  if (1 <=? y) && (1 <=? m) && (m <=? 12) && (1 <=? d) && (d <=? 31)
     && (hh <? 24) && (mm <? 60) && (ss <? 60)
  then Some (days_from_civil y m d * ms_per_day
             + hh * ms_per_hour + mm * ms_per_minute + ss * 1000)
  else None.

Fixpoint parse (fmt s : string) (fs : list (ascii * Z)) : option Z :=
  match fmt with
  | EmptyString => match s with EmptyString => build fs | _ => None end
  | String "%" (String c rest) =>
      match take_digits (field_width c) s 0 with
      | Some (v, s') => parse rest s' ((c, v) :: fs)
      | None => None
      end
  | String a rest =>
      match s with
      | String b s' => if Ascii.eqb a b then parse rest s' fs else None
      | EmptyString => None
      end
  end.

Definition strict_strptime (s fmt : string) : option Z := parse fmt s [].

Definition iso_strftime (t : Z) (fmt : string) : string :=
  str_date (date_of t).

Definition holiday_table (d : Z) : bool :=
  bool_decide (d = days_from_civil 2024 1 1 \/ d = days_from_civil 2024 10 1).

#[export] Instance collaborators : Collaborators := {|
  strptime := strict_strptime;
  strftime := iso_strftime;
  cn_holidays := holiday_table;
  now := days_from_civil 2024 12 2 * ms_per_day + 10 * ms_per_hour;
  source := gmap string (option DataFrame);
  download_history_data := fun src _ _ _ _ => Returned src;
  get_market_data_ex := fun src _ _ _ _ _ _ => Returned src
|}.

(** A bar with the five default fields. *)
Definition bar (t o h l c v : Z) : gmap string Z :=
  <["time" := t]> (<["open" := o]> (<["high" := h]> (<["low" := l]>
    (<["close" := c]> (<["volume" := v]> ∅))))).

Definition bar_columns : list string :=
  ["time"; "open"; "high"; "low"; "close"; "volume"].

(** Local clock time of a civil date and time of day. *)
Definition at_time (y m d hh mm : Z) : Z :=
  days_from_civil y m d * ms_per_day + hh * ms_per_hour + mm * ms_per_minute.

(** The source stamp (UTC milliseconds) of a local time. *)
Definition stamp (t : Z) : Z := t - 8 * ms_per_hour.

End Reference.

(** ** Values the statements refer to *)

(** The cell of a row, zero when missing. *)
Definition cell (c : string) (r : gmap string Z) : Z := default 0 (r !! c).

(** The sum of a column over a group. *)
Definition total (c : string) (g : list (gmap string Z)) : Z :=
  foldr (fun r acc => cell c r + acc) 0 g.

(** The fields with a rule in [_aggregate_kline]. *)
Definition rule_table : list string :=
  ["time"; "open"; "high"; "low"; "close"; "volume"; "amount"].

Definition ohlcva : list string :=
  ["open"; "high"; "low"; "close"; "volume"; "amount"].

(** The cells of a row in the listed columns. *)
Definition cells (cs : list string) (r : gmap string Z) : list (option Z) :=
  map (fun c => r !! c) cs.

(** The columns of a returned frame and its rows read in the columns [cs]. *)
Definition view (cs : list string) (o : outcome DataFrame)
  : option (list string * list (list (option Z))) :=
  match o with
  | Returned df => Some (columns df, map (cells cs) (rows df))
  | Raised _ => None
  end.


(** The date formats that [is_trade_day] tries. *)
Definition date_formats : list string := ["%Y-%m-%d"; "%Y%m%d"; "%Y/%m/%d"].

(** Monday to Friday and no exchange holiday. *)
Definition weekday_and_no_holiday {collaborators : Collaborators} (t : Z)
  : bool :=
  (weekday (date_of t) <? 5) && negb (cn_holidays (date_of t)).

(** The outcome is a [ValueError]. *)
Definition raises_value_error {A} (o : outcome A) : Prop :=
  exists msg, o = Raised (ValueError msg).

(** One or more decimal digits, then one of the unit letters m, h, d. *)
Definition count_and_unit (s : string) : Prop :=
  exists (digits : string) (u : ascii),
    s = (digits ++ String u "")%string /\
    digits <> "" /\ all_digits digits = true /\ is_unit u = true.

(** The texts that the pattern of [khKline] accepts: a count and a unit,
    alone or before one final newline. *)
Definition period_text (s : string) : Prop :=
  count_and_unit s \/
  exists s0, s = (s0 ++ String newline "")%string /\ count_and_unit s0.

(** The time formats that [khKline] tries. *)
Definition kline_time_formats : list string :=
  ["%Y-%m-%d %H:%M:%S"; "%Y%m%d %H%M%S"; "%Y%m%d %H%M"; "%Y-%m-%d %H:%M";
   "%Y%m%d"; "%Y-%m-%d"].

(** The symbols of a returned mapping with the number of bars of each. *)
Definition table_lengths (o : outcome (list (string * DataFrame)))
  : option (list (string * Z)) :=
  match o with
  | Returned result =>
      Some (map (fun kv : string * DataFrame => (kv.1, len kv.2)) result)
  | Raised _ => None
  end.

(** The symbols of a returned mapping with the [time] column of each. *)
Definition table_times (o : outcome (list (string * DataFrame)))
  : option (list (string * list (option Z))) :=
  match o with
  | Returned result =>
      Some (map (fun kv : string * DataFrame =>
                   (kv.1, map (fun r : gmap string Z => r !! "time")
                            (rows kv.2)))
              result)
  | Raised _ => None
  end.

(** Keys in strictly ascending order. *)
Inductive ascending : list string -> Prop :=
| ascending_nil : ascending []
| ascending_one (k : string) : ascending [k]
| ascending_cons (k h : string) (t : list string) :
    String.compare k h = Lt -> ascending (h :: t) -> ascending (k :: h :: t).

(** [p] holds on the [n] integers from [start] on. *)
Fixpoint range_all (n : nat) (start : Z) (p : Z -> bool) : bool :=
  match n with
  | O => true
  | S k => p start && range_all k (start + 1) p
  end.

(** The days from the epoch to the end of 2099, on which the order of the
    date labels is checked. *)
Definition first_day : Z := days_from_civil 1970 1 1.
Definition end_day : Z := days_from_civil 2100 1 1.

(** [a] sorts strictly before [b] and has [w] characters. *)
Definition before_with_width (w : nat) (a b : string) : bool :=
  match String.compare a b with Lt => true | _ => false end
  && (String.length a =? w)%nat.

(** The time of day lies in a trading session: 09:30 to 11:30, or 13:00 and
    later. *)
Definition session_time (t : Z) : bool :=
  let m := hour_of t * 60 + minute_of t in
  ((570 <=? m) && (m <=? 690)) || (780 <=? m).

(** The [group_id] that a bar stamped at the reference time would get. *)
Definition reference_group (period_minutes target_datetime : Z) : string :=
  minute_group_id period_minutes {["time" := target_datetime]}.

(** The day [x] is a trading day for [is_trade_day], asked the way the scans
    ask it. *)
Definition trading {collaborators : Collaborators} (x : Z) : Prop :=
  is_trade_day (Some (strftime x "%Y-%m-%d")) = Returned true.

(** The bars of a source table that [khHistory] may return: in local time,
    before the reference time, ascending, and with a positive volume when
    paused bars are skipped and the table has a volume column. *)
Definition history_candidates (period : string) (reference : Z)
  (skip_paused : bool) (stock_data : DataFrame) : list (gmap string Z) :=
  let sorted :=
    sort_rows (List.filter (history_mask period reference)
                 (map local_row (rows stock_data))) in
  if skip_paused && has "volume" (columns stock_data)
  then List.filter volume_positive sorted else sorted.

(** The columns of a table of [khHistory]: [time], then the requested fields
    that the source table has. *)
Definition history_columns (fields : list string) (stock_data : DataFrame)
  : list string :=
  "time" :: List.filter (fun col => has col (columns stock_data)) fields.

(** The cells of a row under the listed columns. *)
Definition project_row (cols : list string) (r : gmap string Z)
  : gmap string Z :=
  filter (fun kv : string * Z => has kv.1 cols = true) r.

(** The tables that [khHistory] reads for a call, after the refresh of the
    store when one is forced. *)
Definition history_data {collaborators : Collaborators} (src : source)
  (stock_codes fields : list string) (bar_count : Z) (period : string)
  (reference : Z) (dividend_type : string) (force_download : bool)
  : outcome (gmap string (option DataFrame)) :=
  let current_day := date_of reference in
  start_dt ← plus_days reference (- history_lookback_days period bar_count);
  let start_day := date_of start_dt in
  get_market_data_ex
    (if force_download
     then download_all src stock_codes period start_day current_day
     else src)
    ("time" :: fields) stock_codes period start_day current_day dividend_type.

(** How [khKline] makes the table of one symbol from its source table, by
    the unit and the count of the period. *)
Inductive kline_table (period_unit : ascii) (period_num bar_count : Z)
  (fields : list string) (target_datetime : Z) (df0 out : DataFrame) : Prop :=
| native_minute_table :
    period_unit = "m"%char -> period_num = 1 \/ period_num = 5 ->
    native_frame (time_leb target_datetime) bar_count df0 = Returned out ->
    kline_table period_unit period_num bar_count fields target_datetime df0 out
| synthesized_minute_table :
    period_unit = "m"%char -> ~ (period_num = 1 \/ period_num = 5) ->
    minute_frame period_num bar_count fields target_datetime df0
    = Returned out ->
    kline_table period_unit period_num bar_count fields target_datetime df0 out
| synthesized_hour_table :
    period_unit = "h"%char ->
    minute_frame (period_num * 60) bar_count fields target_datetime df0
    = Returned out ->
    kline_table period_unit period_num bar_count fields target_datetime df0 out
| native_day_table :
    period_unit = "d"%char -> period_num = 1 ->
    native_frame (date_leb target_datetime) bar_count df0 = Returned out ->
    kline_table period_unit period_num bar_count fields target_datetime df0 out
| multi_day_table (trade_days_list : list Z) (target_year : Z) :
    period_unit = "d"%char -> period_num <> 1 ->
    multi_day_frame trade_days_list period_num bar_count target_year fields
      target_datetime df0 = Returned out ->
    kline_table period_unit period_num bar_count fields target_datetime df0 out.

(** [df0] is the table that the data source returned for [code] in a call of
    [khKline]. *)
Definition kline_source {collaborators : Collaborators} (src : source)
  (stock_codes fields : list string) (target_datetime : Z)
  (dividend_type : string) (force_download : bool) (code : string)
  (df0 : DataFrame) : Prop :=
  exists data period_str start_day,
    fetch src stock_codes fields period_str start_day
      (date_of target_datetime) dividend_type force_download = Returned data /\
    table_of data code = Some df0.

(** The bar [r] carries the stamp of a bar of the source table [df0], moved
    to local time, and that stamp is not after the reference: on the time for
    minute and hour periods, on the calendar date for day periods. *)
Definition stamped_up_to (period_unit : ascii) (target_datetime : Z)
  (df0 : DataFrame) (r : gmap string Z) : Prop :=
  exists t x,
    r !! "time" = Some t /\
    (if Ascii.eqb period_unit "d" then date_of t <= date_of target_datetime
     else t <= target_datetime) /\
    In x (rows df0) /\
    x !! "time" = Some (t - 8 * ms_per_hour).

(** A stamp of a trading session, on a day from 1970 to 2099. *)
Definition session_stamp (t : Z) : Prop :=
  session_time t = true /\ first_day <= date_of t /\ date_of t < end_day.

(** [datetime.strptime(s, fmt)] succeeds. *)
Definition strptime_ok {collaborators : Collaborators} (s fmt : string)
  : Prop :=
  strptime s fmt <> None.

(** The formats that [khHistory] tries on its reference time, in order. *)
Definition history_time_formats : list string :=
  ["%Y%m%d %H%M%S"; "%Y-%m-%d %H:%M:%S"; "%Y%m%d"; "%Y-%m-%d"].

(** The label that [get_group_id] gives a row, when it gives one. *)
Definition day_group_label (index : gmap Z Z) (period_days target_year : Z)
  (r : gmap string Z) : string :=
  match get_group_id index period_days target_year r with
  | Returned (Some s) => s
  | _ => ""
  end.

Definition has_group (index : gmap Z Z) (period_days target_year : Z)
  (r : gmap string Z) : bool :=
  match get_group_id index period_days target_year r with
  | Returned (Some _) => true
  | _ => false
  end.

(** The aggregated bars of the rows [g] grouped by the labelling
    [group_col], one for each label in ascending order. *)
Definition bars_by (group_col : gmap string Z -> string)
  (fields : list string) (g : list (gmap string Z))
  : list (gmap string Z) :=
  map (fun k => agg_row (agg_dict fields) (group_rows group_col k g))
    (group_keys (map group_col g)).

(** A value that an [int64] cell holds. *)
Definition int64 (x : Z) : Prop := - 2 ^ 63 <= x < 2 ^ 63.

(** A table that [khHistory] and [khKline] can read: its column names are
    distinct, [time] is one of them, and its stamps are stamps that a pandas
    [Timestamp] holds, eight hours later too. *)
Definition readable (df : DataFrame) : Prop :=
  List.NoDup (columns df) /\ In "time" (columns df) /\
  forallb convertible (rows df) = true /\
  forallb shiftable (rows df) = true.

(** The day on which a scan from [start_date] in steps of one day leaves
    the range up to [end_date]: the last value that [current] takes. *)
Definition scan_end (start_date end_date : Z) : Z :=
  add_days start_date ((end_date - start_date) / ms_per_day + 1).

(** The bars of a source table that qualify for a table of [khHistory], in
    the order of the source: in local time, before the reference, and with a
    positive volume when paused bars are skipped. *)
Definition history_qualifying (period : string) (reference : Z)
  (skip_paused : bool) (stock_data : DataFrame) : list (gmap string Z) :=
  let masked :=
    List.filter (history_mask period reference)
      (map local_row (rows stock_data)) in
  if skip_paused && has "volume" (columns stock_data)
  then List.filter volume_positive masked else masked.

(** The read of [khKline] for a minute period, an hour period and the period
    of one day: the period of the data and the look-back in days. *)
Definition kline_read {collaborators : Collaborators} (src : source)
  (stock_codes fields : list string) (period_unit : ascii)
  (period_num bar_count target_datetime : Z) (dividend_type : string)
  (force_download : bool) : outcome (gmap string (option DataFrame)) :=
  if Ascii.eqb period_unit "d" then
    look_back src stock_codes fields "1d" (bar_count * 5) target_datetime
      dividend_type force_download
  else if Ascii.eqb period_unit "h" then
    look_back src stock_codes fields "1m"
      (minute_lookback_days bar_count (period_num * 60)) target_datetime
      dividend_type force_download
  else
    look_back src stock_codes fields
      (if bool_decide (period_num = 1 \/ period_num = 5)
       then (str_nat period_num ++ "m")%string else "1m")
      (minute_lookback_days bar_count period_num) target_datetime
      dividend_type force_download.

(** The periods that [khHistory] filters on the exact time. *)
Definition intraday (period : string) : bool :=
  String.eqb period "tick" || has period ["1m"; "5m"].

(** A bar lies strictly before the reference time: on its time for the
    intraday periods, on its calendar date for the others. *)
Definition strictly_before (period : string) (reference : Z)
  (r : gmap string Z) : Prop :=
  exists t : Z,
    r !! "time" = Some t /\
    if intraday period then t < reference
    else date_of t < date_of reference.

Module Examples.

(** The group of two bars of the aggregation example, stamped 1 and 2. *)
Definition two_bars : DataFrame :=
  mkDF Reference.bar_columns
    [Reference.bar 1 10 12 9 11 100; Reference.bar 2 11 13 10 12 200].

(** The same two bars with a further [preClose] column. *)
Definition with_pre_close : DataFrame :=
  mkDF (Reference.bar_columns ++ ["preClose"])
    [<["preClose" := 8]> (Reference.bar 1 10 12 9 11 100);
     <["preClose" := 11]> (Reference.bar 2 11 13 10 12 200)].

(** A morning on 2024-12-02: the anomalous 09:30 bar (open 19, volume 500),
    the 09:31 bar (open 20, volume 300) and the 09:32 bar, in local time. *)
Definition morning : DataFrame :=
  mkDF Reference.bar_columns
    [Reference.bar (Reference.at_time 2024 12 2 9 30) 19 19 19 19 500;
     Reference.bar (Reference.at_time 2024 12 2 9 31) 20 22 19 21 300;
     Reference.bar (Reference.at_time 2024 12 2 9 32) 21 23 20 22 100].

(** [n] one-minute bars of 2024-12-02 from 09:31 on, as the source stamps
    them. *)
Definition minute_bars (n : nat) : list (gmap string Z) :=
  map (fun i : nat =>
         Reference.bar
           (Reference.stamp
              (Reference.at_time 2024 12 2 9 31 + Z.of_nat i * ms_per_minute))
           10 10 10 10 1)
    (seq 0 n).

(** A store with one symbol and 250 bars. *)
Definition long_store : gmap string (option DataFrame) :=
  {["000001.SZ" := Some (mkDF Reference.bar_columns (minute_bars 250))]}.

(** A daily bar of the given date, as the source stamps it. *)
Definition day_bar (y m d close : Z) : gmap string Z :=
  Reference.bar (Reference.stamp (Reference.at_time y m d 0 0))
    close close close close 1.

(** Two symbols in the first days of 2024: [A] trades on January 2, 3 and
    4; [B] on January 2 and 3 only. *)
Definition two_symbol_store : gmap string (option DataFrame) :=
  <["A" := Some (mkDF Reference.bar_columns
                   [day_bar 2024 1 2 10; day_bar 2024 1 3 11;
                    day_bar 2024 1 4 12])]>
    (<["B" := Some (mkDF Reference.bar_columns
                      [day_bar 2024 1 2 20; day_bar 2024 1 3 21])]> ∅).

(** The two bars of the aggregation example with an [amount] column. *)
Definition two_bars_with_amount : DataFrame :=
  mkDF (Reference.bar_columns ++ ["amount"])
    [<["amount" := 1050]> (Reference.bar 1 10 12 9 11 100);
     <["amount" := 2300]> (Reference.bar 2 11 13 10 12 200)].

(** A store in which the table of [A] has no [time] column. *)
Definition untimed_store : gmap string (option DataFrame) :=
  <["A" := Some (mkDF ["close"] [{["close" := 10]}])]>
    (<["B" := Some (mkDF Reference.bar_columns
                      [day_bar 2024 1 2 20; day_bar 2024 1 3 21])]> ∅).

(** The two bars of the aggregation example in one group [g]. *)
Definition two_bars_grouped : DataFrame :=
  set_labels "group_id" [Some "g"; Some "g"] two_bars.

(** The same with the [amount] column. *)
Definition two_bars_with_amount_grouped : DataFrame :=
  set_labels "group_id" [Some "g"; Some "g"] two_bars_with_amount.

(** The same with the [preClose] column. *)
Definition with_pre_close_grouped : DataFrame :=
  set_labels "group_id" [Some "g"; Some "g"] with_pre_close.

(** Two bars of one group whose volumes are 2^62 each. *)
Definition heavy_bars_grouped : DataFrame :=
  set_labels "group_id" [Some "g"; Some "g"]
    (mkDF Reference.bar_columns
       [Reference.bar 1 10 12 9 11 (2 ^ 62);
        Reference.bar 2 11 13 10 12 (2 ^ 62)]).


End Examples.

(** * Properties *)

(** ** Lists, keys and reductions *)

Lemma compare_refl (s : string) : String.compare s s = Eq.
Proof.
  induction s as [|c s IH]; simpl; [reflexivity|].
  assert (Hc : Ascii.compare c c = Eq).
  { destruct (Ascii.compare c c) eqn:E; [reflexivity| |].
    - pose proof (Ascii.compare_antisym c c) as Ha. rewrite E in Ha. discriminate.
    - pose proof (Ascii.compare_antisym c c) as Ha. rewrite E in Ha. discriminate. }
  rewrite Hc. exact IH.
Qed.

Lemma has_In (x : string) (l : list string) : has x l = true <-> In x l.
Proof.
  unfold has. rewrite existsb_exists. split.
  - intros (y & Hy & He). apply String.eqb_eq in He. subst. exact Hy.
  - intros Hx. exists x. split; [exact Hx|apply String.eqb_refl].
Qed.


Lemma column_cons (c : string) (r : gmap string Z) (g : list (gmap string Z)) :
  column c (r :: g) =
  match r !! c with Some v => v :: column c g | None => column c g end.
Proof. reflexivity. Qed.

Lemma column_cells (c : string) (g : list (gmap string Z)) :
  Forall (fun r => is_Some (r !! c)) g -> column c g = map (cell c) g.
Proof.
  induction 1 as [|r g [v Hv] _ IH]; [reflexivity|].
  rewrite column_cons, Hv. simpl. unfold cell at 1. rewrite Hv. simpl.
  now rewrite IH.
Qed.

Lemma last_map {A B} (f : A -> B) (l : list A) (x : A) :
  List.last (map f l) (f x) = f (List.last l x).
Proof.
  revert x. induction l as [|a l IH]; intros x; [reflexivity|].
  destruct l as [|b l]; [reflexivity|]. apply (IH x).
Qed.

Lemma last_in_nonempty {A} (l : list A) (x : A) :
  l <> [] -> In (List.last l x) l.
Proof.
  induction l as [|a l IH]; [congruence|]. intros _.
  destruct l as [|b l]; [now left|]. right. apply IH. discriminate.
Qed.

Lemma last_in {A} (l : list A) (x : A) : In (List.last l x) (x :: l).
Proof.
  destruct l as [|a l]; [now left|]. right. apply last_in_nonempty. discriminate.
Qed.

Lemma fold_left_max (t : list Z) (x : Z) :
  In (fold_left Z.max t x) (x :: t) /\
  forall y, In y (x :: t) -> y <= fold_left Z.max t x.
Proof.
  revert x. induction t as [|a t IH]; intros x; simpl.
  - split; [now left|]. intros y [->|[]]. lia.
  - destruct (IH (Z.max x a)) as [Hin Hle]. split.
    + destruct Hin as [Hm|Hin]; [|now right; right].
      rewrite <- Hm. destruct (Z.max_spec x a) as [[_ ->]|[_ ->]];
        [right; now left|now left].
    + intros y [->|[->|Hy]].
      * etransitivity; [|apply Hle; now left]. lia.
      * etransitivity; [|apply Hle; now left]. lia.
      * apply Hle. now right.
Qed.

Lemma fold_left_min (t : list Z) (x : Z) :
  In (fold_left Z.min t x) (x :: t) /\
  forall y, In y (x :: t) -> fold_left Z.min t x <= y.
Proof.
  revert x. induction t as [|a t IH]; intros x; simpl.
  - split; [now left|]. intros y [->|[]]. lia.
  - destruct (IH (Z.min x a)) as [Hin Hle]. split.
    + destruct Hin as [Hm|Hin]; [|now right; right].
      rewrite <- Hm. destruct (Z.min_spec x a) as [[_ ->]|[_ ->]];
        [now left|right; now left].
    + intros y [->|[->|Hy]].
      * etransitivity; [apply Hle; now left|]. lia.
      * etransitivity; [apply Hle; now left|]. lia.
      * apply Hle. now right.
Qed.

Lemma fold_left_add (t : list Z) (x : Z) :
  fold_left Z.add t x = x + foldr Z.add 0 t.
Proof.
  revert x. induction t as [|a t IH]; intros x; simpl; [lia|].
  rewrite IH. lia.
Qed.

Lemma total_cells (c : string) (g : list (gmap string Z)) :
  foldr Z.add 0 (map (cell c) g) = total c g.
Proof. induction g as [|r g IH]; simpl; [reflexivity|]. now rewrite IH. Qed.

Lemma well_formedb_correct (df : DataFrame) :
  well_formedb df = true -> well_formed df.
Proof.
  unfold well_formedb, well_formed. intros H r c Hr Hc.
  rewrite forallb_forall in H. specialize (H r Hr).
  rewrite forallb_forall in H. specialize (H c Hc).
  now apply bool_decide_eq_true in H.
Qed.

(** ** The aggregation primitive *)

Lemma agg_row_missing (d : list (string * how)) (g : list (gmap string Z))
  (c : string) :
  ~ In c (map fst d) -> agg_row d g !! c = None.
Proof.
  induction d as [|[c' h'] d IH]; simpl; intros Hc.
  - apply lookup_empty.
  - destruct (reduce h' (column c' g)).
    + rewrite lookup_insert_ne by (intros ->; apply Hc; now left).
      apply IH. intros H. apply Hc. now right.
    + apply IH. intros H. apply Hc. now right.
Qed.

Lemma agg_row_lookup (d : list (string * how)) (g : list (gmap string Z))
  (c : string) (h : how) :
  List.NoDup (map fst d) -> In (c, h) d ->
  agg_row d g !! c = reduce h (column c g).
Proof.
  induction d as [|[c' h'] d IH]; simpl; intros Hnd Hin; [contradiction|].
  apply List.NoDup_cons_iff in Hnd as [Hfresh Hnd].
  destruct Hin as [Heq|Hin].
  - injection Heq as -> ->.
    destruct (reduce h (column c g)) eqn:E.
    + apply lookup_insert_eq.
    + now apply agg_row_missing.
  - assert (c' <> c).
    { intros ->. apply Hfresh. apply (in_map fst) in Hin. exact Hin. }
    destruct (reduce h' (column c' g)).
    + rewrite lookup_insert_ne by assumption. now apply IH.
    + now apply IH.
Qed.

Lemma agg_dict_keys (fields : list string) (c : string) :
  In c (map fst (agg_dict fields)) -> In c rule_table.
Proof.
  unfold agg_dict, rule_table.
  destruct (has "open" fields), (has "high" fields), (has "low" fields),
    (has "close" fields), (has "volume" fields), (has "amount" fields);
    simpl; intuition.
Qed.

Lemma group_keys_constant (k : string) (labels : list string) :
  labels <> [] -> Forall (eq k) labels -> group_keys labels = [k].
Proof.
  induction labels as [|a l IH]; [congruence|].
  intros _ Hall. apply Forall_cons in Hall as [<- Hall]. simpl.
  destruct l as [|b l]; [reflexivity|].
  rewrite IH by (congruence || assumption). simpl.
  now rewrite compare_refl.
Qed.

Lemma group_rows_all (group_col : gmap string Z -> string) (k : string)
  (g : list (gmap string Z)) :
  (forall r, In r g -> group_col r = k) -> group_rows group_col k g = g.
Proof.
  intros Hk. unfold group_rows. induction g as [|r g IH]; [reflexivity|].
  simpl. rewrite (Hk r) by now left. rewrite String.eqb_refl.
  f_equal. apply IH. intros r' Hr'. apply Hk. now right.
Qed.

Lemma wrap64_small (x : Z) : int64 x -> wrap64 x = x.
Proof.
  unfold int64, wrap64. intros H.
  rewrite Z.mod_small by lia. lia.
Qed.

Lemma rows_of_group_all (k : string) (cells : list (option string))
  (g : list (gmap string Z)) :
  length cells = length g -> (forall c, In c cells -> c = Some k) ->
  rows_of_group k cells g = g.
Proof.
  unfold rows_of_group. revert g.
  induction cells as [|c cells IH]; intros [|r g] Hlen Hall;
    try discriminate; [reflexivity|].
  cbn [combine List.filter].
  rewrite (Hall c (or_introl eq_refl)). cbn [fst].
  rewrite bool_decide_eq_true_2 by reflexivity. cbn [map snd]. f_equal.
  apply IH; [now injection Hlen|]. intros c' Hc'. apply Hall. now right.
Qed.

Lemma labels_all (k : string) (cells : list (option string))
  (g : list (gmap string Z)) :
  length cells = length g -> (forall c, In c cells -> c = Some k) ->
  Forall (eq k) (omap fst (combine cells g)).
Proof.
  revert g. induction cells as [|c cells IH]; intros [|r g] Hlen Hall;
    try discriminate; [constructor|].
  cbn [combine omap fst]. rewrite (Hall c (or_introl eq_refl)).
  constructor; [reflexivity|].
  apply IH; [now injection Hlen|]. intros c' Hc'. apply Hall. now right.
Qed.

Lemma aggregate_kline_inv (df out : DataFrame) (group_col : string)
  (fields : list string) :
  _aggregate_kline df group_col fields = Returned out ->
  exists cells,
    labels df = Some (group_col, cells) /\
    (forall c, In c (map fst (agg_dict fields)) -> In c (columns df)) /\
    out = mk_frame (group_col :: map fst (agg_dict fields))
            (map (fun k => agg_row (agg_dict fields)
                             (rows_of_group k cells (rows df)))
               (group_keys (omap fst (combine cells (rows df)))))
            (Some (group_col,
                   map Some (group_keys (omap fst (combine cells (rows df)))))).
Proof.
  unfold _aggregate_kline. cbv zeta.
  destruct (labels df) as [[name cells]|]; [|discriminate].
  destruct (String.eqb_spec name group_col) as [->|Hne]; [|discriminate].
  cbn [negb]. destruct (forallb _ _) eqn:Hcols; [|discriminate].
  intros [= <-]. exists cells. split_and!; [reflexivity| |reflexivity].
  intros c Hc. rewrite forallb_forall in Hcols. now apply has_In, Hcols.
Qed.

(** C3, as the code has it: a non-empty group, labelled in a column that
    is none of the rule columns, aggregated with open, high, low, close,
    volume and amount requested yields one bar, beside its label, whose time
    is the last bar's, open the first bar's, high the greatest high, low the
    least low, close the last bar's, and whose volume and amount are the
    sums in 64-bit integer arithmetic: the sums modulo 2^64, which are the
    sums themselves when these lie in the [int64] range; and the two-bar
    group (10,12,9,11,100), (11,13,10,12,200) yields (10,13,9,12,300). *)
Theorem aggregate_kline_rules :
  (forall (df : DataFrame) (group_col : string)
          (cells : list (option string)) (k : string)
          (b0 : gmap string Z) (rest : list (gmap string Z)),
      labels df = Some (group_col, cells) ->
      ~ In group_col rule_table ->
      rows df = b0 :: rest ->
      length cells = length (rows df) ->
      (forall c, In c cells -> c = Some k) ->
      (forall c, In c rule_table -> In c (columns df)) ->
      (forall r c, In r (rows df) -> In c rule_table -> is_Some (r !! c)) ->
      exists out hi lo,
        _aggregate_kline df group_col ohlcva
        = Returned (mk_frame (group_col :: rule_table) [out]
                      (Some (group_col, [Some k])))
        /\ out !! "time" = List.last rest b0 !! "time"
        /\ out !! "open" = b0 !! "open"
        /\ out !! "high" = Some hi
        /\ (exists r, In r (rows df) /\ r !! "high" = Some hi)
        /\ (forall r, In r (rows df) -> cell "high" r <= hi)
        /\ out !! "low" = Some lo
        /\ (exists r, In r (rows df) /\ r !! "low" = Some lo)
        /\ (forall r, In r (rows df) -> lo <= cell "low" r)
        /\ out !! "close" = List.last rest b0 !! "close"
        /\ out !! "volume" = Some (wrap64 (total "volume" (rows df)))
        /\ out !! "amount" = Some (wrap64 (total "amount" (rows df)))
        /\ (int64 (total "volume" (rows df)) ->
            out !! "volume" = Some (total "volume" (rows df)))
        /\ (int64 (total "amount" (rows df)) ->
            out !! "amount" = Some (total "amount" (rows df))))
  /\ view ["open"; "high"; "low"; "close"; "volume"]
       (_aggregate_kline Examples.two_bars_grouped "group_id" default_fields)
     = Some (["group_id"; "time"; "open"; "high"; "low"; "close"; "volume"],
             [[Some 10; Some 13; Some 9; Some 12; Some 300]]).
Proof.
  split.
  - intros df group_col cells k b0 rest Hlab _ Hrows Hlen Hk Hcols Hwf.
    assert (Hall : forall c, In c rule_table ->
                             Forall (fun r => is_Some (r !! c)) (rows df)).
    { intros c Hc. apply List.Forall_forall. intros r Hr. now apply Hwf. }
    assert (Hcol : forall c, In c rule_table ->
                column c (rows df) = cell c b0 :: map (cell c) rest).
    { intros c Hc. rewrite column_cells by now apply Hall.
      now rewrite Hrows. }
    assert (Hcell : forall c r, In c rule_table -> In r (rows df) ->
                r !! c = Some (cell c r)).
    { intros c r Hc Hr. destruct (Hwf r c Hr Hc) as [v Hv].
      unfold cell. now rewrite Hv. }
    assert (Hlast : In (List.last rest b0) (rows df)).
    { rewrite Hrows. apply last_in. }
    assert (Hb0 : In b0 (rows df)) by (rewrite Hrows; now left).
    pose (d := agg_dict ohlcva).
    assert (Hnd : List.NoDup (map fst d)).
    { vm_compute. repeat constructor; simpl; intuition discriminate. }
    assert (Hrun : _aggregate_kline df group_col ohlcva
                   = Returned (mk_frame (group_col :: rule_table)
                                 [agg_row d (rows df)]
                                 (Some (group_col, [Some k])))).
    { unfold _aggregate_kline. rewrite Hlab, String.eqb_refl. cbn [negb].
      replace (forallb (fun c => has c (columns df)) (map fst (agg_dict ohlcva)))
        with true.
      2:{ symmetry. apply forallb_forall. intros c Hc. apply has_In, Hcols.
          exact (agg_dict_keys _ _ Hc). }
      cbv zeta. rewrite (group_keys_constant k).
      - cbn [map]. rewrite (rows_of_group_all k) by assumption. reflexivity.
      - rewrite Hrows in *. destruct cells; [discriminate|].
        cbn [combine omap]. rewrite (Hk o (or_introl eq_refl)). discriminate.
      - now apply labels_all. }
    assert (Hlk : forall c h, In (c, h) d ->
               agg_row d (rows df) !! c
               = reduce h (cell c b0 :: map (cell c) rest)).
    { intros c h Hin. rewrite (agg_row_lookup d _ c h Hnd Hin).
      rewrite Hcol; [reflexivity|].
      apply (agg_dict_keys ohlcva). apply (in_map fst) in Hin. exact Hin. }
    destruct (fold_left_max (map (cell "high") rest) (cell "high" b0))
      as [Hmax_in Hmax_le].
    destruct (fold_left_min (map (cell "low") rest) (cell "low" b0))
      as [Hmin_in Hmin_le].
    assert (Hsum : forall c, In (c, Sum) d ->
               agg_row d (rows df) !! c = Some (wrap64 (total c (rows df)))).
    { intros c Hin. rewrite (Hlk c Sum Hin). cbn [reduce].
      now rewrite fold_left_add, total_cells, Hrows. }
    exists (agg_row d (rows df)),
      (fold_left Z.max (map (cell "high") rest) (cell "high" b0)),
      (fold_left Z.min (map (cell "low") rest) (cell "low" b0)).
    split; [exact Hrun|].
    assert (Hmap : forall c, cell c b0 :: map (cell c) rest
                             = map (cell c) (rows df))
      by (intros c; now rewrite Hrows).
    split_and!.
    + rewrite (Hlk "time" Last) by (vm_compute; intuition). simpl.
      rewrite last_map. symmetry. apply Hcell; [vm_compute; intuition|exact Hlast].
    + rewrite (Hlk "open" First) by (vm_compute; intuition). simpl.
      symmetry. apply Hcell; [vm_compute; intuition|exact Hb0].
    + rewrite (Hlk "high" Max) by (vm_compute; intuition). reflexivity.
    + rewrite Hmap in Hmax_in. apply in_map_iff in Hmax_in.
      destruct Hmax_in as (r & Hr & Hin). exists r. split; [exact Hin|].
      rewrite <- Hr. apply Hcell; [vm_compute; intuition|exact Hin].
    + intros r Hr. apply Hmax_le. rewrite Hmap. now apply in_map.
    + rewrite (Hlk "low" Min) by (vm_compute; intuition). reflexivity.
    + rewrite Hmap in Hmin_in. apply in_map_iff in Hmin_in.
      destruct Hmin_in as (r & Hr & Hin). exists r. split; [exact Hin|].
      rewrite <- Hr. apply Hcell; [vm_compute; intuition|exact Hin].
    + intros r Hr. apply Hmin_le. rewrite Hmap. now apply in_map.
    + rewrite (Hlk "close" Last) by (vm_compute; intuition). simpl.
      rewrite last_map. symmetry. apply Hcell; [vm_compute; intuition|exact Hlast].
    + apply Hsum. vm_compute. intuition.
    + apply Hsum. vm_compute. intuition.
    + intros Hfit. rewrite Hsum by (vm_compute; intuition).
      now rewrite wrap64_small.
    + intros Hfit. rewrite Hsum by (vm_compute; intuition).
      now rewrite wrap64_small.
  - vm_compute. reflexivity.
Qed.

(** C3 fails as stated: two bars of one group with a volume of 2^62 each
    aggregate to a bar of volume -2^63, and the sum of the volumes is
    2^63. *)
Lemma aggregate_kline_wrapped_sum_example :
  view ["volume"]
    (_aggregate_kline Examples.heavy_bars_grouped "group_id" default_fields)
  = Some (["group_id"; "time"; "open"; "high"; "low"; "close"; "volume"],
          [[Some (- 2 ^ 63)]])
  /\ total "volume" (rows Examples.heavy_bars_grouped) = 2 ^ 63.
Proof. split; vm_compute; reflexivity. Qed.

(** C6, as the code has it: with the groups labelled in a column that is
    none of the rule columns, the output frame has the group column and the
    columns of the aggregation dictionary; a field without a rule, other
    than the group column, is left out of it, whatever the requested fields
    and the input columns: it is no column of the output and no output bar
    has a cell for it. *)
Theorem aggregate_kline_drops_other_fields
  (df : DataFrame) (group_col : string)
  (fields : list string) (f : string) (out : DataFrame) :
  ~ In f rule_table ->
  f <> group_col ->
  ~ In group_col rule_table ->
  _aggregate_kline df group_col fields = Returned out ->
  columns out = group_col :: map fst (agg_dict fields) /\
  ~ In f (columns out) /\ forall r, In r (rows out) -> r !! f = None.
Proof.
  intros Hf Hg _ Hrun.
  apply aggregate_kline_inv in Hrun as (cells & _ & _ & ->).
  cbn [columns rows].
  assert (Hkeys : ~ In f (map fst (agg_dict fields))).
  { intros H. apply Hf. exact (agg_dict_keys _ _ H). }
  split_and!; [reflexivity| |].
  - intros [E|E]; [now apply Hg|now apply Hkeys].
  - intros r Hr. apply in_map_iff in Hr. destruct Hr as (k & <- & _).
    exact (agg_row_missing (agg_dict fields) _ f Hkeys).
Qed.

(** C6 fails as stated: with [close] and [preClose] requested on bars that
    carry [preClose], the aggregated bar has no [preClose] cell, though the
    last bar of the group has one. *)
Lemma aggregate_kline_other_field_example :
  view ["close"; "preClose"]
    (_aggregate_kline Examples.with_pre_close_grouped "group_id"
       ["close"; "preClose"])
  = Some (["group_id"; "time"; "close"], [[Some 12; None]])
  /\ cells ["close"; "preClose"] (List.last (rows Examples.with_pre_close) ∅)
     = [Some 12; Some 11].
Proof. split; vm_compute; reflexivity. Qed.

(** ** Sorting, date lists and positions *)

Lemma insert_row_in (r x : gmap string Z) (l : list (gmap string Z)) :
  In x (insert_row r l) <-> x = r \/ In x l.
Proof.
  induction l as [|h t IH]; simpl.
  - intuition.
  - destruct (time_le r h); simpl; [intuition|]. rewrite IH. intuition.
Qed.

Lemma sort_rows_in (x : gmap string Z) (l : list (gmap string Z)) :
  In x (sort_rows l) <-> In x l.
Proof.
  induction l as [|r l IH]; simpl; [reflexivity|].
  rewrite insert_row_in, IH. intuition.
Qed.

Lemma insert_row_length (r : gmap string Z) (l : list (gmap string Z)) :
  length (insert_row r l) = S (length l).
Proof.
  induction l as [|h t IH]; simpl; [reflexivity|].
  destruct (time_le r h); simpl; [reflexivity|]. now rewrite IH.
Qed.

Lemma sort_rows_length (l : list (gmap string Z)) :
  length (sort_rows l) = length l.
Proof.
  induction l as [|r l IH]; simpl; [reflexivity|].
  now rewrite insert_row_length, IH.
Qed.

Lemma insert_day_in (d x : Z) (l : list Z) :
  In x (insert_day d l) <-> x = d \/ In x l.
Proof.
  induction l as [|h t IH]; simpl.
  - intuition.
  - destruct (d <? h); simpl; [intuition|].
    destruct (d =? h) eqn:E; simpl.
    + apply Z.eqb_eq in E. subst. intuition.
    + rewrite IH. intuition.
Qed.

Lemma sorted_days_in (x : Z) (l : list Z) : In x (sorted_days l) <-> In x l.
Proof.
  induction l as [|d l IH]; simpl; [reflexivity|].
  rewrite insert_day_in, IH. intuition.
Qed.

Lemma find_index_lookup {A} (p : A -> bool) (l : list A) (i : nat) :
  find_index p l = Some i -> exists x, l !! i = Some x /\ List.find p l = Some x.
Proof.
  revert i. induction l as [|h t IH]; intros i; simpl; [discriminate|].
  destruct (p h).
  - intros [= <-]. now exists h.
  - destruct (find_index p t) as [j|]; [|discriminate].
    intros [= <-]. exact (IH j eq_refl).
Qed.

Lemma find_index_none {A} (p : A -> bool) (l : list A) :
  find_index p l = None -> List.find p l = None.
Proof.
  induction l as [|h t IH]; simpl; [reflexivity|].
  destruct (p h); [discriminate|].
  destruct (find_index p t); [discriminate|]. intros _. now apply IH.
Qed.

Lemma alter_in {A} (f : A -> A) (l : list A) (i : nat) (x y : A) :
  l !! i = Some x ->
  In y (alter f i l) <-> (y = f x \/ exists j, j <> i /\ l !! j = Some y).
Proof.
  revert i. induction l as [|h t IH]; intros i Hi; [discriminate|].
  destruct i as [|i]; simpl in *.
  - injection Hi as ->. split.
    + intros [<-|Hy]; [now left|]. right.
      apply list_elem_of_In, list_elem_of_lookup in Hy as [j Hj].
      exists (S j). split; [lia|exact Hj].
    + intros [->|(j & Hj & Hy)]; [now left|].
      destruct j as [|j]; [congruence|]. right.
      apply list_elem_of_In, list_elem_of_lookup. now exists j.
  - rewrite (IH i Hi). split.
    + intros [<-|[->|(j & Hj & Hy)]].
      * right. exists O. split; [lia|reflexivity].
      * now left.
      * right. exists (S j). split; [lia|exact Hy].
    + intros [->|(j & Hj & Hy)]; [right; now left|].
      destruct j as [|j].
      * left. simpl in Hy. congruence.
      * right. right. exists j. split; [lia|exact Hy].
Qed.

(** ** The session-anomaly corrector *)

Lemma set_cell_eq (c : string) (v : option Z) (r : gmap string Z) :
  set_cell c v r !! c = v.
Proof.
  destruct v; simpl; [apply lookup_insert_eq|apply lookup_delete_eq].
Qed.

Lemma set_cell_ne (c c' : string) (v : option Z) (r : gmap string Z) :
  c <> c' -> set_cell c v r !! c' = r !! c'.
Proof.
  intros Hne. destruct v; simpl;
    [now apply lookup_insert_ne|now apply lookup_delete_ne].
Qed.

Lemma merge_930_other (fields cols : list string) (r930 r931 : gmap string Z)
  (c : string) :
  c <> "open" -> c <> "volume" -> c <> "amount" ->
  merge_930 fields cols r930 r931 !! c = r931 !! c.
Proof.
  intros Ho Hv Ha. unfold merge_930.
  destruct (has "open" fields && has "open" cols),
    (has "volume" fields && has "volume" cols),
    (has "amount" fields && has "amount" cols);
    repeat (rewrite set_cell_ne by congruence); reflexivity.
Qed.

Lemma merge_930_open (fields cols : list string) (r930 r931 : gmap string Z) :
  has "open" fields && has "open" cols = true ->
  merge_930 fields cols r930 r931 !! "open" = r930 !! "open".
Proof.
  intros Ho. unfold merge_930. rewrite Ho.
  destruct (has "volume" fields && has "volume" cols),
    (has "amount" fields && has "amount" cols);
    repeat (rewrite set_cell_ne by discriminate); apply set_cell_eq.
Qed.

Lemma merge_930_volume (fields cols : list string) (r930 r931 : gmap string Z) :
  has "volume" fields && has "volume" cols = true ->
  merge_930 fields cols r930 r931 !! "volume"
  = add_cells (r930 !! "volume") (r931 !! "volume").
Proof.
  intros Hv. unfold merge_930. rewrite Hv.
  destruct (has "open" fields && has "open" cols),
    (has "amount" fields && has "amount" cols);
    repeat (rewrite set_cell_ne by discriminate);
    rewrite set_cell_eq;
    repeat (rewrite set_cell_ne by discriminate); reflexivity.
Qed.

Lemma merge_930_amount (fields cols : list string) (r930 r931 : gmap string Z) :
  has "amount" fields && has "amount" cols = true ->
  merge_930 fields cols r930 r931 !! "amount"
  = add_cells (r930 !! "amount") (r931 !! "amount").
Proof.
  intros Ha. unfold merge_930. rewrite Ha.
  destruct (has "open" fields && has "open" cols),
    (has "volume" fields && has "volume" cols);
    rewrite set_cell_eq;
    repeat (rewrite set_cell_ne by discriminate); reflexivity.
Qed.

Lemma merge_930_time (fields cols : list string) (r930 r931 : gmap string Z) :
  merge_930 fields cols r930 r931 !! "time" = r931 !! "time".
Proof. apply merge_930_other; discriminate. Qed.

Lemma find_index_of_find {A} (p : A -> bool) (l : list A) (x : A) :
  List.find p l = Some x -> exists i, find_index p l = Some i /\ l !! i = Some x.
Proof.
  intros Hx. destruct (find_index p l) as [i|] eqn:E.
  - destruct (find_index_lookup p l i E) as (y & Hy & Hf).
    exists i. split; [reflexivity|]. congruence.
  - apply find_index_none in E. congruence.
Qed.

Lemma process_930_group_both (fields cols : list string)
  (g : list (gmap string Z)) (r930 r931 : gmap string Z) :
  List.find (at_hm 9 30) g = Some r930 ->
  List.find (at_hm 9 31) g = Some r931 ->
  exists i, g !! i = Some r931 /\
    forall y, In y (process_930_group fields cols g) <->
      at_hm 9 30 y = false /\
      (y = merge_930 fields cols r930 r931 \/
       exists j, j <> i /\ g !! j = Some y).
Proof.
  intros H930 H931.
  destruct (find_index_of_find _ _ _ H931) as (i & Hi & Hgi).
  exists i. split; [exact Hgi|]. intros y.
  unfold process_930_group. rewrite H930, Hi.
  rewrite filter_In, (alter_in _ g i r931 y Hgi).
  rewrite negb_true_iff. tauto.
Qed.

Lemma process_930_group_no_931 (fields cols : list string)
  (g : list (gmap string Z)) :
  List.find (at_hm 9 31) g = None -> process_930_group fields cols g = g.
Proof.
  intros H. unfold process_930_group.
  destruct (find_index (at_hm 9 31) g) as [i|] eqn:E.
  - destruct (find_index_lookup _ _ _ E) as (x & _ & Hx). congruence.
  - now destruct (List.find (at_hm 9 30) g).
Qed.

Lemma process_930_group_no_930 (fields cols : list string)
  (g : list (gmap string Z)) :
  List.find (at_hm 9 30) g = None -> process_930_group fields cols g = g.
Proof. intros H. unfold process_930_group. now rewrite H. Qed.

Lemma on_date_unique (d d' : Z) (r : gmap string Z) :
  on_date d r = true -> on_date d' r = true -> d = d'.
Proof.
  unfold on_date. destruct (r !! "time"); [|discriminate].
  intros H1 H2. apply Z.eqb_eq in H1, H2. congruence.
Qed.

Lemma on_date_merge (fields cols : list string) (r930 r931 : gmap string Z)
  (d : Z) :
  on_date d (merge_930 fields cols r930 r931) = on_date d r931.
Proof. unfold on_date. now rewrite merge_930_time. Qed.

Lemma at_hm_merge (fields cols : list string) (r930 r931 : gmap string Z)
  (h m : Z) :
  at_hm h m (merge_930 fields cols r930 r931) = at_hm h m r931.
Proof. unfold at_hm. now rewrite merge_930_time. Qed.

Lemma dates_in (d : Z) (l : list (gmap string Z)) :
  In d (sorted_days (omap (fun r : gmap string Z => date_of <$> r !! "time") l))
  <-> exists r, In r l /\ on_date d r = true.
Proof.
  rewrite sorted_days_in, <- list_elem_of_In, list_elem_of_omap.
  split; intros (r & Hr & Hd); exists r; rewrite list_elem_of_In in *;
    (split; [exact Hr|]); unfold on_date in *;
    destruct (r !! "time") as [t|]; simpl in *; try discriminate.
  - injection Hd as <-. apply Z.eqb_refl.
  - apply Z.eqb_eq in Hd. now subst.
Qed.

Lemma process_930_group_on_date (fields cols : list string)
  (l : list (gmap string Z)) (d : Z) (y : gmap string Z) :
  In y (process_930_group fields cols (List.filter (on_date d) l)) ->
  on_date d y = true.
Proof.
  set (g := List.filter (on_date d) l).
  assert (Hg : forall x, In x g -> on_date d x = true).
  { intros x Hx. apply filter_In in Hx. tauto. }
  destruct (List.find (at_hm 9 30) g) as [r930|] eqn:H930.
  - destruct (List.find (at_hm 9 31) g) as [r931|] eqn:H931.
    + destruct (process_930_group_both fields cols g r930 r931 H930 H931)
        as (i & Hi & Hin).
      intros Hy. apply Hin in Hy as [_ [->|(j & _ & Hj)]].
      * rewrite on_date_merge. apply Hg.
        apply find_some in H931. tauto.
      * apply Hg. apply list_elem_of_In, list_elem_of_lookup. now exists j.
    + rewrite process_930_group_no_931 by exact H931. apply Hg.
  - rewrite process_930_group_no_930 by exact H930. apply Hg.
Qed.

Lemma process_930_rows (df : DataFrame) (fields : list string) :
  df_empty df = false -> has "time" (columns df) = true ->
  exists out,
    _process_930_data df fields = Returned out /\
    columns out = columns df /\
    (forall y, In y (rows out) ->
               In y (rows df) \/ exists d, on_date d y = true) /\
    forall d y, on_date d y = true ->
      (In y (rows out) <->
       In y (process_930_group fields (columns df)
               (List.filter (on_date d) (rows df)))).
Proof.
  intros Hne Htime. unfold _process_930_data. rewrite Hne, Htime. simpl.
  set (dates := sorted_days _).
  set (G := fun d => process_930_group fields (columns df)
                       (List.filter (on_date d) (rows df))).
  assert (Hdates : forall d, In d dates <->
                             exists r, In r (rows df) /\ on_date d r = true)
    by (intros d; apply dates_in).
  assert (Hany : forall y, In y (concat (map G dates)) ->
                           exists d, on_date d y = true).
  { intros y Hy. apply in_concat in Hy as (g & Hg & Hyg).
    apply in_map_iff in Hg as (d & <- & _). exists d.
    exact (process_930_group_on_date _ _ _ _ _ Hyg). }
  assert (Hout : forall d y, on_date d y = true ->
            (In y (concat (map G dates)) <-> In y (G d))).
  { intros d y Hy. rewrite in_concat. split.
    - intros (g & Hg & Hyg). apply in_map_iff in Hg as (d' & <- & Hd').
      pose proof (process_930_group_on_date _ _ _ _ _ Hyg) as Hy'.
      now rewrite (on_date_unique _ _ _ Hy Hy').
    - intros Hyg. exists (G d). split; [|exact Hyg].
      apply in_map. apply Hdates.
      destruct (List.filter (on_date d) (rows df)) as [|x g] eqn:E.
      + unfold G in Hyg. rewrite E in Hyg. contradiction.
      + exists x. apply filter_In. rewrite E. now left. }
  destruct (map G dates) as [|g0 gs] eqn:Emap.
  - exists df. split; [reflexivity|]. split; [reflexivity|]. split.
    + intros y Hy. now left.
    + intros d y Hy. split.
      * intros Hin. exfalso.
        assert (Hd : In d dates) by (apply Hdates; now exists y).
        destruct dates; [contradiction|discriminate].
      * intros Hin. apply (Hout d y Hy) in Hin. contradiction.
  - eexists. split; [reflexivity|]. split; [reflexivity|]. split.
    + intros y Hy. right. apply Hany. cbn [rows] in Hy.
      exact (proj1 (sort_rows_in _ _) Hy).
    + intros d y Hy. simpl rows. rewrite sort_rows_in. now apply Hout.
Qed.

Lemma process_930_rows_any (df : DataFrame) (fields : list string) :
  In "time" (columns df) ->
  exists out,
    _process_930_data df fields = Returned out /\
    columns out = columns df /\
    forall d y, on_date d y = true ->
      (In y (rows out) <->
       In y (process_930_group fields (columns df)
               (List.filter (on_date d) (rows df)))).
Proof.
  intros Htime. destruct (df_empty df) eqn:Hne.
  - exists df. unfold _process_930_data. rewrite Hne.
    split_and!; [reflexivity..|].
    unfold df_empty in Hne.
    destruct (columns df) as [|c cs]; [destruct Htime|].
    destruct (rows df) as [|r rs]; [|discriminate].
    intros d y _. reflexivity.
  - destruct (process_930_rows df fields Hne (proj2 (has_In _ _) Htime))
      as (out & Hrun & Hcols & _ & Hrows).
    exists out. now split_and!.
Qed.

Lemma merge_930_cell (fields cols : list string) (r930 r931 : gmap string Z)
  (c : string) :
  c = "volume" \/ c = "amount" ->
  merge_930 fields cols r930 r931 !! c
  = if has c fields && has c cols
    then add_cells (r930 !! c) (r931 !! c) else r931 !! c.
Proof.
  intros [-> | ->]; unfold merge_930;
    destruct (has "open" fields && has "open" cols),
      (has "volume" fields && has "volume" cols),
      (has "amount" fields && has "amount" cols);
    repeat first [rewrite set_cell_eq
                 |rewrite set_cell_ne by discriminate]; reflexivity.
Qed.

Lemma merge_930_open_cell (fields cols : list string)
  (r930 r931 : gmap string Z) :
  merge_930 fields cols r930 r931 !! "open"
  = if has "open" fields && has "open" cols
    then r930 !! "open" else r931 !! "open".
Proof.
  unfold merge_930.
  destruct (has "open" fields && has "open" cols),
    (has "volume" fields && has "volume" cols),
    (has "amount" fields && has "amount" cols);
    repeat first [rewrite set_cell_eq
                 |rewrite set_cell_ne by discriminate]; reflexivity.
Qed.

(** C7, as the code has it: on a frame with a [time] column and for every
    date [d]: when the date has a 09:30 bar and a 09:31 bar, the output has
    no 09:30 bar on [d]; its 09:31 bar carries the 09:30 bar's open when
    [open] is a requested field of the frame, and its own open otherwise;
    its volume, and its amount, is the sum of the two cells in 64-bit
    integer arithmetic (the sum itself when that is an [int64]) when the
    field is a requested field of the frame, and its own cell otherwise; it
    keeps its other cells, and every other bar of [d] is in the output
    unchanged, nothing else being added; when the date has no 09:31 bar, the
    bars of [d], the 09:30 bar among them, are in the output unchanged.  On
    the example morning (500 at 09:30, then open 20 and volume 300 at 09:31)
    with the default fields the 09:30 bar is gone and the 09:31 bar has the
    09:30 open and volume 800. *)
Theorem process_930_data_corrects :
  (forall (df : DataFrame) (fields : list string),
      In "time" (columns df) ->
      exists out,
        _process_930_data df fields = Returned out /\
        columns out = columns df /\
        forall d,
          let g := List.filter (on_date d) (rows df) in
          (forall r930 r931,
              List.find (at_hm 9 30) g = Some r930 ->
              List.find (at_hm 9 31) g = Some r931 ->
              (forall r, In r (rows out) -> on_date d r = true ->
                         at_hm 9 30 r = false) /\
              exists m,
                In m (rows out) /\ on_date d m = true /\ at_hm 9 31 m = true /\
                m !! "open"
                = (if has "open" fields && has "open" (columns df)
                   then r930 !! "open" else r931 !! "open") /\
                (forall c, c = "volume" \/ c = "amount" ->
                   if has c fields && has c (columns df) then
                     forall a b, r930 !! c = Some a -> r931 !! c = Some b ->
                       m !! c = Some (wrap64 (a + b)) /\
                       (int64 (a + b) -> m !! c = Some (a + b))
                   else m !! c = r931 !! c) /\
                (forall c, c <> "open" -> c <> "volume" -> c <> "amount" ->
                           m !! c = r931 !! c) /\
                (forall r, In r (rows out) -> on_date d r = true ->
                           r = m \/ (In r (rows df) /\ at_hm 9 30 r = false)) /\
                (forall r, In r (rows df) -> on_date d r = true ->
                           at_hm 9 30 r = false -> r <> r931 ->
                           In r (rows out)))
          /\ (List.find (at_hm 9 31) g = None ->
              forall r, on_date d r = true ->
                        (In r (rows out) <-> In r (rows df))))
  /\ view ["time"; "open"; "volume"]
       (_process_930_data Examples.morning default_fields)
     = Some (Reference.bar_columns,
             [[Some (Reference.at_time 2024 12 2 9 31); Some 19; Some 800];
              [Some (Reference.at_time 2024 12 2 9 32); Some 21; Some 100]]).
Proof.
  split.
  - intros df fields Htime.
    destruct (process_930_rows_any df fields Htime)
      as (out & Hrun & Hcols & Hrows).
    exists out. split; [exact Hrun|]. split; [exact Hcols|].
    intros d g. split.
    + intros r930 r931 H930 H931.
      destruct (process_930_group_both fields (columns df) g r930 r931
                  H930 H931) as (i & Hi & Hin).
      assert (Hg : forall x, In x g -> In x (rows df) /\ on_date d x = true)
        by (intros x Hx; now apply filter_In in Hx).
      assert (Hr931 : In r931 g /\ at_hm 9 31 r931 = true)
        by now apply find_some in H931.
      assert (Hr930 : In r930 g /\ at_hm 9 30 r930 = true)
        by now apply find_some in H930.
      set (m := merge_930 fields (columns df) r930 r931) in *.
      assert (Hm931 : at_hm 9 31 m = true)
        by (unfold m; rewrite at_hm_merge; tauto).
      assert (Hmd : on_date d m = true).
      { unfold m. rewrite on_date_merge. apply Hg. tauto. }
      assert (Hm930 : at_hm 9 30 m = false).
      { unfold at_hm in *. destruct (m !! "time"); [|reflexivity].
        apply andb_true_iff in Hm931 as [_ Hmin]. apply Z.eqb_eq in Hmin.
        rewrite Hmin. apply andb_false_r. }
      split.
      * intros r Hr Hd. apply (Hrows d r Hd), Hin in Hr. tauto.
      * exists m. split_and!.
        -- apply (Hrows d m Hmd), Hin. split; [exact Hm930|now left].
        -- exact Hmd.
        -- exact Hm931.
        -- apply merge_930_open_cell.
        -- intros c Hc. unfold m. rewrite (merge_930_cell _ _ _ _ c Hc).
           destruct (has c fields && has c (columns df)); [|reflexivity].
           intros a b -> ->. cbn [add_cells]. split; [reflexivity|].
           intros Hfit. now rewrite wrap64_small.
        -- intros c Hc1 Hc2 Hc3. now apply merge_930_other.
        -- intros r Hr Hd.
           apply (Hrows d r Hd), Hin in Hr as [Hno [->|(j & _ & Hj)]];
             [now left|].
           right. split; [|exact Hno].
           apply Hg, list_elem_of_In, list_elem_of_lookup. now exists j.
        -- intros r Hr Hd Hno Hne931. apply (Hrows d r Hd), Hin.
           split; [exact Hno|]. right.
           assert (Hrg : In r g) by (apply filter_In; tauto).
           apply list_elem_of_In, list_elem_of_lookup in Hrg as [j Hj].
           exists j. split; [|exact Hj]. intros ->. congruence.
    + intros H931 r Hd. rewrite (Hrows d r Hd).
      fold g. rewrite process_930_group_no_931 by exact H931.
      unfold g. rewrite filter_In. tauto.
  - vm_compute. reflexivity.
Qed.

(** C7 fails as stated: on the example morning with only [close] requested
    the 09:30 bar is dropped all the same, and the 09:31 bar keeps its own
    open 20 and its own volume 300. *)
Lemma process_930_unrequested_fields_example :
  view ["time"; "open"; "volume"]
    (_process_930_data Examples.morning ["close"])
  = Some (Reference.bar_columns,
          [[Some (Reference.at_time 2024 12 2 9 31); Some 20; Some 300];
           [Some (Reference.at_time 2024 12 2 9 32); Some 21; Some 100]]).
Proof. vm_compute. reflexivity. Qed.

(** ** Frames and result dictionaries *)

Lemma skipn_in {A} (n : nat) (l : list A) (x : A) : In x (skipn n l) -> In x l.
Proof.
  revert l. induction n as [|n IH]; intros l; [trivial|].
  destruct l as [|a l]; simpl; [trivial|]. intros H. right. now apply IH.
Qed.

Lemma tail_rows (n : Z) (df : DataFrame) (r : gmap string Z) :
  In r (rows (tail n df)) -> In r (rows df).
Proof. apply skipn_in. Qed.

Lemma trim_rows (n : Z) (df : DataFrame) (r : gmap string Z) :
  In r (rows (trim n df)) -> In r (rows df).
Proof. unfold trim. destruct (n <? len df); [apply tail_rows|trivial]. Qed.

Lemma select_rows (mask : gmap string Z -> bool) (df : DataFrame)
  (r : gmap string Z) :
  In r (rows (select mask df)) <-> In r (rows df) /\ mask r = true.
Proof. apply filter_In. Qed.

Lemma project_rows (cols : list string) (df out : DataFrame)
  (r' : gmap string Z) :
  project cols df = Returned out -> In r' (rows out) ->
  exists r, In r (rows df) /\ forall c, In c cols -> r' !! c = r !! c.
Proof.
  unfold project. destruct (forallb _ cols); [|discriminate].
  intros [= <-]. simpl. intros Hr'. apply in_map_iff in Hr' as (r & <- & Hr).
  exists r. split; [exact Hr|]. intros c Hc.
  apply has_In in Hc.
  destruct (r !! c) as [v|] eqn:E.
  - apply map_lookup_filter_Some. split; [exact E|exact Hc].
  - apply map_lookup_filter_None. left. exact E.
Qed.

Lemma to_local_time_rows (df out : DataFrame) (r' : gmap string Z) :
  to_local_time df = Returned out -> In r' (rows out) ->
  exists r, In r (rows df) /\
            r' !! "time" = (fun t => t + 8 * ms_per_hour) <$> r !! "time" /\
            forall c, c <> "time" -> r' !! c = r !! c.
Proof.
  unfold to_local_time. destruct (has "time" (columns df)); [|discriminate].
  destruct (negb (forallb convertible _)); [discriminate|].
  destruct (negb (forallb shiftable _)); [discriminate|].
  intros [= <-]. simpl. intros Hr'. apply in_map_iff in Hr' as (r & <- & Hr).
  exists r. split; [exact Hr|]. split.
  - apply lookup_alter_eq.
  - intros c Hc. apply lookup_alter_ne. congruence.
Qed.

Lemma dict_set_in {V} (k : string) (v : V) (d : list (string * V))
  (k' : string) (v' : V) :
  In (k', v') (dict_set k v d) -> (k' = k /\ v' = v) \/ In (k', v') d.
Proof.
  induction d as [|[k0 v0] d IH]; simpl.
  - intros [[= <- <-]|[]]. now left.
  - destruct (String.eqb k0 k) eqn:E; simpl.
    + apply String.eqb_eq in E. subst.
      intros [[= <- <-]|H]; [now left|right; now right].
    + intros [H|H]; [right; now left|].
      destruct (IH H) as [?|?]; [now left|right; now right].
Qed.


(** An invariant of the loop over the stock codes. *)
Lemma for_each_invariant {A S} (P : S -> Prop) (f : S -> A -> outcome S)
  (l : list A) (s s' : S) :
  (forall s0 a s1, P s0 -> In a l -> f s0 a = Returned s1 -> P s1) ->
  P s -> for_each f l s = Returned s' -> P s'.
Proof.
  revert s. induction l as [|a l IH]; intros s Hstep Hs; simpl.
  - now intros [= <-].
  - destruct (f s a) as [s1|e] eqn:E; [|discriminate]. simpl.
    apply IH.
    + intros s0 a0 s2 H0 Ha. apply Hstep; [exact H0|now right].
    + apply (Hstep s a s1 Hs); [now left|exact E].
Qed.
(** ** [khHistory]: the window ends strictly before the reference time *)

Lemma bind_inv {A B} (m : outcome A) (f : A -> outcome B) (b : B) :
  (m ≫= f) = Returned b -> exists a, m = Returned a /\ f a = Returned b.
Proof. destruct m as [a|e]; [|discriminate]. intros H. now exists a. Qed.

Lemma plus_days_inv (t n x : Z) :
  plus_days t n = Returned x ->
  x = add_days t n /\ Z.abs n <= 999999999 /\
  datetime_min <= x <= datetime_max.
Proof.
  unfold plus_days.
  destruct (Z.abs n <=? 999999999) eqn:E1; [|discriminate].
  destruct (datetime_min <=? add_days t n) eqn:E2; [|discriminate].
  destruct (add_days t n <=? datetime_max) eqn:E3; [|discriminate].
  intros [= <-]. lia.
Qed.

Lemma plus_days_returns (t n : Z) :
  Z.abs n <= 999999999 ->
  datetime_min <= add_days t n <= datetime_max ->
  plus_days t n = Returned (add_days t n).
Proof.
  intros Hn [H1 H2]. unfold plus_days.
  now rewrite (proj2 (Z.leb_le _ _) Hn), (proj2 (Z.leb_le _ _) H1),
    (proj2 (Z.leb_le _ _) H2).
Qed.

Lemma sort_values_time_inv (df out : DataFrame) :
  sort_values_time df = Returned out ->
  has "time" (columns df) = true /\
  out = mkDF (columns df) (sort_rows (rows df)).
Proof.
  unfold sort_values_time. destruct (has "time" (columns df)); [|discriminate].
  intros [= <-]. now split.
Qed.

Lemma to_local_time_columns (df out : DataFrame) :
  to_local_time df = Returned out -> columns out = columns df.
Proof.
  unfold to_local_time. destruct (has "time" (columns df)); [|discriminate].
  destruct (negb (forallb convertible _)); [discriminate|].
  destruct (negb (forallb shiftable _)); [discriminate|].
  now intros [= <-].
Qed.

Lemma history_check_inv (period : string) (fields : list string)
  (sd4 out : DataFrame) :
  (if negb (df_empty sd4) && has "time" (columns sd4) then
     if has "time" fields then
       if has period ["1d"]
       then Raised (AttributeError "'DataFrame' object has no attribute 'dt'")
       else Raised (ValueError "The truth value of a Series is ambiguous")
     else Returned sd4
   else Returned sd4) = Returned out ->
  out = sd4 /\
  (has "time" fields = true ->
   negb (df_empty sd4) && has "time" (columns sd4) = false).
Proof.
  destruct (negb (df_empty sd4) && has "time" (columns sd4)).
  - destruct (has "time" fields).
    + destruct (has period ["1d"]); discriminate.
    + intros [= <-]. split; [reflexivity|discriminate].
  - intros [= <-]. now split.
Qed.

Lemma history_mask_before (period : string) (cur : Z) (r : gmap string Z) :
  history_mask period cur r = true -> strictly_before period cur r.
Proof.
  unfold history_mask, strictly_before, intraday.
  destruct (String.eqb period "tick"); [|destruct (has period ["1m"; "5m"])];
    cbn [orb]; unfold time_lt, date_lt;
    destruct (r !! "time") as [t|]; try discriminate;
    intros H; apply Z.ltb_lt in H; exists t; (split; [reflexivity|exact H]).
Qed.

Lemma history_frame_before (period : string) (cur : Z) (skip_paused : bool)
  (bar_count : Z) (fields : list string) (sd out : DataFrame) :
  history_frame period cur skip_paused bar_count fields sd = Returned out ->
  forall r, In r (rows out) -> strictly_before period cur r.
Proof.
  unfold history_frame. intros Hrun r Hr.
  apply bind_inv in Hrun as (sd1 & H1 & Hrun). cbv zeta in Hrun.
  apply bind_inv in Hrun as (sd4 & Hrun & Hcheck).
  apply history_check_inv in Hcheck as [-> _].
  destruct (project_rows _ _ _ r Hrun Hr) as (r0 & Hr0 & Hsame).
  assert (Hr1 : In r0 (rows sd1)).
  { destruct (negb _ && _) in Hr0; [apply tail_rows in Hr0|];
      destruct (skip_paused && _) in Hr0;
      try (apply select_rows in Hr0 as [Hr0 _]); exact Hr0. }
  destruct (has "time" (columns sd)) eqn:Htime.
  - apply bind_inv in H1 as (sd0 & Hloc & Hsort).
    apply sort_values_time_inv in Hsort as [_ ->]. cbn [rows select] in Hr1.
    apply sort_rows_in, filter_In in Hr1 as [_ Hmask].
    apply history_mask_before in Hmask.
    unfold strictly_before in *. now rewrite (Hsame "time" (or_introl eq_refl)).
  - injection H1 as <-. exfalso.
    unfold project in Hrun. cbn [forallb] in Hrun.
    match type of Hrun with
    | (if has "time" (columns ?df) && _ then _ else _) = _ =>
        assert (Hcols : columns df = columns sd)
          by (destruct (negb _ && _); destruct (skip_paused && _); reflexivity)
    end.
    rewrite Hcols, Htime in Hrun. discriminate.
Qed.

Section History.

Context {collaborators : Collaborators}.

Lemma history_body_before (src : source) (stock_codes fields : list string)
  (bar_count : Z) (period : string) (cur : Z) (skip_paused : bool)
  (dividend_type : string) (force_download : bool)
  (result : list (string * DataFrame)) :
  history_body src stock_codes fields bar_count period cur skip_paused
    dividend_type force_download = Returned result ->
  forall code df r,
    In (code, df) result -> In r (rows df) -> strictly_before period cur r.
Proof.
  unfold history_body. intros Hrun.
  apply bind_inv in Hrun as (start_dt & _ & Hrun).
  apply bind_inv in Hrun as (data & _ & Hrun).
  destruct (no_data data).
  - injection Hrun as <-. intros code df r [].
  - eapply (for_each_invariant
              (fun s : list (string * DataFrame) =>
                 forall code df r, In (code, df) s -> In r (rows df) ->
                                   strictly_before period cur r));
      [| |exact Hrun].
    + intros s0 stock_code s1 Hs0 _ Hstep code df r Hin Hr.
      unfold history_step in Hstep.
      destruct (table_of data stock_code) as [sd|].
      * apply bind_inv in Hstep as (out & Hframe & [= <-]).
        apply dict_set_in in Hin as [[_ ->]|Hin].
        -- exact (history_frame_before _ _ _ _ _ _ _ Hframe r Hr).
        -- exact (Hs0 code df r Hin Hr).
      * injection Hstep as <-.
        apply dict_set_in in Hin as [[_ ->]|Hin]; [destruct Hr|].
        exact (Hs0 code df r Hin Hr).
    + intros code df r [].
Qed.

(** C1: a valid call to [khHistory] (symbols and fields not empty, a positive
    bar count, a reference time that parses) returns, and every bar of every
    returned table lies strictly before the reference time: on its time for
    the tick, 1m and 5m periods, on its calendar date for the daily (and any
    other) period. *)
Theorem khHistory_window_strictly_before (src : source) (symbol_list : symbols)
  (fields : list string) (bar_count : Z) (fre_step : string)
  (current_time : option string) (skip_paused : bool) (fq : string)
  (force_download : bool) (reference : Z) :
  no_symbols symbol_list = false ->
  fields <> [] ->
  0 < bar_count ->
  parse_history_time current_time = Returned reference ->
  exists result,
    khHistory src symbol_list fields bar_count fre_step current_time
      skip_paused fq force_download = Returned result /\
    forall code df r,
      In (code, df) result -> In r (rows df) ->
      strictly_before fre_step reference r.
Proof.
  intros Hsym Hfields Hcount Hparse. unfold khHistory.
  rewrite Hsym, (bool_decide_eq_false_2 _ Hfields).
  rewrite (proj2 (Z.leb_gt _ _) Hcount), Hparse.
  eexists. split; [reflexivity|].
  destruct (history_body _ _ _ _ _ _ _ _ _) as [result|e] eqn:Hbody.
  - exact (history_body_before _ _ _ _ _ _ _ _ _ _ Hbody).
  - intros code df r [].
Qed.

End History.

(** ** [khHistory]: the keys of the result *)

Lemma dict_get_set_eq {V} (k : string) (v : V) (d : list (string * V)) :
  dict_get k (dict_set k v d) = Some v.
Proof.
  induction d as [|[k0 v0] d IH]; simpl.
  - now rewrite String.eqb_refl.
  - destruct (String.eqb k0 k) eqn:E; simpl; rewrite E; [reflexivity|exact IH].
Qed.

Lemma dict_get_set_ne {V} (k k' : string) (v : V) (d : list (string * V)) :
  k <> k' -> dict_get k' (dict_set k v d) = dict_get k' d.
Proof.
  intros Hne. induction d as [|[k0 v0] d IH]; simpl.
  - now rewrite (proj2 (String.eqb_neq _ _) Hne).
  - destruct (String.eqb k0 k) eqn:E; simpl.
    + apply String.eqb_eq in E. subst.
      now rewrite (proj2 (String.eqb_neq _ _) Hne).
    + now rewrite IH.
Qed.




Lemma to_local_time_returns (df : DataFrame) :
  readable df ->
  to_local_time df = Returned (mkDF (columns df) (map local_row (rows df))).
Proof.
  intros (_ & Htime & Hc & Hs). unfold to_local_time.
  now rewrite (proj2 (has_In _ _) Htime), Hc, Hs.
Qed.





Section HistoryKeys.

Context {collaborators : Collaborators}.

Lemma history_body_read (src : source) (stock_codes fields : list string)
  (bar_count : Z) (period : string) (cur : Z) (skip_paused : bool)
  (dividend_type : string) (force_download : bool) :
  history_body src stock_codes fields bar_count period cur skip_paused
    dividend_type force_download
  = (data ← history_data src stock_codes fields bar_count period cur
              dividend_type force_download;
     if no_data data then Returned []
     else for_each
            (history_step period cur skip_paused bar_count fields data)
            stock_codes []).
Proof.
  unfold history_body, history_data.
  now destruct (plus_days cur (- history_lookback_days period bar_count)).
Qed.




End HistoryKeys.


(** With [time] among the fields the selection holds that column twice, the
    report of the time range fails on the first table, and the call returns
    the empty mapping though both symbols have bars. *)
Lemma khHistory_time_field_example :
  khHistory (collaborators := Reference.collaborators)
    Examples.two_symbol_store (Many ["A"; "B"]) ["time"; "close"] 2 "1d"
    (Some "20240105") false "pre" false
  = Returned []
  /\ table_lengths
       (khHistory (collaborators := Reference.collaborators)
          Examples.two_symbol_store (Many ["A"; "B"]) ["close"] 2 "1d"
          (Some "20240105") false "pre" false)
     = Some [("A", 2); ("B", 2)].
Proof. split; vm_compute; reflexivity. Qed.

(** ** [is_trade_day] *)

Lemma all_digits_no_dash (s : string) :
  all_digits s = true -> contains "-" s = false.
Proof.
  induction s as [|c s IH]; simpl; [reflexivity|].
  intros H. apply andb_true_iff in H as [Hc Hs]. rewrite (IH Hs).
  destruct (Ascii.eqb c "-") eqn:E; [|reflexivity].
  apply Ascii.eqb_eq in E. subst. discriminate.
Qed.

Lemma isdigit_no_dash (s : string) :
  isdigit s = true -> contains "-" s = false.
Proof. destruct s; [discriminate|]. apply all_digits_no_dash. Qed.

Section TradeDay.

Context {collaborators : Collaborators}.

Lemma main_verdict (t : Z) :
  (if 5 <=? weekday (date_of t) then Returned false
   else if cn_holidays (date_of t) then Returned false else Returned true)
  = Returned (weekday_and_no_holiday t).
Proof.
  unfold weekday_and_no_holiday.
  destruct (5 <=? weekday (date_of t)) eqn:E1,
    (weekday (date_of t) <? 5) eqn:E2, (cn_holidays (date_of t));
    try reflexivity; lia.
Qed.

Lemma fallback_verdict (t : Z) :
  (if cn_holidays (date_of t) then Returned false
   else if 5 <=? weekday (date_of t) then Returned false else Returned true)
  = Returned (weekday_and_no_holiday t).
Proof.
  unfold weekday_and_no_holiday.
  destruct (5 <=? weekday (date_of t)) eqn:E1,
    (weekday (date_of t) <? 5) eqn:E2, (cn_holidays (date_of t));
    try reflexivity; lia.
Qed.

(** C9: for a string on which the three date formats exclude one another as
    they do for [datetime.strptime] (a [%Y-%m-%d] date has a dash, a [%Y%m%d]
    date is all digits, a [%Y/%m/%d] date has no dash and is not all digits):
    if the string parses in one of the formats, [is_trade_day] returns
    whether the date is a Monday to Friday outside the holiday set; if it
    parses in none, [is_trade_day] returns [True]; in both cases it returns
    and does not raise. *)
Theorem is_trade_day_verdict (s : string) :
  (forall t, strptime s "%Y-%m-%d" = Some t -> contains "-" s = true) ->
  (forall t, strptime s "%Y%m%d" = Some t -> isdigit s = true) ->
  (forall t, strptime s "%Y/%m/%d" = Some t ->
             contains "-" s = false /\ isdigit s = false) ->
  (forall fmt t, In fmt date_formats -> strptime s fmt = Some t ->
                 is_trade_day (Some s) = Returned (weekday_and_no_holiday t))
  /\ ((forall fmt, In fmt date_formats -> strptime s fmt = None) ->
      is_trade_day (Some s) = Returned true).
Proof.
  intros H1 H2 H3.
  assert (Hrun :
    is_trade_day (Some s)
    = match strptime s "%Y-%m-%d", strptime s "%Y%m%d",
            strptime s "%Y/%m/%d" with
      | Some t, _, _ | None, Some t, _ | None, None, Some t =>
          Returned (weekday_and_no_holiday t)
      | None, None, None => Returned true
      end).
  { unfold is_trade_day, trade_day_main, trade_day_fallback, first_format,
      strptime_exn.
    cbn [fold_right].
    destruct (strptime s "%Y-%m-%d") as [t1|] eqn:E1.
    - rewrite (H1 t1 eq_refl).
      destruct (slen s =? 10); cbn [andb mbind outcome_bind try_except];
        [now rewrite ?main_verdict, ?fallback_verdict|].
      destruct (isdigit s) eqn:Ed.
      + apply isdigit_no_dash in Ed. rewrite (H1 t1 eq_refl) in Ed. discriminate.
      + cbn [andb mbind outcome_bind try_except]. now rewrite ?main_verdict, ?fallback_verdict.
    - destruct (strptime s "%Y%m%d") as [t2|] eqn:E2.
      + rewrite (H2 t2 eq_refl), (isdigit_no_dash s (H2 t2 eq_refl)).
        destruct (slen s =? 8); cbn [andb mbind outcome_bind try_except];
          now rewrite ?main_verdict, ?fallback_verdict.
      + destruct (strptime s "%Y/%m/%d") as [t3|] eqn:E3.
        * destruct (H3 t3 eq_refl) as [-> ->].
          cbn [andb mbind outcome_bind try_except]. now rewrite ?main_verdict, ?fallback_verdict.
        * destruct (contains "-" s && (slen s =? 10));
            [reflexivity|]. destruct (isdigit s && (slen s =? 8)); reflexivity. }
  split.
  - intros fmt t Hfmt Hp. rewrite Hrun.
    destruct Hfmt as [<-|[<-|[<-|[]]]].
    + now rewrite Hp.
    + destruct (strptime s "%Y-%m-%d") as [t1|] eqn:E1.
      * pose proof (isdigit_no_dash s (H2 t Hp)) as Hd.
        rewrite (H1 t1 eq_refl) in Hd. discriminate.
      * now rewrite Hp.
    + destruct (H3 t Hp) as [Hdash Hdig].
      destruct (strptime s "%Y-%m-%d") as [t1|] eqn:E1.
      * rewrite (H1 t1 eq_refl) in Hdash. discriminate.
      * destruct (strptime s "%Y%m%d") as [t2|] eqn:E2.
        -- rewrite (H2 t2 eq_refl) in Hdig. discriminate.
        -- now rewrite Hp.
  - intros Hnone. rewrite Hrun.
    rewrite (Hnone "%Y-%m-%d"), (Hnone "%Y%m%d"), (Hnone "%Y/%m/%d");
      [reflexivity|unfold date_formats; simpl; tauto..].
Qed.

End TradeDay.

(** ** The validation of [khKline] *)

Lemma span_digits_spec (s d r : string) :
  span_digits s = (d, r) -> s = (d ++ r)%string /\ all_digits d = true.
Proof.
  revert d r. induction s as [|c s IH]; intros d r; simpl.
  - intros [= <- <-]. now split.
  - destruct (is_digit c) eqn:E.
    + destruct (span_digits s) as [d0 r0]. intros [= <- <-].
      destruct (IH d0 r0 eq_refl) as [-> Hd]. simpl. rewrite E. now split.
    + intros [= <- <-]. now split.
Qed.

Lemma append_assoc (a b c : string) :
  ((a ++ b) ++ c = a ++ (b ++ c))%string.
Proof.
  induction a as [|x a IH]; [reflexivity|].
  change (String x ((a ++ b) ++ c) = String x (a ++ (b ++ c)))%string.
  now rewrite IH.
Qed.

Lemma match_period_text (s : string) (d : string) (u : ascii) :
  match_period s = Some (d, u) -> period_text s.
Proof.
  unfold match_period. destruct (span_digits s) as [d0 r0] eqn:E.
  apply span_digits_spec in E as [-> Hd].
  destruct d0 as [|c0 d0]; [discriminate|].
  destruct r0 as [|u0 [|n [|]]]; try discriminate.
  - destruct (is_unit u0) eqn:Hu; [|discriminate]. intros _.
    left. exists (String c0 d0), u0. now repeat split.
  - destruct (is_unit u0) eqn:Hu; [|discriminate].
    destruct (Ascii.eqb n newline) eqn:Hn; [|discriminate]. intros _.
    apply Ascii.eqb_eq in Hn. subst n.
    right. exists (String c0 d0 ++ String u0 "")%string. split.
    + now rewrite append_assoc.
    + exists (String c0 d0), u0. now repeat split.
Qed.

Section Validation.

Context {collaborators : Collaborators}.

Lemma first_format_none (s : string) (fmts : list string) :
  (forall fmt, In fmt fmts -> strptime s fmt = None) ->
  first_format s fmts = None.
Proof.
  induction fmts as [|f fmts IH]; intros H; simpl; [reflexivity|].
  rewrite (H f (or_introl eq_refl)). apply IH. intros fmt Hf. apply H. now right.
Qed.

(** C8, as the code has it: [khKline] raises a [ValueError] on an empty
    symbol list, on an empty period, on a bar count that is not positive, on
    a period whose lower-case form is not a count and a unit (alone or before
    one final newline), and on a reference time that parses in none of the
    accepted formats; in particular on the periods 3x, m5 and the empty
    one. *)
Theorem khKline_validation (src : source) (symbol_list : symbols)
  (period : string) (bar_count : Z) (fields : option (list string))
  (end_time : option string) (fq : string) (force_download : bool) :
  let call :=
    khKline src symbol_list period bar_count fields end_time fq
      force_download in
  (no_symbols symbol_list = true -> raises_value_error call)
  /\ (period = "" -> raises_value_error call)
  /\ (bar_count <= 0 -> raises_value_error call)
  /\ (~ period_text (lower period) -> raises_value_error call)
  /\ (forall s, end_time = Some s ->
        (forall fmt, In fmt kline_time_formats -> strptime (strip s) fmt = None) ->
        raises_value_error call)
  /\ (forall bad, In bad ["3x"; "m5"; ""] ->
        raises_value_error
          (khKline src symbol_list bad bar_count fields end_time fq
             force_download)).
Proof.
  assert (Hbad : forall p, match_period (lower p) = None ->
            raises_value_error
              (khKline src symbol_list p bar_count fields end_time fq
                 force_download)).
  { intros p Hp. unfold khKline, raises_value_error. rewrite Hp.
    destruct (no_symbols symbol_list); [now eexists|].
    destruct (String.eqb p ""); [now eexists|].
    destruct (bar_count <=? 0); now eexists. }
  intros call. unfold call. split_and!.
  - intros H. unfold khKline, raises_value_error. rewrite H. now eexists.
  - intros ->. apply Hbad. reflexivity.
  - intros H. unfold khKline, raises_value_error.
    destruct (no_symbols symbol_list); [now eexists|].
    destruct (String.eqb period ""); [now eexists|].
    rewrite (proj2 (Z.leb_le _ _) H). now eexists.
  - intros H. apply Hbad.
    destruct (match_period (lower period)) as [[d u]|] eqn:E; [|reflexivity].
    exfalso. apply H. exact (match_period_text _ _ _ E).
  - intros s -> Hnone. unfold khKline, raises_value_error.
    destruct (no_symbols symbol_list); [now eexists|].
    destruct (String.eqb period ""); [now eexists|].
    destruct (bar_count <=? 0); [now eexists|].
    destruct (match_period (lower period)) as [[d u]|]; [|now eexists].
    unfold parse_kline_time.
    pose proof (first_format_none (strip s) _ Hnone) as Hff.
    unfold kline_time_formats in Hff. rewrite Hff.
    cbn [mbind outcome_bind]. now eexists.
  - intros bad [<-|[<-|[<-|[]]]]; apply Hbad; reflexivity.
Qed.

End Validation.

(** C8 fails as stated: 5M, whose unit letter is not one of m, h, d, is
    accepted and the call returns the bars of the symbol; 0m, whose count is
    not positive, is accepted too and the call returns an empty mapping. *)
Lemma khKline_accepted_period_example :
  table_lengths
    (khKline (collaborators := Reference.collaborators) Examples.long_store
       (One "000001.SZ") "5M" 10 None (Some "20241202 1000") "pre" false)
  = Some [("000001.SZ", 10)]
  /\ khKline (collaborators := Reference.collaborators) Examples.long_store
       (One "000001.SZ") "0m" 10 None (Some "20241202 1000") "pre" false
     = Returned [].
Proof. split; vm_compute; reflexivity. Qed.

(** ** The bar count of [khKline] *)

(** C5 fails on the code: with 250 one-minute bars up to the reference
    time, a call with [bar_count = 241] is accepted and returns 241 bars. *)
Theorem khKline_bar_count_above_240 :
  table_lengths
    (khKline (collaborators := Reference.collaborators) Examples.long_store
       (One "000001.SZ") "1m" 241 None (Some "20241202 1500") "pre" false)
  = Some [("000001.SZ", 241)].
Proof. vm_compute. reflexivity. Qed.

(** ** Year-aligned multi-day groups *)

Lemma trade_day_to_index_snoc (l : list Z) (d : Z) :
  trade_day_to_index (l ++ [d])
  = <[date_of d := Z.of_nat (length l)]> (trade_day_to_index l).
Proof.
  unfold trade_day_to_index. rewrite imap_app, fold_left_app. simpl.
  now rewrite Nat.add_0_r.
Qed.

Lemma trade_day_to_index_dom (l : list Z) (x i : Z) :
  trade_day_to_index l !! x = Some i -> In x (map date_of l).
Proof.
  revert i. induction l as [|d l IH] using rev_ind; intros i.
  - unfold trade_day_to_index. simpl. now rewrite lookup_empty.
  - rewrite trade_day_to_index_snoc, map_app, in_app_iff. simpl.
    destruct (decide (date_of d = x)) as [<-|Hne].
    + intros _. right. now left.
    + rewrite lookup_insert_ne by exact Hne. intros H. left. eauto.
Qed.

(** With distinct dates, the index of a date is its position in the list. *)
Lemma trade_day_to_index_position (l : list Z) (i : nat) (d : Z) :
  List.NoDup (map date_of l) -> l !! i = Some d ->
  trade_day_to_index l !! date_of d = Some (Z.of_nat i).
Proof.
  revert i. induction l as [|x l IH] using rev_ind; intros i Hnd Hi;
    [discriminate|].
  rewrite trade_day_to_index_snoc.
  rewrite map_app in Hnd. simpl in Hnd.
  apply NoDup_ListNoDup, NoDup_app in Hnd as (Hl & Hdis & _).
  destruct (decide (i < length l)%nat) as [Hlt|Hge].
  - rewrite lookup_app_l in Hi by exact Hlt.
    assert (date_of x <> date_of d).
    { intros Heq. apply (Hdis (date_of d)).
      - apply list_elem_of_In, in_map, list_elem_of_In.
        apply list_elem_of_lookup. now exists i.
      - rewrite <- Heq. apply list_elem_of_singleton. reflexivity. }
    rewrite lookup_insert_ne by assumption.
    apply IH; [now apply NoDup_ListNoDup|exact Hi].
  - assert (i = length l).
    { apply lookup_lt_Some in Hi. rewrite length_app in Hi. simpl in Hi. lia. }
    subst i. rewrite list_lookup_middle in Hi by reflexivity.
    injection Hi as <-. apply lookup_insert_eq.
Qed.

Lemma date_of_add_days (t n : Z) : date_of (add_days t n) = date_of t + n.
Proof.
  unfold date_of, add_days, ms_per_day. now rewrite Z.div_add by lia.
Qed.

Section TradeDays.

Context {collaborators : Collaborators}.

Lemma trade_days_loop_dates (fuel : nat) (current end_date : Z) (l : list Z) :
  trade_days_loop fuel current end_date = Returned l ->
  (forall x, In x l -> date_of current <= date_of x) /\
  List.NoDup (map date_of l).
Proof.
  revert current l. induction fuel as [|n IH]; intros current l; simpl.
  - intros [= <-]. split; [intros x []|constructor].
  - destruct (current <=? end_date).
    + intros H. apply bind_inv in H as (b & _ & H).
      apply bind_inv in H as (next & Hnext & H).
      apply plus_days_inv in Hnext as (-> & _).
      apply bind_inv in H as (rest & Hrest & [= <-]).
      apply IH in Hrest as [Hge Hnd]. rewrite date_of_add_days in Hge.
      destruct b.
      * split.
        -- intros x [<-|Hx]; [lia|]. specialize (Hge x Hx). lia.
        -- simpl. constructor; [|exact Hnd].
           intros Hin. apply in_map_iff in Hin as (x & Hx & Hin).
           specialize (Hge x Hin). lia.
      * split; [|exact Hnd]. intros x Hx. specialize (Hge x Hx). lia.
    + intros [= <-]. split; [intros x []|constructor].
Qed.

(** The trading days listed for a year have pairwise distinct dates. *)
Lemma trade_days_list_distinct (start_date end_date : Z) (l : list Z) :
  _get_trade_days_list start_date end_date = Returned l ->
  List.NoDup (map date_of l).
Proof. intros H. exact (proj2 (trade_days_loop_dates _ _ _ _ H)). Qed.

End TradeDays.

Lemma get_group_id_same_date (index : gmap Z Z) (period_days target_year : Z)
  (r1 r2 : gmap string Z) :
  date_of <$> r1 !! "time" = date_of <$> r2 !! "time" ->
  get_group_id index period_days target_year r1
  = get_group_id index period_days target_year r2.
Proof. unfold get_group_id. now intros ->. Qed.

Lemma agg_row_time (fields : list string) (b0 : gmap string Z)
  (rest : list (gmap string Z)) :
  Forall (fun r => is_Some (r !! "time")) (b0 :: rest) ->
  agg_row (agg_dict fields) (b0 :: rest) !! "time"
  = List.last rest b0 !! "time".
Proof.
  intros Hall. unfold agg_dict. cbn [app agg_row fold_right fst snd].
  rewrite (column_cells "time" _ Hall). cbn [map reduce].
  rewrite lookup_insert_eq, last_map.
  assert (Hlast : In (List.last rest b0) (b0 :: rest)) by apply last_in.
  rewrite List.Forall_forall in Hall. destruct (Hall _ Hlast) as [v Hv].
  unfold cell. now rewrite Hv.
Qed.

Section YearAlignment.

Context {collaborators : Collaborators}.

(** The labels of the multi-day route: with the trading-day list of the
    year and a positive period count, the group of a daily bar is the floor
    of the position of its date in the list over the count, a bar whose date
    is not listed has no group, and two bars on the same date receive the
    same group whatever tables they come from; the aggregated bar of a group
    is stamped with the time of the last bar that the symbol itself has in
    the group. *)
Lemma day_group_is_calendar_position
  (start_date end_date : Z) (trade_days_list : list Z)
  (period_days target_year : Z) :
  _get_trade_days_list start_date end_date = Returned trade_days_list ->
  0 < period_days ->
  let index := trade_day_to_index trade_days_list in
  (forall (r : gmap string Z) (t : Z) (i : nat) (d : Z),
      r !! "time" = Some t -> trade_days_list !! i = Some d ->
      date_of d = date_of t ->
      get_group_id index period_days target_year r
      = Returned (Some (str_nat target_year ++ "_"
                        ++ format_0d 3 (Z.of_nat i / period_days))%string))
  /\ (forall (r : gmap string Z) (t : Z),
         r !! "time" = Some t ->
         ~ In (date_of t) (map date_of trade_days_list) ->
         get_group_id index period_days target_year r = Returned None)
  /\ (forall (r1 r2 : gmap string Z) (t1 t2 : Z),
         r1 !! "time" = Some t1 -> r2 !! "time" = Some t2 ->
         date_of t1 = date_of t2 ->
         get_group_id index period_days target_year r1
         = get_group_id index period_days target_year r2)
  /\ (forall (fields : list string) (b0 : gmap string Z)
             (rest : list (gmap string Z)),
         Forall (fun r => is_Some (r !! "time")) (b0 :: rest) ->
         agg_row (agg_dict fields) (b0 :: rest) !! "time"
         = List.last rest b0 !! "time").
Proof.
  intros Hlist Hp index. split_and!.
  - intros r t i d Ht Hi Hd. unfold get_group_id. rewrite Ht. simpl.
    rewrite <- Hd. unfold index.
    rewrite (trade_day_to_index_position _ i d
               (trade_days_list_distinct _ _ _ Hlist) Hi).
    now rewrite (proj2 (Z.eqb_neq period_days 0)) by lia.
  - intros r t Ht Hnot. unfold get_group_id. rewrite Ht. simpl.
    destruct (index !! date_of t) as [i|] eqn:E; [|reflexivity].
    exfalso. apply Hnot. exact (trade_day_to_index_dom _ _ _ E).
  - intros r1 r2 t1 t2 H1 H2 Hd. apply get_group_id_same_date.
    rewrite H1, H2. simpl. now rewrite Hd.
  - intros fields b0 rest. apply agg_row_time.
Qed.

End YearAlignment.

(** C4 fails on the code, which stamps a group with the last bar that the
    symbol itself has in it: [A] and [B] both have bars in the first
    three-day group of 2024, and [B] misses January 4; in the answer of
    [khKline] for the period 3d the bar of [A] is stamped January 4 and that
    of [B] January 3, where the year alignment is to give both the same
    stamp. *)
Theorem khKline_three_day_stamps_example :
  table_times
    (khKline (collaborators := Reference.collaborators)
       Examples.two_symbol_store (Many ["A"; "B"]) "3d" 10 None
       (Some "20240105") "pre" false)
  = Some [("A", [Some (Reference.at_time 2024 1 4 0 0)]);
          ("B", [Some (Reference.at_time 2024 1 3 0 0)])].
Proof. vm_compute. reflexivity. Qed.

(** ** The order of group labels *)

Lemma compare_lt_trans (a b c : string) :
  String.compare a b = Lt -> String.compare b c = Lt -> String.compare a c = Lt.
Proof.
  revert b c. induction a as [|x a IH]; intros [|y b] [|z c]; simpl;
    try congruence.
  destruct (Ascii.compare x y) eqn:Hxy; try discriminate.
  - apply Ascii.compare_eq_iff in Hxy. subst y.
    destruct (Ascii.compare x z); try congruence. apply IH.
  - intros _. destruct (Ascii.compare y z) eqn:Hyz; try discriminate.
    + apply Ascii.compare_eq_iff in Hyz. subst z. now rewrite Hxy.
    + intros _. assert (Ascii.compare x z = Lt) as ->; [|reflexivity].
      unfold Ascii.compare in *. apply N.compare_lt_iff.
      apply N.compare_lt_iff in Hxy. apply N.compare_lt_iff in Hyz.
      exact (N.lt_trans _ _ _ Hxy Hyz).
Qed.

Lemma compare_lt_leb (a b : string) :
  String.compare a b = Lt -> String.leb a b = true.
Proof. unfold String.leb. now intros ->. Qed.

Lemma compare_gt_lt (a b : string) :
  String.compare a b = Gt -> String.compare b a = Lt.
Proof. intros H. rewrite String.compare_antisym, H. reflexivity. Qed.

Lemma leb_refl (a : string) : String.leb a a = true.
Proof. unfold String.leb. now rewrite compare_refl. Qed.



(** Comparing two texts with a common prefix compares what follows it. *)
Lemma compare_common_prefix (p x y : string) :
  String.compare (p ++ x) (p ++ y) = String.compare x y.
Proof.
  induction p as [|c p IH]; [reflexivity|].
  change (String.compare (String c (p ++ x)) (String c (p ++ y))
          = String.compare x y)%string.
  simpl. unfold Ascii.compare. now rewrite N.compare_refl.
Qed.

(** Two texts of one length that differ decide the order of what extends
    them. *)
Lemma compare_prefix_lt (a b x y : string) :
  String.length a = String.length b -> String.compare a b = Lt ->
  String.compare (a ++ x) (b ++ y) = Lt.
Proof.
  revert b. induction a as [|c a IH]; intros [|d b]; simpl; try discriminate.
  intros [= Hlen] Hcmp.
  change (String.compare (String c (a ++ x)) (String d (b ++ y)) = Lt)%string.
  simpl. destruct (Ascii.compare c d); try congruence. now apply IH.
Qed.

Lemma insert_key_in (k x : string) (l : list string) :
  In x (insert_key k l) <-> x = k \/ In x l.
Proof.
  induction l as [|h t IH]; simpl; [intuition|].
  destruct (String.compare k h) eqn:E; simpl.
  - apply String.compare_eq_iff in E. subst. intuition.
  - intuition.
  - rewrite IH. intuition.
Qed.

Lemma group_keys_in (x : string) (labels : list string) :
  In x (group_keys labels) <-> In x labels.
Proof.
  induction labels as [|k l IH]; simpl; [reflexivity|].
  rewrite insert_key_in, IH. intuition.
Qed.

Lemma insert_key_ascending (k : string) (l : list string) :
  ascending l -> ascending (insert_key k l).
Proof.
  induction 1 as [|h|h h' t Hlt Hasc IH]; simpl.
  - constructor.
  - destruct (String.compare k h) eqn:E; try constructor;
      auto using ascending, compare_gt_lt.
  - destruct (String.compare k h) eqn:E.
    + now constructor.
    + constructor; [exact E|now constructor].
    + simpl in IH. destruct (String.compare k h') eqn:E'.
      * now constructor.
      * constructor; [now apply compare_gt_lt|exact IH].
      * now constructor.
Qed.

Lemma group_keys_ascending (labels : list string) :
  ascending (group_keys labels).
Proof.
  induction labels as [|k l IH]; simpl; [constructor|].
  now apply insert_key_ascending.
Qed.



(** ** The routes of [khKline], symbol by symbol *)

(** Every entry that the loop over the stock codes leaves is the empty
    frame of a symbol without table or the frame computed from its table. *)
Lemma per_symbol_entries (frame : DataFrame -> outcome DataFrame)
  (data : gmap string (option DataFrame)) (stock_codes : list string)
  (result : list (string * DataFrame)) (code : string) (out : DataFrame) :
  per_symbol frame data stock_codes = Returned result ->
  dict_get code result = Some out ->
  (table_of data code = None /\ out = empty_frame) \/
  (exists df0, table_of data code = Some df0 /\ frame df0 = Returned out).
Proof.
  unfold per_symbol. intros Hrun. revert code out.
  eapply (for_each_invariant
            (fun s : list (string * DataFrame) =>
               forall code out, dict_get code s = Some out ->
                 (table_of data code = None /\ out = empty_frame) \/
                 (exists df0, table_of data code = Some df0 /\
                              frame df0 = Returned out)));
    [| |exact Hrun].
  - intros s0 a s1 Hs0 _ Hstep code out Hget. cbv beta in Hstep.
    destruct (decide (a = code)) as [->|Hne].
    + destruct (table_of data code) as [df0|] eqn:E.
      * apply bind_inv in Hstep as (o & Hframe & [= <-]).
        rewrite dict_get_set_eq in Hget. injection Hget as <-.
        right. now exists df0.
      * injection Hstep as <-. rewrite dict_get_set_eq in Hget.
        injection Hget as <-. now left.
    + assert (Hs1 : exists v, s1 = dict_set a v s0).
      { destruct (table_of data a).
        - apply bind_inv in Hstep as (o & _ & [= <-]). now eexists.
        - injection Hstep as <-. now eexists. }
      destruct Hs1 as [v ->]. rewrite dict_get_set_ne in Hget by exact Hne.
      now apply Hs0.
  - intros code out. discriminate.
Qed.

Section Routes.

Context {collaborators : Collaborators}.

Lemma minute_route_entries (src : source) (stock_codes : list string)
  (period_minutes bar_count : Z) (fields : list string) (target_datetime : Z)
  (dividend_type : string) (force_download : bool)
  (result : list (string * DataFrame)) (code : string) (out : DataFrame) :
  _get_minute_kline src stock_codes period_minutes bar_count fields
    target_datetime dividend_type force_download = Returned result ->
  dict_get code result = Some out ->
  out = empty_frame \/
  exists df0,
    (if bool_decide (period_minutes = 1 \/ period_minutes = 5)
     then native_frame (time_leb target_datetime) bar_count df0
     else minute_frame period_minutes bar_count fields target_datetime df0)
    = Returned out.
Proof.
  unfold _get_minute_kline. intros Hrun Hget.
  destruct (bool_decide (period_minutes = 1 \/ period_minutes = 5));
    apply bind_inv in Hrun as (data & _ & Hrun);
    (destruct (no_data data); [injection Hrun as <-; discriminate|]);
    (destruct (per_symbol_entries _ _ _ _ _ _ Hrun Hget)
       as [[_ ->]|(df0 & _ & Hframe)]; [now left|right; now exists df0]).
Qed.

Lemma hour_route_entries (src : source) (stock_codes : list string)
  (period_hours bar_count : Z) (fields : list string) (target_datetime : Z)
  (dividend_type : string) (force_download : bool)
  (result : list (string * DataFrame)) (code : string) (out : DataFrame) :
  _get_hour_kline src stock_codes period_hours bar_count fields
    target_datetime dividend_type force_download = Returned result ->
  dict_get code result = Some out ->
  out = empty_frame \/
  exists df0,
    minute_frame (period_hours * 60) bar_count fields target_datetime df0
    = Returned out.
Proof.
  unfold _get_hour_kline. intros Hrun Hget.
  apply bind_inv in Hrun as (data & _ & Hrun).
  destruct (no_data data); [injection Hrun as <-; discriminate|].
  destruct (per_symbol_entries _ _ _ _ _ _ Hrun Hget)
    as [[_ ->]|(df0 & _ & Hframe)]; [now left|right; now exists df0].
Qed.

Lemma day_route_entries (src : source) (stock_codes : list string)
  (bar_count : Z) (fields : list string) (target_datetime : Z)
  (dividend_type : string) (force_download : bool)
  (result : list (string * DataFrame)) (code : string) (out : DataFrame) :
  _get_day_kline src stock_codes 1 bar_count fields
    target_datetime dividend_type force_download = Returned result ->
  dict_get code result = Some out ->
  out = empty_frame \/
  exists df0,
    native_frame (date_leb target_datetime) bar_count df0 = Returned out.
Proof.
  unfold _get_day_kline. cbn [Z.eqb Pos.eqb]. intros Hrun Hget.
  apply bind_inv in Hrun as (data & _ & Hrun).
  destruct (no_data data); [injection Hrun as <-; discriminate|].
  destruct (per_symbol_entries _ _ _ _ _ _ Hrun Hget)
    as [[_ ->]|(df0 & _ & Hframe)]; [now left|right; now exists df0].
Qed.

End Routes.

(** ** Sorted frames and their tails *)

Lemma time_le_total (a b : gmap string Z) :
  time_le a b = true \/ time_le b a = true.
Proof.
  unfold time_le. destruct (a !! "time"), (b !! "time"); auto.
  destruct (Z.leb_spec z z0); [now left|right]. apply Z.leb_le. lia.
Qed.


Lemma time_le_trans (a b c : gmap string Z) :
  time_le a b = true -> time_le b c = true -> time_le a c = true.
Proof.
  unfold time_le.
  destruct (a !! "time"), (b !! "time"), (c !! "time"); try congruence.
  rewrite !Z.leb_le. lia.
Qed.

(** Rows in ascending order of time. *)
Lemma insert_row_sorted (r : gmap string Z) (l : list (gmap string Z)) :
  Sorted (fun a b => time_le a b = true) l ->
  Sorted (fun a b => time_le a b = true) (insert_row r l).
Proof.
  induction 1 as [|h t Hs IH Hhd]; simpl.
  - repeat constructor.
  - destruct (time_le r h) eqn:E.
    + constructor; [now constructor|now constructor].
    + constructor; [exact IH|].
      assert (Hhr : time_le h r = true)
        by (destruct (time_le_total r h); congruence).
      destruct t as [|h' t]; simpl; [now constructor|].
      destruct (time_le r h'); constructor; [exact Hhr|].
      now inversion Hhd.
Qed.

Lemma sort_rows_sorted (l : list (gmap string Z)) :
  StronglySorted (fun a b => time_le a b = true) (sort_rows l).
Proof.
  apply Sorted_StronglySorted.
  - intros a b c. apply time_le_trans.
  - induction l as [|r l IH]; simpl; [constructor|].
    now apply insert_row_sorted.
Qed.







(** ** The native routes keep the bars up to the reference time *)

Lemma to_local_time_inv (df out : DataFrame) :
  to_local_time df = Returned out ->
  has "time" (columns df) = true /\
  out = mkDF (columns df) (map local_row (rows df)).
Proof.
  unfold to_local_time. destruct (has "time" (columns df)); [|discriminate].
  destruct (negb (forallb convertible (rows df))); [discriminate|].
  destruct (negb (forallb shiftable (rows df))); [discriminate|].
  intros [= <-]. now split.
Qed.

Lemma native_frame_inv (mask : gmap string Z -> bool) (bar_count : Z)
  (df0 out : DataFrame) :
  native_frame mask bar_count df0 = Returned out ->
  out = trim bar_count
          (mkDF (columns df0)
             (sort_rows (List.filter mask (map local_row (rows df0))))).
Proof.
  unfold native_frame. intros H.
  apply bind_inv in H as (df1 & H1 & H).
  apply to_local_time_inv in H1 as [_ ->].
  apply bind_inv in H as (df2 & H2 & [= <-]).
  now apply sort_values_time_inv in H2 as [_ ->].
Qed.

Lemma native_frame_returns (mask : gmap string Z -> bool) (bar_count : Z)
  (df0 : DataFrame) :
  readable df0 ->
  exists out, native_frame mask bar_count df0 = Returned out.
Proof.
  intros Hread. pose proof Hread as (_ & Ht & _). apply has_In in Ht.
  unfold native_frame. rewrite (to_local_time_returns _ Hread).
  unfold sort_values_time.
  cbn [mbind outcome_bind select columns]. rewrite Ht.
  cbn [mbind outcome_bind]. now eexists.
Qed.


(** ** The order of the minute group labels *)

Lemma range_all_spec (n : nat) (start : Z) (p : Z -> bool) :
  range_all n start p = true ->
  forall z, start <= z < start + Z.of_nat n -> p z = true.
Proof.
  revert start. induction n as [|n IH]; intros start H z Hz; [lia|].
  simpl in H. apply andb_true_iff in H as [Hp Hrest].
  destruct (Z.eq_dec z start) as [->|Hne]; [exact Hp|].
  apply (IH (start + 1) Hrest). lia.
Qed.

(** A text that grows at every step of a range grows along the range. *)
Lemma adjacent_monotone (f : Z -> string) (w : nat) (n : nat) (start : Z) :
  range_all n start (fun z => before_with_width w (f z) (f (z + 1))) = true ->
  forall a b, start <= a -> a < b -> b <= start + Z.of_nat n ->
    String.compare (f a) (f b) = Lt /\ String.length (f a) = w.
Proof.
  intros Hall.
  assert (Hstep : forall z, start <= z < start + Z.of_nat n ->
            String.compare (f z) (f (z + 1)) = Lt /\ String.length (f z) = w).
  { intros z Hz. pose proof (range_all_spec _ _ _ Hall z Hz) as H.
    unfold before_with_width in H. apply andb_true_iff in H as [Hc Hl].
    split; [now destruct (String.compare (f z) (f (z + 1)))|].
    now apply Nat.eqb_eq. }
  intros a b Ha Hab Hb.
  split; [|apply Hstep; lia].
  assert (Hk : forall k : nat, a + 1 + Z.of_nat k <= start + Z.of_nat n ->
                 String.compare (f a) (f (a + 1 + Z.of_nat k)) = Lt).
  { induction k as [|k IH]; intros Hle.
    - rewrite Z.add_0_r. apply Hstep. lia.
    - apply (compare_lt_trans _ (f (a + 1 + Z.of_nat k))); [apply IH; lia|].
      replace (a + 1 + Z.of_nat (S k)) with (a + 1 + Z.of_nat k + 1) by lia.
      apply Hstep. lia. }
  replace b with (a + 1 + Z.of_nat (Z.to_nat (b - a - 1))) by lia.
  apply Hk. lia.
Qed.

Lemma str_date_adjacent :
  range_all (Z.to_nat (end_day - first_day)) first_day
    (fun d => before_with_width 10 (str_date d) (str_date (d + 1))) = true.
Proof. vm_compute. reflexivity. Qed.

Lemma format_bucket_adjacent :
  range_all 1000 (-1)
    (fun b => before_with_width 3 (format_0d 3 b) (format_0d 3 (b + 1))) = true.
Proof. vm_compute. reflexivity. Qed.

Lemma str_date_monotone (d1 d2 : Z) :
  first_day <= d1 -> d1 < d2 -> d2 <= end_day ->
  String.compare (str_date d1) (str_date d2) = Lt.
Proof.
  intros H1 H12 H2.
  apply (adjacent_monotone str_date 10 _ first_day str_date_adjacent d1 d2);
    [exact H1|exact H12|].
  rewrite Z2Nat.id; [lia|]. vm_compute. discriminate.
Qed.

Lemma str_date_length (d : Z) :
  first_day <= d < end_day -> String.length (str_date d) = 10%nat.
Proof.
  intros H.
  apply (adjacent_monotone str_date 10 _ first_day str_date_adjacent d (d + 1));
    [lia|lia|].
  rewrite Z2Nat.id; [lia|]. vm_compute. discriminate.
Qed.

Lemma format_bucket_monotone (b1 b2 : Z) :
  -1 <= b1 -> b1 <= b2 -> b2 <= 999 ->
  String.leb (format_0d 3 b1) (format_0d 3 b2) = true.
Proof.
  intros H1 H12 H2. destruct (Z.eq_dec b1 b2) as [->|Hne]; [apply leb_refl|].
  apply compare_lt_leb.
  apply (adjacent_monotone (format_0d 3) 3 1000 (-1) format_bucket_adjacent
           b1 b2); lia.
Qed.

Lemma minute_of_day (t : Z) :
  hour_of t * 60 + minute_of t = (t mod ms_per_day) / ms_per_minute.
Proof.
  unfold hour_of, minute_of, ms_per_day, ms_per_hour, ms_per_minute.
  Z.div_mod_to_equations. lia.
Qed.

Lemma hour_of_range (t : Z) : 0 <= hour_of t < 24 /\ 0 <= minute_of t < 60.
Proof.
  unfold hour_of, minute_of, ms_per_day, ms_per_hour, ms_per_minute.
  Z.div_mod_to_equations. lia.
Qed.

Lemma minute_of_day_monotone (t1 t2 : Z) :
  t1 <= t2 -> date_of t1 = date_of t2 ->
  hour_of t1 * 60 + minute_of t1 <= hour_of t2 * 60 + minute_of t2.
Proof.
  intros Hle Hd. rewrite !minute_of_day.
  unfold date_of, ms_per_day, ms_per_minute in *.
  Z.div_mod_to_equations. lia.
Qed.

(** Within the sessions of one day the minute offset grows with the time. *)
Lemma minutes_since_931_monotone (t1 t2 : Z) :
  t1 <= t2 -> date_of t1 = date_of t2 -> session_time t1 = true ->
  -1 <= minutes_since_931 t1 /\
  minutes_since_931 t1 <= minutes_since_931 t2 /\
  minutes_since_931 t2 <= 778.
Proof.
  intros Hle Hd Hs.
  pose proof (minute_of_day_monotone t1 t2 Hle Hd) as Hm.
  pose proof (hour_of_range t1) as [Hh1 Hm1].
  pose proof (hour_of_range t2) as [Hh2 Hm2].
  unfold session_time in Hs. unfold minutes_since_931.
  destruct (Z.leb_spec 13 (hour_of t1)), (Z.leb_spec 13 (hour_of t2));
    apply orb_true_iff in Hs as [Hs|Hs];
    try apply andb_true_iff in Hs as [Hs Hs']; lia.
Qed.

Lemma bucket_bounds (p x1 x2 : Z) :
  0 < p -> -1 <= x1 -> x1 <= x2 -> x2 <= 778 ->
  -1 <= x1 / p /\ x1 / p <= x2 / p /\ x2 / p <= 999.
Proof.
  intros Hp H1 H12 H2. split_and!.
  - apply Z.div_le_lower_bound; lia.
  - apply Z.div_le_mono; lia.
  - apply Z.div_le_upper_bound; nia.
Qed.

Lemma date_of_monotone (t1 t2 : Z) : t1 <= t2 -> date_of t1 <= date_of t2.
Proof. intros H. unfold date_of, ms_per_day. apply Z.div_le_mono; lia. Qed.

(** An earlier session bar never has a greater group label. *)
Lemma minute_group_id_monotone (p t1 t2 : Z) (r1 r2 : gmap string Z) :
  0 < p ->
  r1 !! "time" = Some t1 -> r2 !! "time" = Some t2 ->
  t1 <= t2 -> session_time t1 = true ->
  first_day <= date_of t1 -> date_of t2 < end_day ->
  String.leb (minute_group_id p r1) (minute_group_id p r2) = true.
Proof.
  intros Hp H1 H2 Hle Hs Hlo Hhi. unfold minute_group_id. rewrite H1, H2.
  pose proof (date_of_monotone _ _ Hle) as Hd.
  destruct (Z.eq_dec (date_of t1) (date_of t2)) as [Heq|Hne].
  - rewrite Heq. unfold String.leb. rewrite !compare_common_prefix.
    destruct (minutes_since_931_monotone t1 t2 Hle Heq Hs) as (Ha & Hb & Hc).
    destruct (bucket_bounds p _ _ Hp Ha Hb Hc) as (Ha' & Hb' & Hc').
    exact (format_bucket_monotone _ _ Ha' Hb' Hc').
  - apply compare_lt_leb, compare_prefix_lt.
    + rewrite !str_date_length by lia. reflexivity.
    + apply str_date_monotone; lia.
Qed.

(** * The statements at concrete inputs *)

Lemma aggregate_kline_rules_witness :
  exists out,
    _aggregate_kline Examples.two_bars_with_amount_grouped "group_id" ohlcva
    = Returned (mk_frame ("group_id" :: rule_table) [out]
                  (Some ("group_id", [Some "g"])))
    /\ out !! "volume" = Some 300.
Proof.
  destruct (proj1 aggregate_kline_rules Examples.two_bars_with_amount_grouped
              "group_id" [Some "g"; Some "g"] "g"
              (delete "group_id"
                 (<["amount" := 1050]> (Reference.bar 1 10 12 9 11 100)))
              [delete "group_id"
                 (<["amount" := 2300]> (Reference.bar 2 11 13 10 12 200))])
    as (out & hi & lo & Hrun & H).
  - reflexivity.
  - unfold rule_table. cbn [In]. intuition discriminate.
  - reflexivity.
  - reflexivity.
  - intros c [<-|[<-|[]]]; reflexivity.
  - intros c Hc. simpl in *. tauto.
  - intros r c Hr Hc.
    assert (Hall : forallb
                     (fun r : gmap string Z =>
                        forallb (fun c => bool_decide (is_Some (r !! c)))
                          rule_table)
                     (rows Examples.two_bars_with_amount_grouped) = true)
      by (vm_compute; reflexivity).
    rewrite forallb_forall in Hall. specialize (Hall r Hr).
    rewrite forallb_forall in Hall. specialize (Hall c Hc).
    now apply bool_decide_eq_true in Hall.
  - exists out. split; [exact Hrun|].
    destruct H as (_ & _ & _ & _ & _ & _ & _ & _ & _ & _ & _ & Hvol & _).
    apply Hvol. split; [apply Z.leb_le|apply Z.ltb_lt]; vm_compute; reflexivity.
Defined.

Lemma aggregate_kline_drops_other_fields_witness :
  exists out,
    _aggregate_kline Examples.with_pre_close_grouped "group_id"
      ["close"; "preClose"] = Returned out
    /\ columns out = ["group_id"; "time"; "close"]
    /\ ~ In "preClose" (columns out)
    /\ forall r, In r (rows out) -> r !! "preClose" = None.
Proof.
  eexists. split; [reflexivity|].
  apply (aggregate_kline_drops_other_fields Examples.with_pre_close_grouped
           "group_id" ["close"; "preClose"] "preClose").
  - unfold rule_table. cbn [In]. intuition discriminate.
  - discriminate.
  - unfold rule_table. cbn [In]. intuition discriminate.
  - reflexivity.
Defined.

Lemma process_930_data_corrects_witness :
  exists out,
    _process_930_data Examples.morning default_fields = Returned out
    /\ columns out = columns Examples.morning.
Proof.
  destruct (proj1 process_930_data_corrects Examples.morning default_fields)
    as (out & Hrun & Hcols & _).
  - simpl. tauto.
  - exists out. now split.
Defined.

Lemma khHistory_window_strictly_before_witness :
  exists result,
    khHistory (collaborators := Reference.collaborators)
      Examples.two_symbol_store (Many ["A"; "B"]) ["close"] 2 "1d"
      (Some "20240104") false "pre" false = Returned result
    /\ forall code df r,
         In (code, df) result -> In r (rows df) ->
         strictly_before "1d" (Reference.at_time 2024 1 4 0 0) r.
Proof.
  apply (khHistory_window_strictly_before
           (collaborators := Reference.collaborators)).
  - reflexivity.
  - discriminate.
  - lia.
  - vm_compute. reflexivity.
Defined.

Lemma is_trade_day_verdict_witness :
  is_trade_day (collaborators := Reference.collaborators) (Some "2024-12-01")
  = Returned false
  /\ is_trade_day (collaborators := Reference.collaborators) (Some "2024-12-02")
     = Returned true
  /\ is_trade_day (collaborators := Reference.collaborators) (Some "next Monday")
     = Returned true.
Proof.
  split_and!.
  - apply (proj1 (is_trade_day_verdict
                    (collaborators := Reference.collaborators) "2024-12-01"
                    ltac:(intros; reflexivity)
                    ltac:(intros t H; vm_compute in H; discriminate)
                    ltac:(intros t H; vm_compute in H; discriminate))
             "%Y-%m-%d" (Reference.at_time 2024 12 1 0 0));
      [simpl; tauto|vm_compute; reflexivity].
  - apply (proj1 (is_trade_day_verdict
                    (collaborators := Reference.collaborators) "2024-12-02"
                    ltac:(intros; reflexivity)
                    ltac:(intros t H; vm_compute in H; discriminate)
                    ltac:(intros t H; vm_compute in H; discriminate))
             "%Y-%m-%d" (Reference.at_time 2024 12 2 0 0));
      [simpl; tauto|vm_compute; reflexivity].
  - apply (proj2 (is_trade_day_verdict
                    (collaborators := Reference.collaborators) "next Monday"
                    ltac:(intros t H; vm_compute in H; discriminate)
                    ltac:(intros t H; vm_compute in H; discriminate)
                    ltac:(intros t H; vm_compute in H; discriminate))).
    intros fmt [<-|[<-|[<-|[]]]]; vm_compute; reflexivity.
Defined.


Lemma khKline_validation_witness :
  raises_value_error
    (khKline (collaborators := Reference.collaborators) Examples.long_store
       (One "000001.SZ") "1m" 0 None (Some "20241202 1000") "pre" false)
  /\ raises_value_error
       (khKline (collaborators := Reference.collaborators) Examples.long_store
          (One "000001.SZ") "1m" 10 None (Some "yesterday") "pre" false).
Proof.
  split.
  - pose proof (khKline_validation (collaborators := Reference.collaborators)
                  Examples.long_store (One "000001.SZ") "1m" 0 None
                  (Some "20241202 1000") "pre" false) as H.
    cbv zeta in H. destruct H as (_ & _ & Hcount & _).
    apply Hcount. lia.
  - pose proof (khKline_validation (collaborators := Reference.collaborators)
                  Examples.long_store (One "000001.SZ") "1m" 10 None
                  (Some "yesterday") "pre" false) as H.
    cbv zeta in H. destruct H as (_ & _ & _ & _ & Htime & _).
    apply (Htime "yesterday"); [reflexivity|].
    intros fmt [<-|[<-|[<-|[<-|[<-|[<-|[]]]]]]]; vm_compute; reflexivity.
Defined.

Lemma day_group_is_calendar_position_example :
  get_group_id
    (trade_day_to_index
       [Reference.at_time 2024 1 2 0 0; Reference.at_time 2024 1 3 0 0;
        Reference.at_time 2024 1 4 0 0; Reference.at_time 2024 1 5 0 0])
    3 2024 {["time" := Reference.at_time 2024 1 5 0 0]}
  = Returned (Some "2024_001").
Proof.
  apply (proj1 (day_group_is_calendar_position
                  (collaborators := Reference.collaborators)
                  (Reference.at_time 2024 1 1 0 0)
                  (Reference.at_time 2024 1 5 0 0)
                  [Reference.at_time 2024 1 2 0 0; Reference.at_time 2024 1 3 0 0;
                   Reference.at_time 2024 1 4 0 0; Reference.at_time 2024 1 5 0 0]
                  3 2024 ltac:(vm_compute; reflexivity) ltac:(lia))
           {["time" := Reference.at_time 2024 1 5 0 0]}
           (Reference.at_time 2024 1 5 0 0) 3%nat
           (Reference.at_time 2024 1 5 0 0));
    reflexivity.
Defined.

(** * Further properties of the calendar functions *)

Section Calendar.

Context {collaborators : Collaborators}.

Lemma is_trade_day_returns (date_str : option string) :
  exists b, is_trade_day date_str = Returned b.
Proof.
  unfold is_trade_day.
  set (s := match date_str with Some s => s | None => _ end).
  destruct (trade_day_main s) as [b|e]; [now exists b|].
  cbn [try_except]. unfold trade_day_fallback.
  destruct (first_format s _) as [t|]; [|now eexists].
  destruct (cn_holidays (date_of t)); [now eexists|].
  destruct (5 <=? weekday (date_of t)); now eexists.
Qed.

(** [is_trade_day] returns for every argument, whatever the parser and the
    holiday table do: no exception reaches the caller. *)
Theorem is_trade_day_never_raises (date_str : option string) :
  exists b, is_trade_day date_str = Returned b.
Proof.
  unfold is_trade_day.
  destruct (trade_day_main _) as [b|e]; [now exists b|].
  cbn [try_except]. unfold trade_day_fallback.
  destruct (first_format _ _) as [t|]; [|now exists true].
  destruct (cn_holidays (date_of t)); [now exists false|].
  destruct (5 <=? weekday (date_of t)); [now exists false|now exists true].
Qed.

Lemma scan_end_next (current end_date : Z) :
  add_days current 1 <= end_date ->
  scan_end (add_days current 1) end_date = scan_end current end_date.
Proof.
  intros Hle. unfold scan_end, add_days in *.
  replace (end_date - (current + 1 * ms_per_day))
    with (end_date - current + (-1) * ms_per_day) by lia.
  rewrite Z.div_add by (unfold ms_per_day; lia). lia.
Qed.

Lemma scan_end_after (current end_date : Z) :
  current <= end_date -> add_days current 1 <= scan_end current end_date.
Proof.
  intros Hle. unfold scan_end, add_days.
  assert (0 <= (end_date - current) / ms_per_day)
    by (apply Z.div_pos; unfold ms_per_day; lia).
  unfold ms_per_day in *. nia.
Qed.

Lemma scan_end_last (current end_date : Z) :
  current <= end_date -> end_date < add_days current 1 ->
  scan_end current end_date = add_days current 1.
Proof.
  intros Hle Hlt. unfold scan_end, add_days in *.
  rewrite Z.div_small by (unfold ms_per_day in *; lia). lia.
Qed.

Lemma scan_fuel_next (current end_date : Z) (n : nat) :
  current <= end_date ->
  (end_date - current) / ms_per_day + 1 <= Z.of_nat (S n) ->
  (end_date - add_days current 1) / ms_per_day + 1 <= Z.of_nat n.
Proof.
  intros Hle Hfuel. unfold add_days.
  replace (end_date - (current + 1 * ms_per_day))
    with (end_date - current + (-1) * ms_per_day) by lia.
  rewrite Z.div_add by (unfold ms_per_day; lia). lia.
Qed.

Lemma trade_days_loop_spec (fuel : nat) (current end_date : Z) :
  datetime_min <= current ->
  (current <= end_date ->
   (end_date - current) / ms_per_day + 1 <= Z.of_nat fuel /\
   scan_end current end_date <= datetime_max) ->
  exists l,
    trade_days_loop fuel current end_date = Returned l /\
    (forall x, In x l <->
       exists k, 0 <= k /\ x = add_days current k /\ x <= end_date /\ trading x) /\
    StronglySorted Z.lt l /\
    (forall x, In x l -> current <= x).
Proof.
  revert current. induction fuel as [|n IH]; intros current Hmin Hfuel.
  - assert (Hgt : end_date < current).
    { destruct (Z_lt_le_dec end_date current) as [H|H]; [exact H|].
      destruct (Hfuel H) as [Hf _].
      assert (0 <= (end_date - current) / ms_per_day)
        by (apply Z.div_pos; unfold ms_per_day; lia).
      simpl in Hf. lia. }
    exists []. split; [reflexivity|]. split_and!.
    + intros x. split; [intros []|].
      intros (k & Hk & -> & Hle & _). unfold add_days, ms_per_day in Hle. lia.
    + constructor.
    + intros x [].
  - cbn [trade_days_loop]. destruct (Z.leb_spec current end_date) as [Hle|Hgt].
    + destruct (is_trade_day_returns
                  (Some (strftime current "%Y-%m-%d"))) as [b Hb].
      destruct (Hfuel Hle) as [Hf Hmax].
      pose proof (scan_end_after current end_date Hle) as Hnext.
      assert (Hday : current < add_days current 1)
        by (unfold add_days, ms_per_day; lia).
      rewrite Hb, (plus_days_returns current 1) by lia.
      destruct (IH (add_days current 1)) as (rest & Hrest & Hin & Hs & Hge).
      { lia. }
      { intros Hle'. split; [now apply scan_fuel_next|].
        now rewrite scan_end_next. }
      cbn [mbind outcome_bind]. rewrite Hrest. cbn [mbind outcome_bind].
      assert (Hstep : forall k, add_days (add_days current 1) k
                                = add_days current (k + 1))
        by (intros k; unfold add_days; lia).
      assert (Hrest_in : forall x, In x rest <->
                 exists k, 1 <= k /\ x = add_days current k /\
                           x <= end_date /\ trading x).
      { intros x. rewrite Hin. split.
        - intros (k & Hk & -> & Hx). exists (k + 1). rewrite Hstep in *.
          split; [lia|]. now split.
        - intros (k & Hk & -> & Hx). exists (k - 1). rewrite Hstep.
          replace (k - 1 + 1) with k by lia. split; [lia|]. now split. }
      assert (Hold : forall x, In x rest -> current < x).
      { intros x Hx. specialize (Hge x Hx). lia. }
      eexists. split; [reflexivity|]. destruct b; split_and!.
      * intros x. cbn [In]. rewrite Hrest_in. split.
        -- intros [<-|(k & Hk & Hx)].
           ++ exists 0. split; [lia|]. split; [unfold add_days; lia|].
              split; [exact Hle|exact Hb].
           ++ exists k. split; [lia|exact Hx].
        -- intros (k & Hk & Hx). destruct (Z.eq_dec k 0) as [->|Hne].
           ++ left. destruct Hx as [-> _]. unfold add_days. lia.
           ++ right. exists k. split; [lia|exact Hx].
      * constructor; [exact Hs|]. apply List.Forall_forall. exact Hold.
      * intros x [<-|Hx]; [lia|]. specialize (Hold x Hx). lia.
      * intros x. rewrite Hrest_in. split.
        -- intros (k & Hk & Hx). exists k. split; [lia|exact Hx].
        -- intros (k & Hk & Hx). exists k. split; [|exact Hx].
           destruct (Z.eq_dec k 0) as [->|Hne]; [|lia].
           destruct Hx as (-> & _ & Ht). unfold trading in Ht.
           replace (add_days current 0) with current in Ht
             by (unfold add_days; lia).
           congruence.
      * exact Hs.
      * intros x Hx. specialize (Hold x Hx). lia.
    + exists []. split; [reflexivity|]. split_and!.
      * intros x. split; [intros []|].
        intros (k & Hk & -> & Hle & _). unfold add_days, ms_per_day in Hle. lia.
      * constructor.
      * intros x [].
Qed.

(** A scan that leaves the range of [datetime] ends in an [OverflowError]. *)
Lemma trade_days_loop_overflow (fuel : nat) (current end_date : Z) :
  datetime_min <= current -> current <= end_date ->
  end_date <= datetime_max ->
  (end_date - current) / ms_per_day + 1 <= Z.of_nat fuel ->
  datetime_max < scan_end current end_date ->
  trade_days_loop fuel current end_date = Raised OverflowError.
Proof.
  revert current. induction fuel as [|n IH];
    intros current Hmin Hle Hend Hfuel Hover.
  - assert (0 <= (end_date - current) / ms_per_day)
      by (apply Z.div_pos; unfold ms_per_day; lia).
    simpl in Hfuel. lia.
  - cbn [trade_days_loop]. rewrite (proj2 (Z.leb_le _ _) Hle).
    destruct (is_trade_day_returns
                (Some (strftime current "%Y-%m-%d"))) as [b ->].
    cbn [mbind outcome_bind].
    assert (Hday : current < add_days current 1)
      by (unfold add_days, ms_per_day; lia).
    destruct (Z_le_gt_dec (add_days current 1) end_date) as [Hnext|Hnext].
    + rewrite (plus_days_returns current 1) by lia.
      cbn [mbind outcome_bind].
      rewrite (IH (add_days current 1)); [reflexivity|lia|exact Hnext
        |exact Hend|now apply scan_fuel_next|now rewrite scan_end_next].
    + rewrite scan_end_last in Hover by lia.
      unfold plus_days.
      rewrite (proj2 (Z.leb_gt (add_days current 1) datetime_max))
        by lia.
      now rewrite andb_false_r.
Qed.

(** As long as the scan stays in the range of [datetime],
    [_get_trade_days_list] returns exactly the days [start_date],
    [start_date] + 1 day, ... up to [end_date] that [is_trade_day] accepts, in
    strictly ascending order; a scan that reaches the last day of year 9999
    raises the [OverflowError] of its step past it. *)
Theorem trade_days_list_exact (start_date end_date : Z) :
  (datetime_min <= start_date ->
   (start_date <= end_date -> scan_end start_date end_date <= datetime_max) ->
   exists l,
     _get_trade_days_list start_date end_date = Returned l /\
     (forall x, In x l <->
        exists k, 0 <= k /\ x = add_days start_date k /\ x <= end_date /\
                  trading x) /\
     StronglySorted Z.lt l)
  /\ (datetime_min <= start_date -> start_date <= end_date ->
      end_date <= datetime_max ->
      datetime_max < scan_end start_date end_date ->
      _get_trade_days_list start_date end_date = Raised OverflowError).
Proof.
  unfold _get_trade_days_list. split.
  - intros Hmin Hmax.
    destruct (trade_days_loop_spec
                (Z.to_nat ((end_date - start_date) / ms_per_day + 1))
                start_date end_date Hmin) as (l & Hl & Hin & Hs & _).
    + intros Hle. split; [|now apply Hmax].
      assert (0 <= (end_date - start_date) / ms_per_day)
        by (apply Z.div_pos; unfold ms_per_day; lia).
      lia.
    + exists l. now split_and!.
  - intros Hmin Hle Hend Hover.
    apply trade_days_loop_overflow; try assumption.
    assert (0 <= (end_date - start_date) / ms_per_day)
      by (apply Z.div_pos; unfold ms_per_day; lia).
    lia.
Qed.

End Calendar.

Section Counts.

Context {collaborators : Collaborators}.

Lemma trade_days_count_loop_length (fuel : nat) (current end_date acc : Z)
  (l : list Z) :
  trade_days_loop fuel current end_date = Returned l ->
  trade_days_count_loop fuel current end_date acc
  = Returned (acc + Z.of_nat (length l)).
Proof.
  revert current acc l. induction fuel as [|n IH]; intros current acc l; simpl.
  - intros [= <-]. simpl. f_equal. lia.
  - destruct (current <=? end_date).
    + intros H. apply bind_inv in H as (b & Hb & H).
      apply bind_inv in H as (next & Hnext & H).
      apply bind_inv in H as (rest & Hrest & [= <-]).
      rewrite Hb, Hnext. cbn [mbind outcome_bind].
      rewrite (IH _ _ rest Hrest). destruct b; simpl; f_equal; lia.
    + intros [= <-]. simpl. f_equal. lia.
Qed.

Lemma trade_days_count_loop_raises (fuel : nat) (current end_date acc : Z)
  (e : exn) :
  trade_days_loop fuel current end_date = Raised e ->
  trade_days_count_loop fuel current end_date acc = Raised e.
Proof.
  revert current acc. induction fuel as [|n IH]; intros current acc; simpl;
    [discriminate|].
  destruct (current <=? end_date); [|discriminate].
  destruct (is_trade_day _) as [b|e0]; cbn [mbind outcome_bind];
    [|now intros [= <-]].
  destruct (plus_days current 1) as [next|e0]; cbn [mbind outcome_bind];
    [|now intros [= <-]].
  destruct (trade_days_loop n next end_date) as [rest|e0] eqn:Hrest;
    cbn [mbind outcome_bind]; [discriminate|].
  intros [= <-]. now apply IH.
Qed.

(** As long as the scan stays in the range of [datetime],
    [get_trade_days_count] counts the days that [_get_trade_days_list] lists
    between the two parsed dates; it gives 0 when the scan reaches the last
    day of year 9999, when a date does not parse and when the start lies
    after the end. *)
Theorem trade_days_count_is_list_length (start_date end_date : string) :
  (forall s e,
      strptime start_date "%Y-%m-%d" = Some s ->
      strptime end_date "%Y-%m-%d" = Some e -> s <= e ->
      datetime_min <= s -> scan_end s e <= datetime_max ->
      exists l, _get_trade_days_list s e = Returned l /\
                get_trade_days_count start_date end_date = Z.of_nat (length l))
  /\ (forall s e,
         strptime start_date "%Y-%m-%d" = Some s ->
         strptime end_date "%Y-%m-%d" = Some e -> s <= e ->
         datetime_min <= s -> e <= datetime_max ->
         datetime_max < scan_end s e ->
         _get_trade_days_list s e = Raised OverflowError /\
         get_trade_days_count start_date end_date = 0)
  /\ (forall s e,
         strptime start_date "%Y-%m-%d" = Some s ->
         strptime end_date "%Y-%m-%d" = Some e -> e < s ->
         get_trade_days_count start_date end_date = 0)
  /\ (strptime start_date "%Y-%m-%d" = None \/
      strptime end_date "%Y-%m-%d" = None ->
      get_trade_days_count start_date end_date = 0).
Proof.
  assert (Hfuel : forall s e, s <= e ->
            (e - s) / ms_per_day + 1
            <= Z.of_nat (Z.to_nat ((e - s) / ms_per_day + 1))).
  { intros s e Hle.
    assert (0 <= (e - s) / ms_per_day)
      by (apply Z.div_pos; unfold ms_per_day; lia).
    lia. }
  unfold get_trade_days_count, strptime_exn. split_and!.
  - intros s e Hs He Hle Hmin Hmax. rewrite Hs, He. cbn [mbind outcome_bind].
    rewrite (proj2 (Z.ltb_ge e s) Hle).
    destruct (trade_days_loop_spec
                (Z.to_nat ((e - s) / ms_per_day + 1)) s e Hmin)
      as (l & Hl & _).
    { intros _. split; [now apply Hfuel|exact Hmax]. }
    exists l. split; [exact Hl|].
    now rewrite (trade_days_count_loop_length _ _ _ 0 l Hl).
  - intros s e Hs He Hle Hmin Hend Hover. rewrite Hs, He.
    cbn [mbind outcome_bind]. rewrite (proj2 (Z.ltb_ge e s) Hle).
    assert (Hl : _get_trade_days_list s e = Raised OverflowError)
      by (apply trade_days_loop_overflow; auto).
    split; [exact Hl|].
    now rewrite (trade_days_count_loop_raises _ _ _ 0 _ Hl).
  - intros s e Hs He Hlt. rewrite Hs, He. cbn [mbind outcome_bind].
    now rewrite (proj2 (Z.ltb_lt e s) Hlt).
  - intros [H|H].
    + now rewrite H.
    + rewrite H. now destruct (strptime start_date "%Y-%m-%d").
Qed.

Lemma february_first (year : Z) :
  days_from_civil year 2 1 = days_from_civil year 1 1 + 31.
Proof.
  unfold days_from_civil. simpl.
  change ((153 * (2 + 9) + 2) / 5) with 337.
  change ((153 * (1 + 9) + 2) / 5) with 306. lia.
Qed.

Lemma first_trade_day_loop_spec (fuel : nat) (current end_date : Z) :
  exists found,
    first_trade_day_loop fuel current end_date = Returned found /\
    match found with
    | Some d =>
        exists k, 0 <= k < Z.of_nat fuel /\ d = add_days current k /\
                  d < end_date /\ trading d /\
                  forall j, 0 <= j < k -> ~ trading (add_days current j)
    | None =>
        forall j, 0 <= j < Z.of_nat fuel -> add_days current j < end_date ->
                  ~ trading (add_days current j)
    end.
Proof.
  revert current. induction fuel as [|n IH]; intros current.
  - exists None. split; [reflexivity|]. intros j Hj. simpl in Hj. lia.
  - cbn [first_trade_day_loop].
    assert (H0 : add_days current 0 = current) by (unfold add_days; lia).
    assert (Hstep : forall k, add_days (add_days current 1) k
                              = add_days current (k + 1))
      by (intros k; unfold add_days; lia).
    destruct (Z.ltb_spec current end_date) as [Hlt|Hge].
    + destruct (is_trade_day_returns
                  (Some (strftime current "%Y-%m-%d"))) as [b Hb].
      rewrite Hb. cbn [mbind outcome_bind]. destruct b.
      * exists (Some current). split; [reflexivity|]. exists 0.
        split; [lia|]. split; [now rewrite H0|]. split; [exact Hlt|].
        split; [exact Hb|]. intros j Hj. lia.
      * destruct (IH (add_days current 1)) as (found & Hrun & Hfound).
        exists found. split; [exact Hrun|]. destruct found as [d|].
        -- destruct Hfound as (k & Hk & -> & Hd & Ht & Hbefore).
           exists (k + 1). rewrite Hstep in *. split; [lia|].
           split; [reflexivity|]. split; [exact Hd|]. split; [exact Ht|].
           intros j Hj. destruct (Z.eq_dec j 0) as [->|Hne].
           ++ rewrite H0. unfold trading. rewrite Hb. discriminate.
           ++ replace j with (j - 1 + 1) by lia. rewrite <- Hstep.
              apply Hbefore. lia.
        -- intros j Hj Hjlt. destruct (Z.eq_dec j 0) as [->|Hne].
           ++ rewrite H0. unfold trading. rewrite Hb. discriminate.
           ++ replace j with (j - 1 + 1) in * by lia. rewrite <- Hstep in *.
              apply Hfound; [lia|exact Hjlt].
    + exists None. split; [reflexivity|]. intros j Hj Hjlt.
      unfold add_days, ms_per_day in Hjlt. lia.
Qed.

(** [_get_year_first_trade_day] of a year in 1..9999 returns the first day of
    January that [is_trade_day] accepts, and January 1 when it accepts none of
    the 31; for a year outside 1..9999 it raises a [ValueError]. *)
Theorem year_first_trade_day_is_first (year : Z) :
  let jan1 := days_from_civil year 1 1 * ms_per_day in
  (1 <= year <= 9999 ->
   exists d,
     _get_year_first_trade_day year = Returned d /\
     ((exists k, 0 <= k < 31 /\ d = add_days jan1 k /\ trading d /\
                 forall j, 0 <= j < k -> ~ trading (add_days jan1 j))
      \/ (d = jan1 /\ forall j, 0 <= j < 31 -> ~ trading (add_days jan1 j))))
  /\ (year < 1 \/ 9999 < year ->
      raises_value_error (_get_year_first_trade_day year)).
Proof.
  intros jan1. split.
  - intros Hy. unfold _get_year_first_trade_day, datetime.
    assert (Hr : (1 <=? year) && (year <=? 9999) = true)
      by (apply andb_true_iff; split; apply Z.leb_le; lia).
    rewrite Hr. cbn [mbind outcome_bind]. fold jan1.
    rewrite february_first.
    replace ((days_from_civil year 1 1 + 31) * ms_per_day)
      with (add_days jan1 31) by (unfold add_days, jan1; lia).
    replace (Z.to_nat ((add_days jan1 31 - jan1) / ms_per_day + 1))
      with 32%nat.
    2:{ unfold add_days. replace (jan1 + 31 * ms_per_day - jan1)
          with (31 * ms_per_day) by lia.
        rewrite Z.div_mul by (unfold ms_per_day; lia). reflexivity. }
    destruct (first_trade_day_loop_spec 32 jan1 (add_days jan1 31))
      as (found & Hrun & Hfound).
    rewrite Hrun. cbn [mbind outcome_bind]. destruct found as [d|].
    + exists d. split; [reflexivity|]. left.
      destruct Hfound as (k & Hk & -> & Hd & Ht & Hbefore).
      exists k. split; [|split; [reflexivity|split; [exact Ht|exact Hbefore]]].
      unfold add_days, ms_per_day in Hd. lia.
    + exists jan1. split; [reflexivity|]. right.
      split; [reflexivity|]. intros j Hj. apply Hfound; [lia|].
      unfold add_days, ms_per_day. lia.
  - intros Hy. unfold _get_year_first_trade_day, datetime, raises_value_error.
    assert (Hr : (1 <=? year) && (year <=? 9999) = false).
    { apply andb_false_iff. destruct Hy; [left|right]; apply Z.leb_gt; lia. }
    rewrite Hr. now eexists.
Qed.

End Counts.

(** * Pools of stock codes *)

Lemma existsb_false_iff {A} (p : A -> bool) (l : list A) :
  existsb p l = false <-> forall x, In x l -> p x = false.
Proof.
  induction l as [|a l IH]; simpl; [split; [intros _ x []|reflexivity]|].
  rewrite orb_false_iff, IH. split.
  - intros [Ha Hl] x [<-|Hx]; auto.
  - intros H. split; [apply H; now left|]. intros x Hx. apply H. now right.
Qed.

(** [determine_pool_type] sorts every list of codes into exactly one of
    three classes: stocks only (2 decimals) when no code is an ETF, the empty
    list included; ETFs only (3 decimals) when the list is not empty and every
    code is an ETF; mixed (3 decimals) when it holds both an ETF and a
    stock. *)
Theorem determine_pool_type_classes (stock_list : list string) :
  (determine_pool_type stock_list = ("stock_only", 2) <->
   forall code, In code stock_list -> is_etf code = false)
  /\ (determine_pool_type stock_list = ("etf_only", 3) <->
      stock_list <> [] /\ forall code, In code stock_list -> is_etf code = true)
  /\ (determine_pool_type stock_list = ("mixed", 3) <->
      (exists code, In code stock_list /\ is_etf code = true) /\
      (exists code, In code stock_list /\ is_etf code = false)).
Proof.
  destruct stock_list as [|c0 l0].
  - simpl. split_and!.
    + split; [intros _ code []|reflexivity].
    + split; [discriminate|intros [H _]; congruence].
    + split; [discriminate|intros [(code & [] & _) _]].
  - set (l := c0 :: l0). unfold determine_pool_type. fold l.
    destruct (existsb (fun code => negb (is_etf code)) l) eqn:Hs;
      destruct (existsb is_etf l) eqn:He; cbn [andb negb].
    + apply existsb_exists in Hs as (s & Hs & Hsv).
      apply negb_true_iff in Hsv.
      apply existsb_exists in He as (e & He & Hev).
      split_and!; split; try discriminate.
      * intros H. rewrite (H e He) in Hev. discriminate.
      * intros [_ H]. rewrite (H s Hs) in Hsv. discriminate.
      * intros _. split; [now exists e|now exists s].
      * reflexivity.
    + apply existsb_exists in Hs as (s & Hs & Hsv).
      apply negb_true_iff in Hsv.
      pose proof (proj1 (existsb_false_iff _ _) He) as Hno.
      split_and!; split; try discriminate.
      * intros _. exact Hno.
      * reflexivity.
      * intros [_ H]. rewrite (H s Hs) in Hsv. discriminate.
      * intros [(e & He' & Hev) _]. rewrite (Hno e He') in Hev. discriminate.
    + apply existsb_exists in He as (e & He & Hev).
      assert (Hall : forall code, In code l -> is_etf code = true).
      { intros code Hc.
        pose proof (proj1 (existsb_false_iff _ _) Hs code Hc) as H.
        now apply negb_false_iff in H. }
      split_and!; split; try discriminate.
      * intros H. rewrite (H e He) in Hev. discriminate.
      * intros _. split; [discriminate|exact Hall].
      * reflexivity.
      * intros [_ (s & Hs' & Hsv)]. rewrite (Hall s Hs') in Hsv. discriminate.
    + exfalso.
      pose proof (proj1 (existsb_false_iff _ _) Hs c0 (or_introl eq_refl)) as H1.
      pose proof (proj1 (existsb_false_iff _ _) He c0 (or_introl eq_refl)) as H2.
      apply negb_false_iff in H1. congruence.
Qed.

Lemma filter_split_length {A} (p : A -> bool) (l : list A) :
  (length (List.filter p l) + length (List.filter (fun x => negb (p x)) l)
   = length l)%nat.
Proof.
  induction l as [|a l IH]; simpl; [reflexivity|].
  destruct (p a); simpl; lia.
Qed.

Lemma filter_nil_iff {A} (p : A -> bool) (l : list A) :
  List.filter p l = [] <-> forall x, In x l -> p x = false.
Proof.
  induction l as [|a l IH]; simpl; [split; [intros _ x []|reflexivity]|].
  destruct (p a) eqn:E.
  - split; [discriminate|]. intros H. rewrite (H a) in E by now left.
    discriminate.
  - rewrite IH. split.
    + intros H x [<-|Hx]; auto.
    + intros H x Hx. apply H. now right.
Qed.

(** [get_t0_details] splits the pool into the codes of the T+0 set and the
    others, whose counts add up to the total, and [check_t0_support] agrees
    with it: the pool is in T+0 mode exactly when it is not empty and no code
    is left outside the set, and it has no T+0 support exactly when no code is
    in the set. *)
Theorem t0_support_agrees_with_details (t0_list : gset string)
  (stock_list : list string) :
  let d := get_t0_details t0_list stock_list in
  t0_count d + Z.of_nat (length (non_t0_stocks d)) = total_count d
  /\ (forall code, In code (t0_stocks d) <->
                   In code stock_list /\ code ∈ t0_list)
  /\ (forall code, In code (non_t0_stocks d) <->
                   In code stock_list /\ code ∉ t0_list)
  /\ (check_t0_support t0_list stock_list = ("all_t0", true) <->
      stock_list <> [] /\ non_t0_stocks d = [])
  /\ (check_t0_support t0_list stock_list = ("no_t0", false) <->
      t0_stocks d = [])
  /\ (snd (check_t0_support t0_list stock_list) = true <->
      stock_list <> [] /\ forall code, In code stock_list -> code ∈ t0_list).
Proof.
  intros d. unfold d, get_t0_details. cbn [t0_count non_t0_stocks total_count
                                            t0_stocks].
  pose proof (filter_split_length (in_t0 t0_list) stock_list) as Hlen.
  assert (Hyes_in : forall code,
            In code (List.filter (in_t0 t0_list) stock_list) <->
            In code stock_list /\ code ∈ t0_list).
  { intros code. rewrite filter_In. unfold in_t0.
    now rewrite bool_decide_eq_true. }
  assert (Hno_in : forall code,
            In code (List.filter (fun code => negb (in_t0 t0_list code))
                       stock_list) <->
            In code stock_list /\ code ∉ t0_list).
  { intros code. rewrite filter_In. unfold in_t0.
    now rewrite negb_true_iff, bool_decide_eq_false. }
  assert (Hno_nil :
            List.filter (fun code => negb (in_t0 t0_list code)) stock_list = []
            <-> forall code, In code stock_list -> code ∈ t0_list).
  { rewrite filter_nil_iff. split; intros H code Hc.
    - specialize (H code Hc). apply negb_false_iff in H.
      now apply bool_decide_eq_true in H.
    - apply negb_false_iff, bool_decide_eq_true. now apply H. }
  remember (List.filter (in_t0 t0_list) stock_list) as yes eqn:Eyes in *.
  remember (List.filter (fun code => negb (in_t0 t0_list code)) stock_list)
    as no eqn:Eno in *.
  assert (Hsupport :
    check_t0_support t0_list stock_list
    = match stock_list with
      | [] => ("no_t0", false)
      | _ => match no, yes with
             | [], _ => ("all_t0", true)
             | _, [] => ("no_t0", false)
             | _, _ => ("mixed", false)
             end
      end).
  { unfold check_t0_support. rewrite <- Eyes. clear Eyes Eno Hyes_in Hno_in Hno_nil.
    destruct stock_list as [|c0 l0]; [reflexivity|].
    destruct (Z.eqb_spec (Z.of_nat (length yes)) (Z.of_nat (length (c0 :: l0))))
      as [E|E].
    - destruct no; [reflexivity|cbn [length] in *; lia].
    - destruct no as [|n0 no']; [cbn [length] in *; lia|].
      destruct yes; reflexivity. }
  split_and!.
  - lia.
  - exact Hyes_in.
  - exact Hno_in.
  - rewrite Hsupport. destruct stock_list as [|c0 l0].
    + split; [discriminate|intros [H _]; congruence].
    + destruct no; [split; [now split|reflexivity]|].
      destruct yes; (split; [discriminate|intros [_ H]; discriminate]).
  - rewrite Hsupport. destruct stock_list as [|c0 l0]; [now split|].
    destruct no as [|n0 no'].
    + split; [discriminate|]. intros Hy. exfalso.
      rewrite Hy in Hlen. simpl in Hlen. lia.
    + destruct yes; split; try reflexivity; discriminate.
  - rewrite Hsupport, <- Hno_nil. destruct stock_list as [|c0 l0].
    + split; [discriminate|intros [H _]; congruence].
    + destruct no; [split; [now split|reflexivity]|].
      destruct yes; (split; [discriminate|intros [_ H]; discriminate]).
Qed.

(** * The tables of [khHistory] *)

Lemma sorted_filter {A} (R : A -> A -> Prop) (p : A -> bool) (l : list A) :
  StronglySorted R l -> StronglySorted R (List.filter p l).
Proof.
  induction 1 as [|a l Hs IH Hall]; simpl; [constructor|].
  destruct (p a); [|exact IH]. constructor; [exact IH|].
  rewrite List.Forall_forall in *. intros x Hx. apply Hall.
  now apply filter_In in Hx.
Qed.

Lemma sorted_skipn_suffix {A} (R : A -> A -> Prop) (n : nat) (l : list A) :
  StronglySorted R l -> StronglySorted R (skipn n l).
Proof.
  revert l. induction n as [|n IH]; intros l Hs; [exact Hs|].
  destruct l as [|a l]; [constructor|]. simpl. apply IH.
  now inversion Hs.
Qed.

Lemma sorted_map_time (f : gmap string Z -> gmap string Z)
  (l : list (gmap string Z)) :
  (forall r, f r !! "time" = r !! "time") ->
  StronglySorted (fun a b => time_le a b = true) l ->
  StronglySorted (fun a b => time_le a b = true) (map f l).
Proof.
  intros Hf. induction 1 as [|a l Hs IH Hall]; simpl; constructor; [exact IH|].
  rewrite List.Forall_forall in *. intros y Hy.
  apply in_map_iff in Hy as (x & <- & Hx). specialize (Hall x Hx).
  unfold time_le in *. now rewrite !Hf.
Qed.

Lemma history_candidates_in (period : string) (cur : Z) (skip_paused : bool)
  (sd : DataFrame) (r : gmap string Z) :
  In r (history_candidates period cur skip_paused sd) <->
  In r (map local_row (rows sd)) /\ history_mask period cur r = true /\
  (skip_paused && has "volume" (columns sd) = true ->
   volume_positive r = true).
Proof.
  unfold history_candidates. destruct (skip_paused && _).
  - rewrite filter_In, sort_rows_in, filter_In. tauto.
  - rewrite sort_rows_in, filter_In. split; [|tauto].
    intros [H1 H2]. split_and!; [exact H1|exact H2|discriminate].
Qed.

Lemma history_candidates_sorted (period : string) (cur : Z)
  (skip_paused : bool) (sd : DataFrame) :
  StronglySorted (fun a b => time_le a b = true)
    (history_candidates period cur skip_paused sd).
Proof.
  unfold history_candidates. destruct (skip_paused && _).
  - apply sorted_filter, sort_rows_sorted.
  - apply sort_rows_sorted.
Qed.

Lemma history_frame_inv (period : string) (cur : Z) (skip_paused : bool)
  (bar_count : Z) (fields : list string) (sd out : DataFrame) :
  history_frame period cur skip_paused bar_count fields sd = Returned out ->
  has "time" (columns sd) = true /\
  exists dropped kept,
    out = mkDF (history_columns fields sd)
            (map (project_row (history_columns fields sd)) kept) /\
    (dropped ++ kept)%list = history_candidates period cur skip_paused sd /\
    (0 < bar_count -> Z.of_nat (length kept) <= bar_count) /\
    (0 < bar_count -> dropped <> [] -> Z.of_nat (length kept) = bar_count).
Proof.
  unfold history_frame. intros Hrun.
  apply bind_inv in Hrun as (sd1 & H1 & Hrun). cbv zeta in Hrun.
  apply bind_inv in Hrun as (sd4 & Hrun & Hcheck).
  apply history_check_inv in Hcheck as [-> _].
  destruct (has "time" (columns sd)) eqn:Htime.
  - split; [reflexivity|].
    apply bind_inv in H1 as (sd0 & Hloc & Hsort).
    apply to_local_time_inv in Hloc as [_ ->].
    apply sort_values_time_inv in Hsort as [_ ->]. cbn [select columns rows] in *.
    set (sd2 := if skip_paused && has "volume" (columns sd)
                then select volume_positive _ else _) in *.
    assert (Hc2 : columns sd2 = columns sd)
      by (unfold sd2; now destruct (skip_paused && _)).
    assert (Hr2 : rows sd2 = history_candidates period cur skip_paused sd).
    { unfold sd2, history_candidates. now destruct (skip_paused && _). }
    set (sd3 := if negb (df_empty sd2) && (bar_count <? len sd2)
                then tail bar_count sd2 else sd2) in *.
    assert (Hc3 : columns sd3 = columns sd)
      by (unfold sd3; now destruct (negb _ && _)).
    rewrite Hc3 in Hrun. unfold project in Hrun.
    destruct (forallb _ _); [|discriminate]. injection Hrun as <-.
    rewrite <- Hr2. unfold sd3, len.
    destruct (negb (df_empty sd2)) eqn:Hne; cbn [andb].
    + destruct (Z.ltb_spec bar_count (Z.of_nat (length (rows sd2)))).
      * exists (firstn (length (rows sd2) - Z.to_nat bar_count) (rows sd2)),
          (skipn (length (rows sd2) - Z.to_nat bar_count) (rows sd2)).
        split_and!; [reflexivity|apply firstn_skipn| |];
          rewrite length_skipn; lia.
      * exists [], (rows sd2). split_and!; [reflexivity|reflexivity|lia|].
        now intros _ [].
    + exists [], (rows sd2). split_and!; [reflexivity|reflexivity| |].
      * apply negb_false_iff in Hne. unfold df_empty in Hne.
        rewrite Hc2 in Hne.
        destruct (columns sd) as [|c cs]; [discriminate|].
        destruct (rows sd2); [simpl; lia|discriminate].
      * now intros _ [].
  - injection H1 as <-. exfalso.
    unfold project in Hrun. cbn [forallb] in Hrun.
    match type of Hrun with
    | (if has "time" (columns ?df) && _ then _ else _) = _ =>
        assert (Hcols : columns df = columns sd)
          by (destruct (negb _ && _); destruct (skip_paused && _); reflexivity)
    end.
    rewrite Hcols, Htime in Hrun. discriminate.
Qed.

Lemma project_row_lookup (cols : list string) (r : gmap string Z)
  (c : string) :
  project_row cols r !! c = if has c cols then r !! c else None.
Proof.
  unfold project_row. destruct (has c cols) eqn:E.
  - apply option_eq. intros v. rewrite map_lookup_filter_Some. simpl.
    split; [now intros [? _]|now intros ?].
  - apply map_lookup_filter_None. right. intros v _. simpl. congruence.
Qed.

Lemma local_row_time (r : gmap string Z) :
  local_row r !! "time" = (fun t => t + 8 * ms_per_hour) <$> r !! "time".
Proof. unfold local_row. apply lookup_alter_eq. Qed.

Lemma local_row_other (r : gmap string Z) (c : string) :
  c <> "time" -> local_row r !! c = r !! c.
Proof. intros Hc. unfold local_row. now apply lookup_alter_ne. Qed.

Section HistoryTables.

Context {collaborators : Collaborators}.

Lemma khHistory_valid_call (src : source) (symbol_list : symbols)
  (fields : list string) (bar_count : Z) (fre_step : string)
  (current_time : option string) (skip_paused : bool) (fq : string)
  (force_download : bool) (reference : Z) :
  no_symbols symbol_list = false ->
  fields <> [] ->
  0 < bar_count ->
  parse_history_time current_time = Returned reference ->
  khHistory src symbol_list fields bar_count fre_step current_time
    skip_paused fq force_download =
  Returned
    (match history_body src (stock_codes_of symbol_list) fields bar_count
             fre_step reference skip_paused (dividend_type_of fq)
             force_download with
     | Returned result => result
     | Raised _ => []
     end).
Proof.
  intros Hsym Hfields Hcount Hparse. unfold khHistory.
  rewrite Hsym, (bool_decide_eq_false_2 _ Hfields).
  now rewrite (proj2 (Z.leb_gt _ _) Hcount), Hparse.
Qed.

Lemma history_body_entries (src : source) (stock_codes fields : list string)
  (bar_count : Z) (period : string) (cur : Z) (skip_paused : bool)
  (dividend_type : string) (force_download : bool)
  (result : list (string * DataFrame)) :
  history_body src stock_codes fields bar_count period cur skip_paused
    dividend_type force_download = Returned result ->
  forall code df,
    In (code, df) result ->
    df = empty_frame \/
    exists data sd,
      history_data src stock_codes fields bar_count period cur dividend_type
        force_download = Returned data /\
      data !! code = Some (Some sd) /\
      history_frame period cur skip_paused bar_count fields sd = Returned df.
Proof.
  rewrite history_body_read. intros Hrun.
  apply bind_inv in Hrun as (data & Hdata & Hrun).
  destruct (no_data data).
  - injection Hrun as <-. intros code df [].
  - eapply (for_each_invariant
              (fun s : list (string * DataFrame) =>
                 forall code df, In (code, df) s ->
                   df = empty_frame \/
                   exists data sd,
                     history_data src stock_codes fields bar_count period cur
                       dividend_type force_download = Returned data /\
                     data !! code = Some (Some sd) /\
                     history_frame period cur skip_paused bar_count fields sd
                     = Returned df));
      [| |exact Hrun].
    + intros s0 stock_code s1 Hs0 _ Hstep code df Hin.
      unfold history_step in Hstep.
      destruct (table_of data stock_code) as [sd|] eqn:Htab.
      * apply bind_inv in Hstep as (out & Hframe & [= <-]).
        apply dict_set_in in Hin as [[-> ->]|Hin]; [|exact (Hs0 code df Hin)].
        right. exists data, sd. split_and!; [exact Hdata| |exact Hframe].
        unfold table_of in Htab.
        destruct (data !! stock_code) as [[d|]|]; try discriminate.
        destruct (df_empty d); [discriminate|]. now injection Htab as ->.
      * injection Hstep as <-.
        apply dict_set_in in Hin as [[_ ->]|Hin]; [now left|].
        exact (Hs0 code df Hin).
    + intros code df [].
Qed.

Lemma khHistory_entries (src : source) (symbol_list : symbols)
  (fields : list string) (bar_count : Z) (fre_step : string)
  (current_time : option string) (skip_paused : bool) (fq : string)
  (force_download : bool) (reference : Z) :
  no_symbols symbol_list = false ->
  fields <> [] ->
  0 < bar_count ->
  parse_history_time current_time = Returned reference ->
  exists result,
    khHistory src symbol_list fields bar_count fre_step current_time
      skip_paused fq force_download = Returned result /\
    forall code df,
      In (code, df) result ->
      df = empty_frame \/
      exists data sd,
        history_data src (stock_codes_of symbol_list) fields bar_count
          fre_step reference (dividend_type_of fq) force_download
        = Returned data /\
        data !! code = Some (Some sd) /\
        history_frame fre_step reference skip_paused bar_count fields sd
        = Returned df.
Proof.
  intros Hsym Hfields Hcount Hparse.
  rewrite (khHistory_valid_call _ _ _ _ _ _ _ _ _ _ Hsym Hfields Hcount Hparse).
  eexists. split; [reflexivity|].
  destruct (history_body _ _ _ _ _ _ _ _ _) as [result|e] eqn:Hbody.
  - exact (history_body_entries _ _ _ _ _ _ _ _ _ _ Hbody).
  - intros code df [].
Qed.

End HistoryTables.

Lemma history_frame_kept (period : string) (cur : Z) (skip_paused : bool)
  (bar_count : Z) (fields : list string) (sd out : DataFrame) :
  0 < bar_count ->
  history_frame period cur skip_paused bar_count fields sd = Returned out ->
  exists dropped kept,
    (dropped ++ kept)%list = history_candidates period cur skip_paused sd /\
    columns out = history_columns fields sd /\
    rows out = map (project_row (history_columns fields sd)) kept /\
    len out <= bar_count /\
    (dropped <> [] -> len out = bar_count) /\
    StronglySorted (fun a b => time_le a b = true) kept /\
    (forall a b, In a dropped -> In b kept -> time_le a b = true).
Proof.
  intros Hcount Hrun.
  apply history_frame_inv in Hrun
    as (_ & dropped & kept & -> & Happ & Hlen & Hfull).
  pose proof (history_candidates_sorted period cur skip_paused sd) as Hsorted.
  rewrite <- Happ in Hsorted.
  exists dropped, kept. unfold len. cbn [rows columns]. rewrite length_map.
  split_and!; try reflexivity; auto.
  - exact (StronglySorted_app_1_r _ _ _ Hsorted).
  - intros a b Ha Hb.
    apply (StronglySorted_app_1_elem_of _ _ _ _ _ Hsorted);
      now apply list_elem_of_In.
Qed.

Section HistoryProperties.

Context {collaborators : Collaborators}.

(** The tables of a valid call to [khHistory] never hold more than
    [bar_count] bars, and their bars are in ascending order of time. *)
Theorem khHistory_tables_bounded_ascending (src : source)
  (symbol_list : symbols) (fields : list string) (bar_count : Z)
  (fre_step : string) (current_time : option string) (skip_paused : bool)
  (fq : string) (force_download : bool) (reference : Z) :
  no_symbols symbol_list = false ->
  fields <> [] ->
  0 < bar_count ->
  parse_history_time current_time = Returned reference ->
  exists result,
    khHistory src symbol_list fields bar_count fre_step current_time
      skip_paused fq force_download = Returned result /\
    forall code df,
      In (code, df) result ->
      len df <= bar_count /\
      StronglySorted (fun a b => time_le a b = true) (rows df).
Proof.
  intros Hsym Hfields Hcount Hparse.
  destruct (khHistory_entries src symbol_list fields bar_count fre_step
              current_time skip_paused fq force_download reference
              Hsym Hfields Hcount Hparse) as (result & Hrun & Hentries).
  exists result. split; [exact Hrun|]. intros code df Hin.
  destruct (Hentries code df Hin) as [->|(data & sd & _ & _ & Hframe)].
  - split; [unfold len; simpl; lia|constructor].
  - destruct (history_frame_kept _ _ _ _ _ _ _ Hcount Hframe)
      as (dropped & kept & _ & _ & Hrows & Hlen & _ & Hsorted & _).
    split; [exact Hlen|]. rewrite Hrows.
    apply sorted_map_time; [|exact Hsorted].
    intros r. now rewrite project_row_lookup.
Qed.

(** With [skip_paused] set, no table of [khHistory] shows a bar whose volume
    is zero or negative. *)
Theorem khHistory_skip_paused_volume (src : source) (symbol_list : symbols)
  (fields : list string) (bar_count : Z) (fre_step : string)
  (current_time : option string) (fq : string) (force_download : bool)
  (reference : Z) :
  no_symbols symbol_list = false ->
  fields <> [] ->
  0 < bar_count ->
  parse_history_time current_time = Returned reference ->
  exists result,
    khHistory src symbol_list fields bar_count fre_step current_time true fq
      force_download = Returned result /\
    forall code df r v,
      In (code, df) result -> In r (rows df) ->
      r !! "volume" = Some v -> 0 < v.
Proof.
  intros Hsym Hfields Hcount Hparse.
  destruct (khHistory_entries src symbol_list fields bar_count fre_step
              current_time true fq force_download reference
              Hsym Hfields Hcount Hparse) as (result & Hrun & Hentries).
  exists result. split; [exact Hrun|]. intros code df r v Hin Hr Hv.
  destruct (Hentries code df Hin) as [->|(data & sd & _ & _ & Hframe)];
    [destruct Hr|].
  destruct (history_frame_kept _ _ _ _ _ _ _ Hcount Hframe)
    as (dropped & kept & Happ & _ & Hrows & _).
  rewrite Hrows in Hr. apply in_map_iff in Hr as (r0 & <- & Hr0).
  rewrite project_row_lookup in Hv.
  destruct (has "volume" (history_columns fields sd)) eqn:Hcol;
    [|discriminate].
  assert (Hcand : In r0 (history_candidates fre_step reference true sd))
    by (rewrite <- Happ; apply in_or_app; now right).
  apply history_candidates_in in Hcand as (_ & _ & Hpos).
  apply has_In in Hcol. destruct Hcol as [Hcol|Hcol]; [discriminate|].
  apply filter_In in Hcol as [_ Hcol]. cbn [andb] in Hpos.
  specialize (Hpos Hcol). unfold volume_positive in Hpos.
  rewrite Hv in Hpos. now apply Z.ltb_lt.
Qed.

(** Every non-empty table of [khHistory] is made of bars of the table the
    data source returned for that symbol: its columns are [time] and the
    requested fields the source table has, and each bar is a source bar with
    its time moved forward by eight hours and the requested cells as they
    were. *)
Theorem khHistory_bars_are_source_bars (src : source) (symbol_list : symbols)
  (fields : list string) (bar_count : Z) (fre_step : string)
  (current_time : option string) (skip_paused : bool) (fq : string)
  (force_download : bool) (reference : Z) :
  no_symbols symbol_list = false ->
  fields <> [] ->
  0 < bar_count ->
  parse_history_time current_time = Returned reference ->
  exists result,
    khHistory src symbol_list fields bar_count fre_step current_time
      skip_paused fq force_download = Returned result /\
    forall code df,
      In (code, df) result ->
      df = empty_frame \/
      exists data sd,
        history_data src (stock_codes_of symbol_list) fields bar_count
          fre_step reference (dividend_type_of fq) force_download
        = Returned data /\
        data !! code = Some (Some sd) /\
        columns df = history_columns fields sd /\
        forall r,
          In r (rows df) ->
          exists r0,
            In r0 (rows sd) /\
            r !! "time" = (fun t => t + 8 * ms_per_hour) <$> r0 !! "time" /\
            forall col,
              In col fields -> In col (columns sd) -> col <> "time" ->
              r !! col = r0 !! col.
Proof.
  intros Hsym Hfields Hcount Hparse.
  destruct (khHistory_entries src symbol_list fields bar_count fre_step
              current_time skip_paused fq force_download reference
              Hsym Hfields Hcount Hparse) as (result & Hrun & Hentries).
  exists result. split; [exact Hrun|]. intros code df Hin.
  destruct (Hentries code df Hin) as [->|(data & sd & Hdata & Hsd & Hframe)];
    [now left|right].
  exists data, sd. split_and!; [exact Hdata|exact Hsd| |].
  - destruct (history_frame_kept _ _ _ _ _ _ _ Hcount Hframe)
      as (dropped & kept & _ & Hcols & _). exact Hcols.
  - destruct (history_frame_kept _ _ _ _ _ _ _ Hcount Hframe)
      as (dropped & kept & Happ & _ & Hrows & _).
    intros r Hr. rewrite Hrows in Hr.
    apply in_map_iff in Hr as (r1 & <- & Hr1).
    assert (Hcand : In r1 (history_candidates fre_step reference skip_paused sd))
      by (rewrite <- Happ; apply in_or_app; now right).
    apply history_candidates_in in Hcand as (Hloc & _ & _).
    apply in_map_iff in Hloc as (r0 & <- & Hr0).
    exists r0. split_and!; [exact Hr0| |].
    + rewrite project_row_lookup.
      assert (Hhas : has "time" (history_columns fields sd) = true)
        by (apply has_In; now left).
      rewrite Hhas. apply local_row_time.
    + intros col Hcol Hsrc Hne. rewrite project_row_lookup.
      assert (Hhas : has col (history_columns fields sd) = true).
      { apply has_In. right. apply filter_In. split; [exact Hcol|].
        now apply has_In. }
      rewrite Hhas. now apply local_row_other.
Qed.

Lemma history_body_tables (src : source) (stock_codes fields : list string)
  (bar_count : Z) (period : string) (cur : Z) (skip_paused : bool)
  (dividend_type : string) (force_download : bool)
  (result : list (string * DataFrame)) (code : string) (df : DataFrame) :
  history_body src stock_codes fields bar_count period cur skip_paused
    dividend_type force_download = Returned result ->
  In (code, df) result ->
  exists data,
    history_data src stock_codes fields bar_count period cur dividend_type
      force_download = Returned data /\
    match table_of data code with
    | None => df = empty_frame
    | Some sd =>
        history_frame period cur skip_paused bar_count fields sd = Returned df
    end.
Proof.
  rewrite history_body_read. intros Hrun Hin.
  apply bind_inv in Hrun as (data & Hdata & Hrun).
  exists data. split; [exact Hdata|].
  destruct (no_data data); [injection Hrun as <-; destruct Hin|].
  revert code df Hin.
  eapply (for_each_invariant
            (fun s : list (string * DataFrame) =>
               forall code df, In (code, df) s ->
                 match table_of data code with
                 | None => df = empty_frame
                 | Some sd =>
                     history_frame period cur skip_paused bar_count fields sd
                     = Returned df
                 end));
    [| |exact Hrun].
  - intros s0 stock_code s1 Hs0 _ Hstep code df Hin.
    unfold history_step in Hstep.
    destruct (table_of data stock_code) as [sd|] eqn:Htab.
    + apply bind_inv in Hstep as (out & Hframe & [= <-]).
      apply dict_set_in in Hin as [[-> ->]|Hin]; [|exact (Hs0 code df Hin)].
      now rewrite Htab.
    + injection Hstep as <-.
      apply dict_set_in in Hin as [[-> ->]|Hin]; [|exact (Hs0 code df Hin)].
      now rewrite Htab.
  - intros code df [].
Qed.

Lemma insert_row_permutation (r : gmap string Z) (l : list (gmap string Z)) :
  Permutation (insert_row r l) (r :: l).
Proof.
  induction l as [|h t IH]; simpl; [reflexivity|].
  destruct (time_le r h); [reflexivity|].
  rewrite IH. apply perm_swap.
Qed.

(** Sorting rearranges the rows and nothing else. *)
Lemma sort_rows_permutation (l : list (gmap string Z)) :
  Permutation (sort_rows l) l.
Proof.
  induction l as [|r l IH]; simpl; [reflexivity|].
  rewrite insert_row_permutation. now constructor.
Qed.

Lemma filter_permutation {A} (p : A -> bool) (l l' : list A) :
  Permutation l l' -> Permutation (List.filter p l) (List.filter p l').
Proof.
  induction 1 as [|x l l' _ IH|x y l|l l' l'' _ IH1 _ IH2]; simpl.
  - reflexivity.
  - destruct (p x); [now constructor|exact IH].
  - destruct (p x), (p y); try reflexivity. apply perm_swap.
  - now rewrite IH1.
Qed.

Lemma history_candidates_qualifying (period : string) (cur : Z)
  (skip_paused : bool) (sd : DataFrame) :
  Permutation (history_candidates period cur skip_paused sd)
    (history_qualifying period cur skip_paused sd).
Proof.
  unfold history_candidates, history_qualifying. cbv zeta.
  destruct (skip_paused && _).
  - apply filter_permutation, sort_rows_permutation.
  - apply sort_rows_permutation.
Qed.

(** When a symbol has more qualifying bars than [bar_count], [khHistory]
    keeps the latest ones, however the sort orders bars with equal stamps:
    a symbol without a table in the response of the data source gets the
    empty table; for any other symbol the qualifying bars of its source
    table are, up to their order, the bars left out followed by the bars of
    the returned table; nothing is left out unless the table is full, and no
    bar left out is later than a bar kept. *)
Theorem khHistory_keeps_latest_bars (src : source) (symbol_list : symbols)
  (fields : list string) (bar_count : Z) (fre_step : string)
  (current_time : option string) (skip_paused : bool) (fq : string)
  (force_download : bool) (reference : Z) :
  no_symbols symbol_list = false ->
  fields <> [] ->
  0 < bar_count ->
  parse_history_time current_time = Returned reference ->
  exists result,
    khHistory src symbol_list fields bar_count fre_step current_time
      skip_paused fq force_download = Returned result /\
    forall code df,
      In (code, df) result ->
      exists data,
        history_data src (stock_codes_of symbol_list) fields bar_count
          fre_step reference (dividend_type_of fq) force_download
        = Returned data /\
        match table_of data code with
        | None => df = empty_frame
        | Some sd =>
            exists dropped kept,
              Permutation (dropped ++ kept)
                (history_qualifying fre_step reference skip_paused sd) /\
              rows df = map (project_row (history_columns fields sd)) kept /\
              (dropped <> [] -> len df = bar_count) /\
              (forall a b, In a dropped -> In b kept -> time_le a b = true)
        end.
Proof.
  intros Hsym Hfields Hcount Hparse.
  rewrite (khHistory_valid_call _ _ _ _ _ _ _ _ _ _ Hsym Hfields Hcount Hparse).
  eexists. split; [reflexivity|]. intros code df Hin.
  destruct (history_body _ _ _ _ _ _ _ _ _) as [result|e] eqn:Hbody;
    [|destruct Hin].
  destruct (history_body_tables _ _ _ _ _ _ _ _ _ _ _ _ Hbody Hin)
    as (data & Hdata & Htable).
  exists data. split; [exact Hdata|].
  destruct (table_of data code) as [sd|]; [|exact Htable].
  destruct (history_frame_kept _ _ _ _ _ _ _ Hcount Htable)
    as (dropped & kept & Happ & _ & Hrows & _ & Hfull & _ & Hlate).
  exists dropped, kept. split_and!; [|exact Hrows|exact Hfull|exact Hlate].
  rewrite Happ. apply history_candidates_qualifying.
Qed.

End HistoryProperties.

(** * The tables of [khKline] *)

Section KlineTables.

Context {collaborators : Collaborators}.

Lemma khKline_valid_call (src : source) (symbol_list : symbols)
  (period : string) (bar_count : Z) (fields : option (list string))
  (end_time : option string) (fq : string) (force_download : bool)
  (digits : string) (period_unit : ascii) (target_datetime : Z) :
  no_symbols symbol_list = false ->
  0 < bar_count ->
  match_period (lower period) = Some (digits, period_unit) ->
  parse_kline_time end_time = Returned target_datetime ->
  khKline src symbol_list period bar_count fields end_time fq force_download
  = Returned
      (match
          (if Ascii.eqb period_unit "m" then
             _get_minute_kline src (stock_codes_of symbol_list) (int digits)
               bar_count (default default_fields fields) target_datetime
               (dividend_type_of fq) force_download
           else if Ascii.eqb period_unit "h" then
             _get_hour_kline src (stock_codes_of symbol_list) (int digits)
               bar_count (default default_fields fields) target_datetime
               (dividend_type_of fq) force_download
           else if Ascii.eqb period_unit "d" then
             _get_day_kline src (stock_codes_of symbol_list) (int digits)
               bar_count (default default_fields fields) target_datetime
               (dividend_type_of fq) force_download
           else Raised (ValueError "unsupported period unit"))
        with
        | Returned result => result
        | Raised _ => []
        end).
Proof.
  intros Hsym Hcount Hmatch Hparse. unfold khKline. rewrite Hsym.
  destruct (String.eqb period "") eqn:Hempty.
  - apply String.eqb_eq in Hempty. subst period. discriminate.
  - rewrite (proj2 (Z.leb_gt _ _) Hcount), Hmatch, Hparse. reflexivity.
Qed.

Lemma look_back_fetch (src : source) (stock_codes fields : list string)
  (period_str : string) (lookback_days target_datetime : Z)
  (dividend_type : string) (force_download : bool)
  (data : gmap string (option DataFrame)) :
  look_back src stock_codes fields period_str lookback_days target_datetime
    dividend_type force_download = Returned data ->
  exists start_day,
    fetch src stock_codes fields period_str start_day
      (date_of target_datetime) dividend_type force_download = Returned data.
Proof.
  unfold look_back. intros H. apply bind_inv in H as (start_dt & _ & H).
  now exists (date_of start_dt).
Qed.

Lemma minute_route_tables (src : source) (stock_codes : list string)
  (period_minutes bar_count : Z) (fields : list string) (target_datetime : Z)
  (dividend_type : string) (force_download : bool)
  (result : list (string * DataFrame)) (code : string) (out : DataFrame) :
  _get_minute_kline src stock_codes period_minutes bar_count fields
    target_datetime dividend_type force_download = Returned result ->
  dict_get code result = Some out ->
  out = empty_frame \/
  exists df0,
    kline_source src stock_codes fields target_datetime dividend_type
      force_download code df0 /\
    kline_table "m" period_minutes bar_count fields target_datetime df0 out.
Proof.
  unfold _get_minute_kline. intros Hrun Hget.
  case_bool_decide as Hnative;
    apply bind_inv in Hrun as (data & Hdata & Hrun);
    apply look_back_fetch in Hdata as (start_day & Hdata);
    (destruct (no_data data); [injection Hrun as <-; discriminate|]);
    (destruct (per_symbol_entries _ _ _ _ _ _ Hrun Hget)
       as [[_ ->]|(df0 & Htab & Hframe)]; [now left|right]);
    exists df0; (split; [do 3 eexists; split; [exact Hdata|exact Htab]|]).
  - now apply native_minute_table.
  - now apply synthesized_minute_table.
Qed.

Lemma hour_route_tables (src : source) (stock_codes : list string)
  (period_hours bar_count : Z) (fields : list string) (target_datetime : Z)
  (dividend_type : string) (force_download : bool)
  (result : list (string * DataFrame)) (code : string) (out : DataFrame) :
  _get_hour_kline src stock_codes period_hours bar_count fields
    target_datetime dividend_type force_download = Returned result ->
  dict_get code result = Some out ->
  out = empty_frame \/
  exists df0,
    kline_source src stock_codes fields target_datetime dividend_type
      force_download code df0 /\
    kline_table "h" period_hours bar_count fields target_datetime df0 out.
Proof.
  unfold _get_hour_kline. intros Hrun Hget.
  apply bind_inv in Hrun as (data & Hdata & Hrun).
  apply look_back_fetch in Hdata as (start_day & Hdata).
  destruct (no_data data); [injection Hrun as <-; discriminate|].
  destruct (per_symbol_entries _ _ _ _ _ _ Hrun Hget)
    as [[_ ->]|(df0 & Htab & Hframe)]; [now left|right].
  exists df0. split; [do 3 eexists; split; [exact Hdata|exact Htab]|].
  now apply synthesized_hour_table.
Qed.

Lemma day_route_tables (src : source) (stock_codes : list string)
  (period_days bar_count : Z) (fields : list string) (target_datetime : Z)
  (dividend_type : string) (force_download : bool)
  (result : list (string * DataFrame)) (code : string) (out : DataFrame) :
  _get_day_kline src stock_codes period_days bar_count fields
    target_datetime dividend_type force_download = Returned result ->
  dict_get code result = Some out ->
  out = empty_frame \/
  exists df0,
    kline_source src stock_codes fields target_datetime dividend_type
      force_download code df0 /\
    kline_table "d" period_days bar_count fields target_datetime df0 out.
Proof.
  unfold _get_day_kline. intros Hrun Hget.
  destruct (Z.eqb_spec period_days 1) as [->|Hne].
  - apply bind_inv in Hrun as (data & Hdata & Hrun).
    apply look_back_fetch in Hdata as (start_day & Hdata).
    destruct (no_data data); [injection Hrun as <-; discriminate|].
    destruct (per_symbol_entries _ _ _ _ _ _ Hrun Hget)
      as [[_ ->]|(df0 & Htab & Hframe)]; [now left|right].
    exists df0. split; [do 3 eexists; split; [exact Hdata|exact Htab]|].
    now apply native_day_table.
  - apply bind_inv in Hrun as (first0 & _ & Hrun).
    apply bind_inv in Hrun as ([target_year year_first_day] & _ & Hrun).
    apply bind_inv in Hrun as (back & _ & Hrun).
    apply bind_inv in Hrun as (data & Hdata & Hrun).
    destruct (no_data data); [injection Hrun as <-; discriminate|].
    apply bind_inv in Hrun as (year_end & _ & Hrun).
    apply bind_inv in Hrun as (trade_days_list & _ & Hrun).
    destruct trade_days_list as [|d0 ds]; [injection Hrun as <-; discriminate|].
    destruct (per_symbol_entries _ _ _ _ _ _ Hrun Hget)
      as [[_ ->]|(df0 & Htab & Hframe)]; [now left|right].
    exists df0. split; [do 3 eexists; split; [exact Hdata|exact Htab]|].
    now apply (multi_day_table _ _ _ _ _ _ _ (d0 :: ds) target_year).
Qed.

Lemma is_unit_cases (u : ascii) :
  is_unit u = true -> u = "m"%char \/ u = "h"%char \/ u = "d"%char.
Proof.
  unfold is_unit. intros H.
  apply orb_true_iff in H as [H|H]; [apply orb_true_iff in H as [H|H]|];
    apply Ascii.eqb_eq in H; auto.
Qed.

Lemma match_period_unit (s d : string) (u : ascii) :
  match_period s = Some (d, u) -> u = "m"%char \/ u = "h"%char \/ u = "d"%char.
Proof.
  unfold match_period. destruct (span_digits s) as [d0 r0].
  destruct d0 as [|c0 d0]; [discriminate|].
  destruct r0 as [|u0 [|n [|]]]; try discriminate.
  - destruct (is_unit u0) eqn:Hu; [|discriminate]. intros [= _ <-].
    now apply is_unit_cases.
  - destruct (is_unit u0) eqn:Hu; [|discriminate].
    destruct (Ascii.eqb n newline); [|discriminate]. intros [= _ <-].
    now apply is_unit_cases.
Qed.

Lemma khKline_entries (src : source) (symbol_list : symbols)
  (period : string) (bar_count : Z) (fields : option (list string))
  (end_time : option string) (fq : string) (force_download : bool)
  (digits : string) (period_unit : ascii) (target_datetime : Z) :
  no_symbols symbol_list = false ->
  0 < bar_count ->
  match_period (lower period) = Some (digits, period_unit) ->
  parse_kline_time end_time = Returned target_datetime ->
  exists result,
    khKline src symbol_list period bar_count fields end_time fq
      force_download = Returned result /\
    forall code out,
      dict_get code result = Some out ->
      out = empty_frame \/
      exists df0,
        kline_source src (stock_codes_of symbol_list)
          (default default_fields fields) target_datetime
          (dividend_type_of fq) force_download code df0 /\
        kline_table period_unit (int digits) bar_count
          (default default_fields fields) target_datetime df0 out.
Proof.
  intros Hsym Hcount Hmatch Hparse.
  rewrite (khKline_valid_call _ _ _ _ _ _ _ _ _ _ _ Hsym Hcount Hmatch Hparse).
  eexists. split; [reflexivity|]. intros code out.
  destruct (match_period_unit _ _ _ Hmatch) as [->|[->| ->]]; cbn [Ascii.eqb].
  - destruct (_get_minute_kline _ _ _ _ _ _ _ _) as [result|e] eqn:Hroute;
      [|discriminate].
    exact (minute_route_tables _ _ _ _ _ _ _ _ _ _ _ Hroute).
  - destruct (_get_hour_kline _ _ _ _ _ _ _ _) as [result|e] eqn:Hroute;
      [|discriminate].
    exact (hour_route_tables _ _ _ _ _ _ _ _ _ _ _ Hroute).
  - destruct (_get_day_kline _ _ _ _ _ _ _ _) as [result|e] eqn:Hroute;
      [|discriminate].
    exact (day_route_tables _ _ _ _ _ _ _ _ _ _ _ Hroute).
Qed.

Lemma per_symbol_table (frame : DataFrame -> outcome DataFrame)
  (data : gmap string (option DataFrame)) (stock_codes : list string)
  (result : list (string * DataFrame)) (code : string) (out : DataFrame) :
  per_symbol frame data stock_codes = Returned result ->
  dict_get code result = Some out ->
  match table_of data code with
  | None => out = empty_frame
  | Some df0 => frame df0 = Returned out
  end.
Proof.
  intros Hrun Hget.
  destruct (per_symbol_entries _ _ _ _ _ _ Hrun Hget)
    as [[-> ->]|(df0 & -> & H)]; [reflexivity|exact H].
Qed.

(** The entries of [khKline] for a minute period, an hour period and the
    period of one day: the empty table for a symbol without a table in the
    response, the table made from the table of the symbol otherwise. *)
Lemma khKline_read_entries (src : source) (symbol_list : symbols)
  (period : string) (bar_count : Z) (fields : option (list string))
  (end_time : option string) (fq : string) (force_download : bool)
  (digits : string) (period_unit : ascii) (target_datetime : Z) :
  no_symbols symbol_list = false ->
  0 < bar_count ->
  match_period (lower period) = Some (digits, period_unit) ->
  parse_kline_time end_time = Returned target_datetime ->
  period_unit = "m"%char \/ period_unit = "h"%char \/
  (period_unit = "d"%char /\ int digits = 1) ->
  exists result,
    khKline src symbol_list period bar_count fields end_time fq
      force_download = Returned result /\
    forall code out,
      dict_get code result = Some out ->
      exists data,
        kline_read src (stock_codes_of symbol_list)
          (default default_fields fields) period_unit (int digits) bar_count
          target_datetime (dividend_type_of fq) force_download
        = Returned data /\
        match table_of data code with
        | None => out = empty_frame
        | Some df0 =>
            kline_table period_unit (int digits) bar_count
              (default default_fields fields) target_datetime df0 out
        end.
Proof.
  intros Hsym Hcount Hmatch Hparse Hunit.
  rewrite (khKline_valid_call _ _ _ _ _ _ _ _ _ _ _ Hsym Hcount Hmatch Hparse).
  eexists. split; [reflexivity|]. intros code out. unfold kline_read.
  destruct Hunit as [->|[->|[-> Hone]]]; cbn [Ascii.eqb Bool.eqb].
  - destruct (_get_minute_kline _ _ _ _ _ _ _ _) as [result|e] eqn:Hroute;
      [|discriminate].
    intros Hget. unfold _get_minute_kline in Hroute. revert Hroute.
    case_bool_decide as Hnative; intros Hroute;
      apply bind_inv in Hroute as (data & Hdata & Hroute);
      (destruct (no_data data); [injection Hroute as <-; discriminate|]);
      exists data; (split; [exact Hdata|]);
      pose proof (per_symbol_table _ _ _ _ _ _ Hroute Hget) as Htab;
      (destruct (table_of data code) as [df0|]; [|exact Htab]).
    + now apply native_minute_table.
    + now apply synthesized_minute_table.
  - destruct (_get_hour_kline _ _ _ _ _ _ _ _) as [result|e] eqn:Hroute;
      [|discriminate].
    intros Hget. unfold _get_hour_kline in Hroute.
    apply bind_inv in Hroute as (data & Hdata & Hroute).
    destruct (no_data data); [injection Hroute as <-; discriminate|].
    exists data. split; [exact Hdata|].
    pose proof (per_symbol_table _ _ _ _ _ _ Hroute Hget) as Htab.
    destruct (table_of data code) as [df0|]; [|exact Htab].
    now apply synthesized_hour_table.
  - destruct (_get_day_kline _ _ _ _ _ _ _ _) as [result|e] eqn:Hroute;
      [|discriminate].
    intros Hget. unfold _get_day_kline in Hroute.
    rewrite Hone in Hroute. cbn [Z.eqb Pos.eqb] in Hroute.
    apply bind_inv in Hroute as (data & Hdata & Hroute).
    destruct (no_data data); [injection Hroute as <-; discriminate|].
    exists data. split; [exact Hdata|].
    pose proof (per_symbol_table _ _ _ _ _ _ Hroute Hget) as Htab.
    destruct (table_of data code) as [df0|]; [|exact Htab].
    now apply native_day_table.
Qed.

End KlineTables.

(** ** The stamps of the bars of [khKline] *)

Lemma process_930_group_times (fields cols : list string)
  (g : list (gmap string Z)) (y : gmap string Z) :
  In y (process_930_group fields cols g) ->
  exists x, In x g /\ y !! "time" = x !! "time".
Proof.
  unfold process_930_group.
  destruct (List.find (at_hm 9 30) g) as [r930|]; [|intros Hy; now exists y].
  destruct (find_index (at_hm 9 31) g) as [i|] eqn:Hi;
    [|intros Hy; now exists y].
  destruct (find_index_lookup _ _ _ Hi) as (r931 & Hl & _).
  intros Hy. apply filter_In in Hy as [Hy _].
  apply (alter_in _ _ _ _ _ Hl) in Hy as [->|(j & _ & Hj)].
  - exists r931. split; [|apply merge_930_time].
    apply list_elem_of_In, list_elem_of_lookup. now exists i.
  - exists y. split; [|reflexivity].
    apply list_elem_of_In, list_elem_of_lookup. now exists j.
Qed.

Lemma process_930_times (df out : DataFrame) (fields : list string) :
  _process_930_data df fields = Returned out ->
  columns out = columns df /\
  forall y, In y (rows out) ->
            exists x, In x (rows df) /\ y !! "time" = x !! "time".
Proof.
  unfold _process_930_data. destruct (df_empty df).
  - intros [= <-]. split; [reflexivity|]. intros y Hy. now exists y.
  - destruct (negb (has "time" (columns df))); [discriminate|]. cbv zeta.
    match goal with
    | |- match ?l with _ => _ end = _ -> _ =>
        assert (Hall : forall g y, In g l -> In y g ->
                  exists x, In x (rows df) /\ y !! "time" = x !! "time");
        [|destruct l as [|g0 gs]]
    end.
    + intros g y Hg Hy. apply in_map_iff in Hg as (d & <- & _).
      apply process_930_group_times in Hy as (x & Hx & Ht).
      apply filter_In in Hx as [Hx _]. now exists x.
    + intros [= <-]. split; [reflexivity|]. intros y Hy. now exists y.
    + intros [= <-]. split; [reflexivity|]. cbn [rows]. intros y Hy.
      apply (proj1 (sort_rows_in y (concat (g0 :: gs)))) in Hy.
      apply (proj1 (in_concat (g0 :: gs) y)) in Hy as (g & Hg & Hy).
      exact (Hall g y Hg Hy).
Qed.

Lemma group_rows_nonempty (group_col : gmap string Z -> string) (k : string)
  (g : list (gmap string Z)) :
  In k (map group_col g) -> group_rows group_col k g <> [].
Proof.
  intros Hk Hnil. apply in_map_iff in Hk as (r & Hr & Hin).
  assert (H : In r (group_rows group_col k g)).
  { apply filter_In. split; [exact Hin|]. now apply String.eqb_eq. }
  rewrite Hnil in H. destruct H.
Qed.

Lemma column_delete (name c : string) (g : list (gmap string Z)) :
  c <> name -> column c (map (delete name) g) = column c g.
Proof.
  intros Hc. unfold column. induction g as [|r g IH]; [reflexivity|].
  cbn [map omap list_omap]. rewrite IH.
  now rewrite lookup_delete_ne by congruence.
Qed.

(** A column outside the dictionary does not count in the aggregation. *)
Lemma agg_row_delete (d : list (string * how)) (name : string)
  (g : list (gmap string Z)) :
  ~ In name (map fst d) -> agg_row d (map (delete name) g) = agg_row d g.
Proof.
  intros Hn. unfold agg_row. induction d as [|[c h] d IH]; [reflexivity|].
  cbn [fold_right fst snd]. rewrite IH by (intros H; apply Hn; now right).
  rewrite column_delete; [reflexivity|].
  intros ->. apply Hn. now left.
Qed.

Lemma group_id_no_rule (fields : list string) :
  ~ In "group_id" (map fst (agg_dict fields)).
Proof.
  intros H. apply agg_dict_keys in H. unfold rule_table in H.
  cbn [In] in H. intuition discriminate.
Qed.

(** The groups of a frame whose every row carries a label are the groups
    of its rows under the labelling. *)
Lemma rows_of_group_labelled (f : gmap string Z -> string)
  (h : gmap string Z -> gmap string Z) (k : string)
  (g : list (gmap string Z)) :
  rows_of_group k (map (fun r => Some (f r)) g) (map h g)
  = map h (group_rows f k g).
Proof.
  unfold rows_of_group, group_rows.
  induction g as [|r g IH]; [reflexivity|].
  cbn [map combine List.filter fst].
  destruct (String.eqb_spec (f r) k) as [->|Hne].
  - rewrite bool_decide_eq_true_2 by reflexivity.
    cbn [map snd]. now rewrite IH.
  - rewrite bool_decide_eq_false_2 by congruence. exact IH.
Qed.

Lemma labels_labelled (f : gmap string Z -> string)
  (h : gmap string Z -> gmap string Z) (g : list (gmap string Z)) :
  omap fst (combine (map (fun r => Some (f r)) g) (map h g)) = map f g.
Proof.
  induction g as [|r g IH]; [reflexivity|].
  cbn [map combine omap list_omap fst]. now rewrite IH.
Qed.

(** The aggregation of a frame whose rows are labelled by [f]. *)
Lemma aggregate_kline_labelled (f : gmap string Z -> string)
  (cols : list string) (g : list (gmap string Z)) (fields : list string)
  (agg : DataFrame) :
  _aggregate_kline
    (mk_frame cols (map (delete "group_id") g)
       (Some ("group_id", map (fun r => Some (f r)) g)))
    "group_id" fields = Returned agg ->
  agg = mk_frame ("group_id" :: map fst (agg_dict fields))
          (bars_by f fields g)
          (Some ("group_id", map Some (group_keys (map f g)))).
Proof.
  intros Hrun.
  apply aggregate_kline_inv in Hrun as (cells & Hlab & _ & ->).
  cbn [labels rows] in *. injection Hlab as <-.
  rewrite labels_labelled. unfold bars_by. f_equal.
  apply map_ext. intros k. rewrite rows_of_group_labelled.
  apply agg_row_delete, group_id_no_rule.
Qed.

Lemma drop_group_id (fields : list string) (g : list (gmap string Z))
  (f : gmap string Z -> string) :
  drop_column "group_id"
    (mk_frame ("group_id" :: map fst (agg_dict fields)) (bars_by f fields g)
       (Some ("group_id", map Some (group_keys (map f g)))))
  = mkDF (map fst (agg_dict fields)) (bars_by f fields g).
Proof.
  unfold drop_column. cbn [columns rows labels List.filter String.eqb
                           Ascii.eqb Bool.eqb negb].
  f_equal.
  - apply forallb_filter_id, forallb_forall. intros c Hc.
    destruct (String.eqb_spec c "group_id") as [->|]; [|reflexivity].
    now apply group_id_no_rule in Hc.
  - unfold bars_by. rewrite map_map. apply map_ext. intros k.
    apply delete_id, agg_row_missing, group_id_no_rule.
Qed.

Lemma bars_by_times (f : gmap string Z -> string) (fields : list string)
  (g : list (gmap string Z)) :
  (forall r, In r g -> is_Some (r !! "time")) ->
  forall y, In y (bars_by f fields g) ->
            exists x, In x g /\ y !! "time" = x !! "time".
Proof.
  intros Htime y Hy. unfold bars_by in Hy.
  apply in_map_iff in Hy as (k & <- & Hk).
  apply (proj1 (group_keys_in _ _)) in Hk.
  pose proof (group_rows_nonempty _ _ _ Hk) as Hne.
  destruct (group_rows f k g) as [|b0 rest] eqn:Hg; [now destruct Hne|].
  assert (Hsub : forall r, In r (b0 :: rest) -> In r g).
  { intros r Hr. rewrite <- Hg in Hr. now apply filter_In in Hr. }
  exists (List.last rest b0). split; [apply Hsub, last_in|].
  apply agg_row_time. apply List.Forall_forall. intros r Hr.
  apply Htime, Hsub, Hr.
Qed.

Lemma minute_group_id_delete (p : Z) (r : gmap string Z) :
  minute_group_id p (delete "group_id" r) = minute_group_id p r.
Proof. unfold minute_group_id. now rewrite lookup_delete_ne. Qed.

Lemma minute_frame_inv (period_minutes bar_count : Z) (fields : list string)
  (target_datetime : Z) (df0 out : DataFrame) :
  minute_frame period_minutes bar_count fields target_datetime df0
  = Returned out ->
  has "time" (columns df0) = true /\
  ((out = empty_frame /\
    List.filter (time_leb target_datetime) (map local_row (rows df0)) = []) \/
   exists df4,
     _process_930_data
       (mkDF (columns df0)
          (sort_rows (List.filter (time_leb target_datetime)
                        (map local_row (rows df0)))))
       fields = Returned df4 /\
     (period_minutes <> 0 \/ df_empty df4 = true) /\
     out = trim bar_count
             (mkDF (map fst (agg_dict fields))
                (bars_by (minute_group_id period_minutes) fields
                   (rows df4)))).
Proof.
  unfold minute_frame. intros Hrun.
  apply bind_inv in Hrun as (df1 & Hloc & Hrun).
  apply to_local_time_inv in Hloc as [Htime ->]. cbv zeta in Hrun.
  split; [exact Htime|].
  destruct (df_empty _) eqn:Hempty.
  - injection Hrun as <-. left. split; [reflexivity|].
    unfold df_empty in Hempty. cbn [select columns rows] in Hempty.
    destruct (columns df0) as [|c cs]; [discriminate|].
    now destruct (List.filter _ _).
  - apply bind_inv in Hrun as (df3 & Hsort & Hrun).
    apply sort_values_time_inv in Hsort as [_ ->].
    apply bind_inv in Hrun as (df4 & H930 & Hrun).
    right. exists df4.
    destruct ((period_minutes =? 0) && negb (df_empty df4)) eqn:Hzero;
      [discriminate|].
    apply bind_inv in Hrun as (agg & Hagg & Hout).
    unfold set_labels in Hagg.
    apply aggregate_kline_labelled in Hagg. subst agg.
    cbn [columns has existsb String.eqb Ascii.eqb Bool.eqb orb] in Hout.
    rewrite drop_group_id in Hout. injection Hout as <-.
    split_and!; [exact H930| |reflexivity].
    apply andb_false_iff in Hzero as [Hz|Hz].
    + left. now apply Z.eqb_neq.
    + right. now apply negb_false_iff.
Qed.

Lemma apply_rows_labels (index : gmap Z Z) (period_days target_year : Z)
  (h : gmap string Z -> gmap string Z) (g : list (gmap string Z))
  (cells : list (option string)) :
  apply_rows (get_group_id index period_days target_year) g = Returned cells ->
  List.filter (fun p : option string * gmap string Z =>
                 bool_decide (is_Some p.1))
    (combine cells (map h g))
  = map (fun r => (Some (day_group_label index period_days target_year r),
                   h r))
      (List.filter (has_group index period_days target_year) g).
Proof.
  revert cells. induction g as [|r g IH]; intros cells.
  - intros [= <-]. reflexivity.
  - cbn [apply_rows]. intros H.
    apply bind_inv in H as (c & Hc & H).
    apply bind_inv in H as (cs & Hcs & [= <-]).
    cbn [map combine List.filter fst]. rewrite (IH cs Hcs).
    unfold has_group, day_group_label. rewrite Hc.
    destruct c as [label|].
    + rewrite bool_decide_eq_true_2 by now eexists.
      cbn [map]. now rewrite Hc.
    + rewrite bool_decide_eq_false_2; [reflexivity|].
      intros [x Hx]. discriminate.
Qed.

Lemma multi_day_frame_inv (trade_days_list : list Z)
  (period_days bar_count target_year : Z) (fields : list string)
  (target_datetime : Z) (df0 out : DataFrame) :
  multi_day_frame trade_days_list period_days bar_count target_year fields
    target_datetime df0 = Returned out ->
  let index := trade_day_to_index trade_days_list in
  let g :=
    List.filter (has_group index period_days target_year)
      (sort_rows (List.filter (date_leb target_datetime)
                    (map local_row (rows df0)))) in
  out = empty_frame \/
  out = trim bar_count
          (mk_frame ("group_id" :: map fst (agg_dict fields))
             (bars_by (day_group_label index period_days target_year)
                fields g)
             (Some ("group_id",
                    map Some
                      (group_keys
                         (map (day_group_label index period_days target_year)
                            g))))).
Proof.
  intros Hrun index g. unfold multi_day_frame in Hrun.
  apply bind_inv in Hrun as (df1 & Hloc & Hrun).
  apply to_local_time_inv in Hloc as [_ ->]. cbv zeta in Hrun.
  destruct (df_empty _); [injection Hrun as <-; now left|].
  apply bind_inv in Hrun as (df3 & Hsort & Hrun).
  apply sort_values_time_inv in Hsort as [_ ->].
  apply bind_inv in Hrun as (cells & Hcells & Hrun).
  cbn [select rows columns] in *.
  unfold notna_labels, set_labels in Hrun. cbn [labels rows columns] in Hrun.
  rewrite (apply_rows_labels _ _ _ (delete "group_id") _ _ Hcells) in Hrun.
  fold index in Hrun. fold g in Hrun.
  rewrite !map_map in Hrun. cbn [fst snd] in Hrun.
  destruct (df_empty _); [injection Hrun as <-; now left|].
  apply bind_inv in Hrun as (agg & Hagg & [= <-]).
  apply (aggregate_kline_labelled
           (day_group_label index period_days target_year) _ g) in Hagg.
  subst agg. now right.
Qed.

Lemma trim_len (bar_count : Z) (df : DataFrame) :
  0 <= bar_count -> len (trim bar_count df) <= bar_count.
Proof.
  intros Hb. unfold trim.
  destruct (Z.ltb_spec bar_count (len df)) as [Hlt|Hge]; [|exact Hge].
  unfold len in *. cbn [rows tail]. rewrite length_skipn. lia.
Qed.

Lemma kline_table_bounded (period_unit : ascii) (period_num bar_count : Z)
  (fields : list string) (target_datetime : Z) (df0 out : DataFrame) :
  0 < bar_count ->
  kline_table period_unit period_num bar_count fields target_datetime df0 out ->
  len out <= bar_count.
Proof.
  intros Hb Htable.
  assert (Hempty : len empty_frame <= bar_count) by (unfold len; simpl; lia).
  destruct Htable as [_ _ H|_ _ H|_ H|_ _ H|tdl ty _ _ H].
  - apply native_frame_inv in H as ->. apply trim_len. lia.
  - apply minute_frame_inv in H as [_ [[-> _]|(df4 & _ & _ & ->)]];
      [exact Hempty|apply trim_len; lia].
  - apply minute_frame_inv in H as [_ [[-> _]|(df4 & _ & _ & ->)]];
      [exact Hempty|apply trim_len; lia].
  - apply native_frame_inv in H as ->. apply trim_len. lia.
  - apply multi_day_frame_inv in H as [->| ->];
      [exact Hempty|apply trim_len; lia].
Qed.

Lemma local_bar_stamp (mask : gmap string Z -> bool) (P : Z -> Prop)
  (df0 : DataFrame) (r : gmap string Z) :
  (forall r, mask r = true -> exists t, r !! "time" = Some t /\ P t) ->
  In r (sort_rows (List.filter mask (map local_row (rows df0)))) ->
  exists t x,
    r !! "time" = Some t /\ P t /\ In x (rows df0) /\
    x !! "time" = Some (t - 8 * ms_per_hour).
Proof.
  intros Hmask Hr. apply sort_rows_in, filter_In in Hr as [Hr Hm].
  apply in_map_iff in Hr as (x & <- & Hx).
  destruct (Hmask _ Hm) as (t & Ht & HP). exists t, x.
  split_and!; [exact Ht|exact HP|exact Hx|].
  rewrite local_row_time in Ht. destruct (x !! "time") as [t0|]; [|discriminate].
  injection Ht as <-. f_equal. lia.
Qed.

Lemma time_leb_stamp (target : Z) (r : gmap string Z) :
  time_leb target r = true -> exists t, r !! "time" = Some t /\ t <= target.
Proof.
  unfold time_leb. destruct (r !! "time") as [t|]; [|discriminate].
  intros H. exists t. split; [reflexivity|now apply Z.leb_le].
Qed.

Lemma date_leb_stamp (target : Z) (r : gmap string Z) :
  date_leb target r = true ->
  exists t, r !! "time" = Some t /\ date_of t <= date_of target.
Proof.
  unfold date_leb. destruct (r !! "time") as [t|]; [|discriminate].
  intros H. exists t. split; [reflexivity|now apply Z.leb_le].
Qed.

Lemma minute_frame_stamps (period_minutes bar_count : Z)
  (fields : list string) (target_datetime : Z) (df0 out : DataFrame)
  (y : gmap string Z) :
  minute_frame period_minutes bar_count fields target_datetime df0
  = Returned out ->
  In y (rows out) ->
  exists t x,
    y !! "time" = Some t /\ t <= target_datetime /\ In x (rows df0) /\
    x !! "time" = Some (t - 8 * ms_per_hour).
Proof.
  intros Hrun Hy.
  apply minute_frame_inv in Hrun
    as [_ [[-> _]|(df4 & H930 & _ & ->)]]; [destruct Hy|].
  apply trim_rows in Hy. cbn [rows] in Hy.
  apply process_930_times in H930 as [_ H930]. cbn [rows] in H930.
  assert (H4 : forall r, In r (rows df4) ->
            exists t x,
              r !! "time" = Some t /\ t <= target_datetime /\
              In x (rows df0) /\ x !! "time" = Some (t - 8 * ms_per_hour)).
  { intros r Hr. destruct (H930 r Hr) as (r3 & Hr3 & Heq). rewrite Heq.
    exact (local_bar_stamp _ (fun t => t <= target_datetime) _ _
             (time_leb_stamp target_datetime) Hr3). }
  destruct (bars_by_times (minute_group_id period_minutes) fields (rows df4))
    with (y := y) as (r & Hr & Heq); [|exact Hy|].
  - intros r Hr. destruct (H4 r Hr) as (t & x & Ht & _). now exists t.
  - rewrite Heq. exact (H4 r Hr).
Qed.

Lemma multi_day_frame_stamps (trade_days_list : list Z)
  (period_days bar_count target_year : Z) (fields : list string)
  (target_datetime : Z) (df0 out : DataFrame) (y : gmap string Z) :
  multi_day_frame trade_days_list period_days bar_count target_year fields
    target_datetime df0 = Returned out ->
  In y (rows out) ->
  exists t x,
    y !! "time" = Some t /\ date_of t <= date_of target_datetime /\
    In x (rows df0) /\ x !! "time" = Some (t - 8 * ms_per_hour).
Proof.
  intros Hrun Hy.
  apply multi_day_frame_inv in Hrun. cbv zeta in Hrun.
  destruct Hrun as [->| ->]; [destruct Hy|].
  apply trim_rows in Hy. cbn [rows] in Hy.
  set (lbl := day_group_label _ _ _) in Hy.
  set (g := List.filter (has_group _ _ _) _) in Hy.
  assert (H4 : forall r, In r g ->
            exists t x,
              r !! "time" = Some t /\
              date_of t <= date_of target_datetime /\
              In x (rows df0) /\
              x !! "time" = Some (t - 8 * ms_per_hour)).
  { intros r Hr. apply filter_In in Hr as [Hr _].
    exact (local_bar_stamp _ (fun t => date_of t <= date_of target_datetime)
             _ _ (date_leb_stamp target_datetime) Hr). }
  destruct (bars_by_times lbl fields g) with (y := y)
    as (r & Hr & Heq); [|exact Hy|].
  - intros r Hr. destruct (H4 r Hr) as (t & x & Ht & _). now exists t.
  - rewrite Heq. exact (H4 r Hr).
Qed.

Lemma native_frame_stamps (mask : gmap string Z -> bool) (P : Z -> Prop)
  (bar_count : Z) (df0 out : DataFrame) (y : gmap string Z) :
  (forall r, mask r = true -> exists t, r !! "time" = Some t /\ P t) ->
  native_frame mask bar_count df0 = Returned out ->
  In y (rows out) ->
  exists t x,
    y !! "time" = Some t /\ P t /\ In x (rows df0) /\
    x !! "time" = Some (t - 8 * ms_per_hour).
Proof.
  intros Hmask Hrun Hy. apply native_frame_inv in Hrun as ->.
  apply trim_rows in Hy. cbn [rows] in Hy.
  exact (local_bar_stamp _ P _ _ Hmask Hy).
Qed.

Lemma kline_table_stamps (period_unit : ascii) (period_num bar_count : Z)
  (fields : list string) (target_datetime : Z) (df0 out : DataFrame)
  (y : gmap string Z) :
  kline_table period_unit period_num bar_count fields target_datetime df0 out ->
  In y (rows out) ->
  stamped_up_to period_unit target_datetime df0 y.
Proof.
  intros Htable Hy. unfold stamped_up_to.
  destruct Htable as [-> _ H| -> _ H| -> H| -> _ H|tdl ty -> _ H];
    cbn [Ascii.eqb Bool.eqb].
  - exact (native_frame_stamps _ (fun t => t <= target_datetime) _ _ _ _
             (time_leb_stamp target_datetime) H Hy).
  - exact (minute_frame_stamps _ _ _ _ _ _ _ H Hy).
  - exact (minute_frame_stamps _ _ _ _ _ _ _ H Hy).
  - exact (native_frame_stamps _
             (fun t => date_of t <= date_of target_datetime) _ _ _ _
             (date_leb_stamp target_datetime) H Hy).
  - exact (multi_day_frame_stamps _ _ _ _ _ _ _ _ _ H Hy).
Qed.

Section KlineProperties.

Context {collaborators : Collaborators}.

(** No table of a valid call to [khKline] holds more than [bar_count] bars,
    whatever the period. *)
Theorem khKline_tables_bounded (src : source) (symbol_list : symbols)
  (period : string) (bar_count : Z) (fields : option (list string))
  (end_time : option string) (fq : string) (force_download : bool)
  (digits : string) (period_unit : ascii) (target_datetime : Z) :
  no_symbols symbol_list = false ->
  0 < bar_count ->
  match_period (lower period) = Some (digits, period_unit) ->
  parse_kline_time end_time = Returned target_datetime ->
  exists result,
    khKline src symbol_list period bar_count fields end_time fq
      force_download = Returned result /\
    forall code out,
      dict_get code result = Some out -> len out <= bar_count.
Proof.
  intros Hsym Hcount Hmatch Hparse.
  destruct (khKline_entries src symbol_list period bar_count fields end_time
              fq force_download digits period_unit target_datetime
              Hsym Hcount Hmatch Hparse) as (result & Hrun & Hentries).
  exists result. split; [exact Hrun|]. intros code out Hget.
  destruct (Hentries code out Hget) as [->|(df0 & _ & Htable)].
  - unfold len. simpl. lia.
  - exact (kline_table_bounded _ _ _ _ _ _ _ Hcount Htable).
Qed.

(** [khKline] never looks past the reference time: every bar of every table
    carries the stamp of a bar that the data source returned for that symbol,
    moved forward by eight hours, and that stamp is not after the reference
    time (not after its calendar date, for day periods). *)
Theorem khKline_no_bar_after_reference (src : source) (symbol_list : symbols)
  (period : string) (bar_count : Z) (fields : option (list string))
  (end_time : option string) (fq : string) (force_download : bool)
  (digits : string) (period_unit : ascii) (target_datetime : Z) :
  no_symbols symbol_list = false ->
  0 < bar_count ->
  match_period (lower period) = Some (digits, period_unit) ->
  parse_kline_time end_time = Returned target_datetime ->
  exists result,
    khKline src symbol_list period bar_count fields end_time fq
      force_download = Returned result /\
    forall code out r,
      dict_get code result = Some out -> In r (rows out) ->
      exists df0,
        kline_source src (stock_codes_of symbol_list)
          (default default_fields fields) target_datetime
          (dividend_type_of fq) force_download code df0 /\
        stamped_up_to period_unit target_datetime df0 r.
Proof.
  intros Hsym Hcount Hmatch Hparse.
  destruct (khKline_entries src symbol_list period bar_count fields end_time
              fq force_download digits period_unit target_datetime
              Hsym Hcount Hmatch Hparse) as (result & Hrun & Hentries).
  exists result. split; [exact Hrun|]. intros code out r Hget Hr.
  destruct (Hentries code out Hget) as [->|(df0 & Hsrc & Htable)];
    [destruct Hr|].
  exists df0. split; [exact Hsrc|].
  exact (kline_table_stamps _ _ _ _ _ _ _ _ Htable Hr).
Qed.

End KlineProperties.

(** ** The native periods of [khKline] *)


Section KlineNative.

Context {collaborators : Collaborators}.


End KlineNative.

(** ** The last bar of a synthesized period *)







Section KlineSynthesized.

Context {collaborators : Collaborators}.


End KlineSynthesized.

(** * [_parse_period] reads back a formatted period *)

Lemma append_cons (x : ascii) (a b : string) :
  (String x a ++ b)%string = String x (a ++ b).
Proof. reflexivity. Qed.

Lemma append_empty_r (a : string) : (a ++ "")%string = a.
Proof.
  induction a as [|x a IH]; [reflexivity|]. now rewrite append_cons, IH.
Qed.

Lemma length_app_one (a : string) (c : ascii) :
  String.length (a ++ String c "") = S (String.length a).
Proof.
  induction a as [|x a IH]; [reflexivity|].
  rewrite append_cons. simpl. now rewrite IH.
Qed.

Lemma all_digits_app_one (a : string) (c : ascii) :
  all_digits a = true -> is_digit c = true ->
  all_digits (a ++ String c "") = true.
Proof.
  intros Ha Hc. induction a as [|x a IH].
  - change (is_digit c && true = true). now rewrite Hc.
  - rewrite append_cons. simpl in *.
    apply andb_true_iff in Ha as [-> Ha]. now apply IH.
Qed.

Lemma int_acc_app_one (a : string) (c : ascii) (acc : Z) :
  int_acc acc (a ++ String c "") = 10 * int_acc acc a + digit_value c.
Proof.
  revert acc. induction a as [|x a IH]; intros acc; [reflexivity|].
  rewrite append_cons. simpl. apply IH.
Qed.

Lemma digit_char_code (d : Z) :
  0 <= d < 10 -> nat_of_ascii (digit_char d) = (48 + Z.to_nat d)%nat.
Proof.
  intros Hd. unfold digit_char. apply nat_ascii_embedding. lia.
Qed.

Lemma digit_value_char (d : Z) : 0 <= d < 10 -> digit_value (digit_char d) = d.
Proof.
  intros Hd. unfold digit_value. rewrite digit_char_code by exact Hd. lia.
Qed.

Lemma is_digit_char (d : Z) : 0 <= d < 10 -> is_digit (digit_char d) = true.
Proof.
  intros Hd. unfold is_digit. rewrite digit_char_code by exact Hd.
  apply andb_true_iff. split; apply Nat.leb_le; lia.
Qed.

Lemma digits_acc_spec (fuel : nat) (n : Z) (acc : string) :
  (0 < fuel)%nat -> 0 <= n < 2 ^ Z.of_nat fuel ->
  exists s,
    digits_acc fuel n acc = (s ++ acc)%string /\ s <> "" /\
    all_digits s = true /\
    forall a, int_acc a s = a * 10 ^ Z.of_nat (String.length s) + n.
Proof.
  revert n acc. induction fuel as [|f IH]; intros n acc Hf Hn; [lia|].
  assert (Hmod : 0 <= n mod 10 < 10) by (apply Z.mod_pos_bound; lia).
  cbn [digits_acc]. destruct (Z.ltb_spec n 10) as [Hlt|Hge].
  - exists (String (digit_char (n mod 10)) ""). split_and!.
    + reflexivity.
    + discriminate.
    + cbn [all_digits]. now rewrite is_digit_char.
    + intros a. cbn [int_acc String.length].
      rewrite digit_value_char by exact Hmod.
      rewrite Z.mod_small by lia. change (10 ^ Z.of_nat 1) with 10. lia.
  - assert (Hpow : 2 ^ Z.of_nat (S f) = 2 * 2 ^ Z.of_nat f).
    { rewrite Nat2Z.inj_succ, Z.pow_succ_r by lia. reflexivity. }
    pose proof (Z.div_mod n 10 ltac:(lia)) as Hdiv.
    assert (Hq : 0 <= n / 10 < 2 ^ Z.of_nat f).
    { split; [apply Z.div_pos; lia|]. lia. }
    assert (Hf' : (0 < f)%nat).
    { destruct f; [|lia]. change (2 ^ Z.of_nat 0) with 1 in Hq. lia. }
    destruct (IH (n / 10) (String (digit_char (n mod 10)) acc) Hf' Hq)
      as (s & Hs & Hne & Hall & Hint).
    exists (s ++ String (digit_char (n mod 10)) "")%string. split_and!.
    + rewrite Hs, append_assoc. reflexivity.
    + destruct s; [now destruct Hne|discriminate].
    + apply all_digits_app_one; [exact Hall|now apply is_digit_char].
    + intros a. rewrite int_acc_app_one, Hint, length_app_one.
      rewrite digit_value_char by exact Hmod.
      rewrite Nat2Z.inj_succ, Z.pow_succ_r by lia. lia.
Qed.

Lemma str_nat_spec (n : Z) :
  0 <= n ->
  str_nat n <> "" /\ all_digits (str_nat n) = true /\ int (str_nat n) = n.
Proof.
  intros Hn. unfold str_nat, int.
  destruct (digits_acc_spec (S (Z.to_nat (Z.log2 n))) n "")
    as (s & Hs & Hne & Hall & Hint); [lia| |].
  - split; [exact Hn|].
    rewrite Nat2Z.inj_succ, Z2Nat.id by apply Z.log2_nonneg.
    destruct (Z.eq_dec n 0) as [->|Hpos]; [reflexivity|].
    apply Z.log2_spec. lia.
  - rewrite Hs, append_empty_r. split_and!; [exact Hne|exact Hall|].
    rewrite Hint. lia.
Qed.

Lemma lower_digit (c : ascii) : is_digit c = true -> lower_char c = c.
Proof.
  unfold is_digit, lower_char. intros H.
  apply andb_true_iff in H as [_ H]. apply Nat.leb_le in H.
  destruct (Nat.leb_spec 65 (nat_of_ascii c)); [lia|reflexivity].
Qed.

Lemma lower_digits_unit (s : string) (c : ascii) :
  all_digits s = true ->
  lower (s ++ String c "") = (s ++ String (lower_char c) "")%string.
Proof.
  intros Hs. induction s as [|x s IH]; [reflexivity|].
  rewrite !append_cons. simpl in *.
  apply andb_true_iff in Hs as [Hx Hs].
  now rewrite (lower_digit _ Hx), IH.
Qed.

Lemma span_digits_unit (s : string) (c : ascii) :
  all_digits s = true -> is_digit c = false ->
  span_digits (s ++ String c "") = (s, String c "").
Proof.
  intros Hs Hc. induction s as [|x s IH].
  - change (span_digits (String c "") = ("", String c "")). simpl.
    now rewrite Hc.
  - rewrite append_cons. simpl in *.
    apply andb_true_iff in Hs as [-> Hs]. now rewrite (IH Hs).
Qed.

Lemma unit_not_digit (u : ascii) : is_unit u = true -> is_digit u = false.
Proof.
  unfold is_unit. intros H.
  apply orb_true_iff in H as [H|H]; [apply orb_true_iff in H as [H|H]|];
    apply Ascii.eqb_eq in H; now subst u.
Qed.

(** A count written in decimal and followed by a unit letter, in either
    case, reads back as that count and the lower-case unit. *)
Theorem parse_period_round_trip (n : Z) (c : ascii) :
  0 <= n -> is_unit (lower_char c) = true ->
  _parse_period (str_nat n ++ String c "") = Returned (n, lower_char c).
Proof.
  intros Hn Hu. destruct (str_nat_spec n Hn) as (Hne & Hall & Hint).
  unfold _parse_period, match_period.
  rewrite (lower_digits_unit _ _ Hall).
  rewrite (span_digits_unit _ _ Hall (unit_not_digit _ Hu)).
  destruct (str_nat n) as [|x s] eqn:E; [now destruct Hne|].
  now rewrite Hu, Hint.
Qed.

(** * [_aggregate_kline] keeps the totals *)

Lemma ascending_below (k : string) (l : list string) :
  ascending (k :: l) -> forall x, In x l -> String.compare k x = Lt.
Proof.
  revert k. induction l as [|h t IH]; intros k Hasc x Hx; [destruct Hx|].
  inversion Hasc as [| |k' h' t' Hlt Hrest]; subst.
  destruct Hx as [<-|Hx]; [exact Hlt|].
  exact (compare_lt_trans _ _ _ Hlt (IH h Hrest x Hx)).
Qed.

Lemma ascending_NoDup (l : list string) : ascending l -> List.NoDup l.
Proof.
  induction l as [|k l IH]; intros Hasc; constructor.
  - intros Hin. pose proof (ascending_below _ _ Hasc k Hin) as Hlt.
    rewrite compare_refl in Hlt. discriminate.
  - apply IH. inversion Hasc; subst; [constructor|assumption].
Qed.

Lemma indicator_sum_absent (x : string) (v : Z) (keys : list string) :
  ~ In x keys ->
  foldr (fun k acc => (if String.eqb x k then v else 0) + acc) 0 keys = 0.
Proof.
  induction keys as [|k keys IH]; intros Hx; [reflexivity|]. cbn [foldr].
  destruct (String.eqb_spec x k) as [->|_]; [exfalso; apply Hx; now left|].
  rewrite IH; [lia|]. intros H. apply Hx. now right.
Qed.

Lemma indicator_sum (x : string) (v : Z) (keys : list string) :
  List.NoDup keys -> In x keys ->
  foldr (fun k acc => (if String.eqb x k then v else 0) + acc) 0 keys = v.
Proof.
  induction keys as [|k keys IH]; intros Hnd Hx; [destruct Hx|].
  apply List.NoDup_cons_iff in Hnd as [Hfresh Hnd]. cbn [foldr].
  destruct (String.eqb_spec x k) as [->|Hne].
  - rewrite indicator_sum_absent by exact Hfresh. lia.
  - destruct Hx as [->|Hx]; [now destruct Hne|]. rewrite IH by assumption. lia.
Qed.

Lemma group_totals (c : string) (keys : list string)
  (ps : list (option string * gmap string Z)) :
  List.NoDup keys ->
  (forall p, In p ps -> exists k, p.1 = Some k /\ In k keys) ->
  foldr (fun k acc =>
           total c (map snd
                      (List.filter
                         (fun p : option string * gmap string Z =>
                            bool_decide (p.1 = Some k)) ps)) + acc) 0 keys
  = total c (map snd ps).
Proof.
  intros Hnd. induction ps as [|[l r] ps IH]; intros Hall.
  - clear Hnd Hall. induction keys as [|k keys IHk]; [reflexivity|].
    cbn [foldr]. rewrite IHk. reflexivity.
  - destruct (Hall (l, r) (or_introl eq_refl)) as (k0 & Hl & Hk0).
    cbn [fst] in Hl. subst l.
    assert (Hsplit : forall ks,
              foldr (fun k acc =>
                       total c (map snd
                                  (List.filter
                                     (fun p : option string * gmap string Z =>
                                        bool_decide (p.1 = Some k))
                                     ((Some k0, r) :: ps))) + acc) 0 ks
              = foldr (fun k acc =>
                         (if String.eqb k0 k then cell c r else 0) + acc) 0 ks
                + foldr (fun k acc =>
                           total c (map snd
                                      (List.filter
                                         (fun p : option string
                                                  * gmap string Z =>
                                            bool_decide (p.1 = Some k)) ps))
                           + acc) 0 ks).
    { induction ks as [|k ks IHk]; [reflexivity|].
      cbn [foldr]. rewrite IHk. cbn [List.filter fst].
      destruct (String.eqb_spec k0 k) as [->|Hne].
      - rewrite bool_decide_eq_true_2 by reflexivity. cbn [map snd].
        change (total c (r :: ?l)) with (cell c r + total c l). lia.
      - rewrite bool_decide_eq_false_2 by congruence. lia. }
    rewrite Hsplit, (indicator_sum _ _ _ Hnd Hk0).
    rewrite IH by (intros p Hp; apply Hall; now right). reflexivity.
Qed.

Lemma wrap64_plus (a b a' b' : Z) :
  wrap64 a = wrap64 a' -> wrap64 b = wrap64 b' ->
  wrap64 (a + b) = wrap64 (a' + b').
Proof.
  unfold wrap64. change (2 ^ 63) with 9223372036854775808.
  change (2 ^ 64) with 18446744073709551616.
  intros Ha Hb. Z.div_mod_to_equations. lia.
Qed.

Lemma wrap64_idem (a : Z) : wrap64 (wrap64 a) = wrap64 a.
Proof.
  unfold wrap64. change (2 ^ 63) with 9223372036854775808.
  change (2 ^ 64) with 18446744073709551616.
  Z.div_mod_to_equations. lia.
Qed.

Lemma snd_combine {A B} (l : list A) (l' : list B) :
  length l = length l' -> map snd (combine l l') = l'.
Proof.
  revert l'. induction l as [|a l IH]; intros [|b l'] Hlen;
    try discriminate; [reflexivity|].
  cbn [combine map snd]. f_equal. apply IH. now injection Hlen.
Qed.

Lemma agg_dict_NoDup (fields : list string) :
  List.NoDup (map fst (agg_dict fields)).
Proof.
  unfold agg_dict.
  destruct (has "open" fields), (has "high" fields), (has "low" fields),
    (has "close" fields), (has "volume" fields), (has "amount" fields);
    cbn [app map fst];
    repeat (constructor; [cbn [In]; intuition discriminate|]); constructor.
Qed.

Lemma agg_dict_sum (fields : list string) (c : string) :
  c = "volume" \/ c = "amount" -> has c fields = true ->
  In (c, Sum) (agg_dict fields).
Proof.
  intros [-> | ->] Hc; unfold agg_dict; rewrite Hc;
    repeat match goal with
           | |- context [has ?x fields] => destruct (has x fields)
           end;
    cbn [app In]; tauto.
Qed.

Lemma agg_row_total (fields : list string) (c : string)
  (g : list (gmap string Z)) :
  c = "volume" \/ c = "amount" -> has c fields = true ->
  (forall r, In r g -> is_Some (r !! c)) ->
  cell c (agg_row (agg_dict fields) g) = wrap64 (total c g).
Proof.
  intros Hc Hhas Hall. unfold cell at 1.
  rewrite (agg_row_lookup _ _ c Sum (agg_dict_NoDup fields)
             (agg_dict_sum _ _ Hc Hhas)).
  rewrite column_cells by now apply List.Forall_forall.
  rewrite <- total_cells. destruct g as [|r g]; [reflexivity|].
  cbn [map reduce default foldr]. unfold id. f_equal. apply fold_left_add.
Qed.

(** Aggregation keeps the traded totals in 64-bit integer arithmetic: when
    [volume] (or [amount]) is a requested field, every bar has it and every
    bar carries a label, the volumes of the aggregated bars add up to the
    volumes of the bars they were made from modulo 2^64, whatever the
    grouping, and exactly when the total of each group lies in the [int64]
    range. *)
Theorem aggregate_kline_conserves_totals (df out : DataFrame)
  (group_col : string) (cells : list (option string))
  (fields : list string) (c : string) :
  c = "volume" \/ c = "amount" ->
  has c fields = true ->
  labels df = Some (group_col, cells) ->
  length cells = length (rows df) ->
  (forall l, In l cells -> is_Some l) ->
  ~ In group_col rule_table ->
  (forall r, In r (rows df) -> is_Some (r !! c)) ->
  _aggregate_kline df group_col fields = Returned out ->
  wrap64 (total c (rows out)) = wrap64 (total c (rows df)) /\
  ((forall k, int64 (total c (rows_of_group k cells (rows df)))) ->
   total c (rows out) = total c (rows df)).
Proof.
  intros Hc Hhas Hlab Hlen Hsome _ Hall Hrun.
  apply aggregate_kline_inv in Hrun as (cells' & Hlab' & _ & ->).
  rewrite Hlab in Hlab'. injection Hlab' as <-. cbn [rows].
  set (keys := group_keys (omap fst (combine cells (rows df)))).
  assert (Htotal :
            foldr (fun k acc =>
                     total c (rows_of_group k cells (rows df)) + acc) 0 keys
            = total c (rows df)).
  { transitivity (total c (map snd (combine cells (rows df))));
      [|now rewrite snd_combine].
    unfold rows_of_group. apply group_totals.
    - apply ascending_NoDup, group_keys_ascending.
    - intros [l r] Hp. destruct (Hsome l (in_combine_l _ _ _ _ Hp)) as [k ->].
      exists k. split; [reflexivity|].
      apply group_keys_in, list_elem_of_In, list_elem_of_omap.
      exists (Some k, r). split; [now apply list_elem_of_In|reflexivity]. }
  assert (Hcell : forall k,
            cell c (agg_row (agg_dict fields)
                      (rows_of_group k cells (rows df)))
            = wrap64 (total c (rows_of_group k cells (rows df)))).
  { intros k. apply agg_row_total; [exact Hc|exact Hhas|].
    intros r Hr. apply Hall. unfold rows_of_group in Hr.
    apply in_map_iff in Hr as ([l r'] & <- & Hr).
    apply filter_In in Hr as [Hr _]. exact (in_combine_r _ _ _ _ Hr). }
  rewrite <- Htotal. clear Htotal. split.
  - induction keys as [|k ks IH]; [reflexivity|].
    cbn [map foldr]. change (total c (?x :: ?l)) with (cell c x + total c l).
    rewrite Hcell. apply wrap64_plus; [apply wrap64_idem|exact IH].
  - intros Hfit. induction keys as [|k ks IH]; [reflexivity|].
    cbn [map foldr]. change (total c (?x :: ?l)) with (cell c x + total c l).
    now rewrite Hcell, (wrap64_small _ (Hfit k)), IH.
Qed.

(** * Errors of [khHistory] *)

Lemma first_format_some {collaborators : Collaborators} (s : string)
  (fmts : list string) (fmt : string) :
  In fmt fmts -> strptime_ok s fmt ->
  exists t, first_format s fmts = Some t.
Proof.
  unfold strptime_ok. induction fmts as [|f fmts IH]; intros Hin Hok;
    [destruct Hin|].
  cbn [first_format fold_right].
  destruct (strptime s f) as [t|] eqn:E; [now exists t|].
  destruct Hin as [->|Hin]; [now rewrite E in Hok|]. now apply IH.
Qed.

Lemma for_each_raises {A S} (f : S -> A -> outcome S) (l : list A) (s : S)
  (a : A) :
  (forall s0, exists e, f s0 a = Raised e) -> In a l ->
  exists e, for_each f l s = Raised e.
Proof.
  intros Hf. revert s. induction l as [|x l IH]; intros s Hin; [destruct Hin|].
  cbn [for_each]. destruct (f s x) as [s'|e] eqn:E; [|now exists e].
  destruct Hin as [->|Hin].
  - destruct (Hf s) as [e He]. congruence.
  - exact (IH s' Hin).
Qed.

Lemma history_frame_without_time (period : string) (cur : Z)
  (skip_paused : bool) (bar_count : Z) (fields : list string)
  (sd : DataFrame) :
  has "time" (columns sd) = false ->
  exists e,
    history_frame period cur skip_paused bar_count fields sd = Raised e.
Proof.
  intros Htime.
  destruct (history_frame period cur skip_paused bar_count fields sd)
    as [out|e] eqn:E; [|now exists e].
  apply history_frame_inv in E as [E _]. congruence.
Qed.

Section HistoryErrors.

Context {collaborators : Collaborators}.

(** [khHistory] raises for bad arguments only, and then a [ValueError]: an
    empty symbol list, an empty field list, a bar count that is not positive,
    or a reference time that none of its four formats parses.  On any other
    call it returns, whatever the data source does. *)
Theorem khHistory_raises_on_bad_arguments_only (src : source)
  (symbol_list : symbols) (fields : list string) (bar_count : Z)
  (fre_step : string) (current_time : option string) (skip_paused : bool)
  (fq : string) (force_download : bool) :
  let call :=
    khHistory src symbol_list fields bar_count fre_step current_time
      skip_paused fq force_download in
  (no_symbols symbol_list = true -> raises_value_error call)
  /\ (fields = [] -> raises_value_error call)
  /\ (bar_count <= 0 -> raises_value_error call)
  /\ (forall s, current_time = Some s ->
        (forall fmt, In fmt history_time_formats ->
                     strptime (strip s) fmt = None) ->
        raises_value_error call)
  /\ (no_symbols symbol_list = false -> fields <> [] -> 0 < bar_count ->
      (current_time = None \/
       exists s fmt, current_time = Some s /\ In fmt history_time_formats /\
                     strptime_ok (strip s) fmt) ->
      exists result, call = Returned result).
Proof.
  intros call. subst call. unfold khHistory, raises_value_error. split_and!.
  - intros ->. now eexists.
  - intros ->. destruct (no_symbols symbol_list); now eexists.
  - intros Hb. destruct (no_symbols symbol_list); [now eexists|].
    case_bool_decide; [now eexists|].
    rewrite (proj2 (Z.leb_le _ _) Hb). now eexists.
  - intros s -> Hfail. destruct (no_symbols symbol_list); [now eexists|].
    case_bool_decide; [now eexists|].
    destruct (bar_count <=? 0); [now eexists|].
    unfold parse_history_time.
    pose proof (first_format_none (strip s) history_time_formats Hfail) as Hff.
    unfold history_time_formats in Hff. rewrite Hff. now eexists.
  - intros Hsym Hfields Hb Htime.
    assert (Hparse : exists reference,
              parse_history_time current_time = Returned reference).
    { destruct Htime as [->|(s & fmt & -> & Hin & Hok)]; [now eexists|].
      unfold parse_history_time.
      destruct (first_format_some _ _ _ Hin Hok) as [t Ht].
      unfold history_time_formats in Ht. rewrite Ht. now eexists. }
    destruct Hparse as [reference Hparse].
    rewrite Hsym, (bool_decide_eq_false_2 _ Hfields).
    rewrite (proj2 (Z.leb_gt _ _) Hb), Hparse. now eexists.
Qed.

(** One malformed table spoils the whole answer of [khHistory]: when the
    table that the data source returns for a requested symbol is not empty
    and has no [time] column, the call returns no entry at all, for any
    symbol. *)
Theorem khHistory_table_without_time_empties_result (src : source)
  (symbol_list : symbols) (fields : list string) (bar_count : Z)
  (fre_step : string) (current_time : option string) (skip_paused : bool)
  (fq : string) (force_download : bool) (reference : Z)
  (data : gmap string (option DataFrame)) (code : string) (sd : DataFrame) :
  no_symbols symbol_list = false ->
  fields <> [] ->
  0 < bar_count ->
  parse_history_time current_time = Returned reference ->
  history_data src (stock_codes_of symbol_list) fields bar_count fre_step
    reference (dividend_type_of fq) force_download = Returned data ->
  In code (stock_codes_of symbol_list) ->
  data !! code = Some (Some sd) ->
  df_empty sd = false ->
  has "time" (columns sd) = false ->
  khHistory src symbol_list fields bar_count fre_step current_time
    skip_paused fq force_download = Returned [].
Proof.
  intros Hsym Hfields Hb Hparse Hdata Hcode Hsd Hne Htime.
  rewrite (khHistory_valid_call _ _ _ _ _ _ _ _ _ _ Hsym Hfields Hb Hparse).
  f_equal. rewrite history_body_read, Hdata. cbn [mbind outcome_bind].
  destruct (no_data data); [reflexivity|].
  destruct (for_each_raises
              (history_step fre_step reference skip_paused bar_count fields
                 data)
              (stock_codes_of symbol_list) [] code) as [e ->];
    [|exact Hcode|reflexivity].
  intros s0. unfold history_step, table_of. rewrite Hsd, Hne.
  destruct (history_frame_without_time fre_step reference skip_paused
              bar_count fields sd Htime) as [e ->].
  now exists e.
Qed.

End HistoryErrors.

(** * The order of the bars of [khKline] *)

Lemma minute_frame_groups (period_minutes bar_count : Z)
  (fields : list string) (target_datetime : Z) (df0 out : DataFrame) :
  minute_frame period_minutes bar_count fields target_datetime df0
  = Returned out ->
  (forall x t, In x (rows df0) -> x !! "time" = Some t ->
               t + 8 * ms_per_hour <= target_datetime ->
               session_stamp (t + 8 * ms_per_hour)) ->
  out = empty_frame \/
  exists df4,
    out = trim bar_count
            (mkDF (map fst (agg_dict fields))
               (map (fun k => agg_row (agg_dict fields)
                                (group_rows (minute_group_id period_minutes) k
                                   (rows df4)))
                  (group_keys
                     (map (minute_group_id period_minutes) (rows df4))))) /\
    forall r, In r (rows df4) ->
              exists tr, r !! "time" = Some tr /\ session_stamp tr.
Proof.
  intros Hrun Hsess.
  apply minute_frame_inv in Hrun
    as [_ [[-> _]|(df4 & H930 & _ & ->)]]; [now left|right].
  exists df4. split; [reflexivity|].
  apply process_930_times in H930 as [_ Htimes]. cbn [rows] in Htimes.
  intros r Hr. destruct (Htimes r Hr) as (r3 & Hr3 & Heq).
  destruct (local_bar_stamp _ (fun t => t <= target_datetime) _ _
              (time_leb_stamp target_datetime) Hr3)
    as (tr & x0 & Hrt & Hrle & Hx0 & Hx0t).
  exists tr. split; [congruence|].
  replace tr with (tr - 8 * ms_per_hour + 8 * ms_per_hour) by lia.
  apply (Hsess x0); [exact Hx0|exact Hx0t|lia].
Qed.

Lemma ascending_map_sorted (F : string -> gmap string Z)
  (keys : list string) :
  ascending keys ->
  (forall k1 k2, In k1 keys -> In k2 keys -> String.compare k1 k2 = Lt ->
                 time_le (F k1) (F k2) = true) ->
  StronglySorted (fun a b => time_le a b = true) (map F keys).
Proof.
  induction keys as [|k keys IH]; intros Hasc HF; cbn [map]; constructor.
  - apply IH.
    + inversion Hasc; subst; [constructor|assumption].
    + intros k1 k2 H1 H2. apply HF; now right.
  - apply List.Forall_forall. intros y Hy.
    apply in_map_iff in Hy as (k2 & <- & Hk2).
    apply HF; [now left|now right|].
    exact (ascending_below _ _ Hasc k2 Hk2).
Qed.

Lemma group_stamp (fields : list string)
  (group_col : gmap string Z -> string) (k : string)
  (g : list (gmap string Z)) :
  (forall r, In r g -> is_Some (r !! "time")) ->
  In k (map group_col g) ->
  exists r, In r g /\ group_col r = k /\
            agg_row (agg_dict fields) (group_rows group_col k g) !! "time"
            = r !! "time".
Proof.
  intros Htime Hk. pose proof (group_rows_nonempty _ _ _ Hk) as Hne.
  assert (Hsub : forall r, In r (group_rows group_col k g) ->
                           In r g /\ group_col r = k).
  { intros r Hr. apply filter_In in Hr as [Hr He].
    split; [exact Hr|now apply String.eqb_eq]. }
  destruct (group_rows group_col k g) as [|b0 rest]; [now destruct Hne|].
  exists (List.last rest b0).
  destruct (Hsub _ (last_in rest b0)) as [Hin Hlab].
  split_and!; [exact Hin|exact Hlab|].
  apply agg_row_time. apply List.Forall_forall. intros r Hr.
  apply Htime. now apply Hsub.
Qed.

Lemma minute_frame_ascending (period_minutes bar_count : Z)
  (fields : list string) (target_datetime : Z) (df0 out : DataFrame) :
  0 < period_minutes ->
  minute_frame period_minutes bar_count fields target_datetime df0
  = Returned out ->
  (forall x t, In x (rows df0) -> x !! "time" = Some t ->
               t + 8 * ms_per_hour <= target_datetime ->
               session_stamp (t + 8 * ms_per_hour)) ->
  StronglySorted (fun a b => time_le a b = true) (rows out).
Proof.
  intros Hpm Hrun Hsess.
  destruct (minute_frame_groups _ _ _ _ _ _ Hrun Hsess)
    as [->|(df4 & -> & H4)]; [constructor|].
  assert (Hsorted : StronglySorted (fun a b => time_le a b = true)
            (map (fun k => agg_row (agg_dict fields)
                             (group_rows (minute_group_id period_minutes) k
                                (rows df4)))
               (group_keys
                  (map (minute_group_id period_minutes) (rows df4))))).
  { apply ascending_map_sorted; [apply group_keys_ascending|].
    intros k1 k2 Hk1 Hk2 Hlt.
    apply (proj1 (group_keys_in _ _)) in Hk1, Hk2.
    assert (Htime : forall r, In r (rows df4) -> is_Some (r !! "time")).
    { intros r Hr. destruct (H4 r Hr) as (tr & Hrt & _). now exists tr. }
    destruct (group_stamp fields _ _ _ Htime Hk1) as (r1 & Hr1 & Hl1 & He1).
    destruct (group_stamp fields _ _ _ Htime Hk2) as (r2 & Hr2 & Hl2 & He2).
    destruct (H4 r1 Hr1) as (t1 & Ht1 & _ & _ & Hend1).
    destruct (H4 r2 Hr2) as (t2 & Ht2 & Hs2 & Hfirst2 & _).
    unfold time_le. cbv beta. rewrite He1, He2, Ht1, Ht2. apply Z.leb_le.
    destruct (Z.le_gt_cases t1 t2) as [Hle|Hgt]; [exact Hle|exfalso].
    pose proof (minute_group_id_monotone _ t2 t1 r2 r1 Hpm Ht2 Ht1
                  ltac:(lia) Hs2 Hfirst2 Hend1) as Hleb.
    rewrite Hl1, Hl2 in Hleb. unfold String.leb in Hleb.
    rewrite String.compare_antisym, Hlt in Hleb. discriminate. }
  unfold trim. destruct (bar_count <? _); [|exact Hsorted].
  cbn [rows tail]. now apply sorted_skipn_suffix.
Qed.

Lemma native_frame_ascending (mask : gmap string Z -> bool) (bar_count : Z)
  (df0 out : DataFrame) :
  native_frame mask bar_count df0 = Returned out ->
  StronglySorted (fun a b => time_le a b = true) (rows out).
Proof.
  intros Hrun. apply native_frame_inv in Hrun as ->.
  unfold trim. destruct (bar_count <? _); cbn [rows tail].
  - apply sorted_skipn_suffix, sort_rows_sorted.
  - apply sort_rows_sorted.
Qed.

Section KlineOrder.

Context {collaborators : Collaborators}.

(** The tables of [khKline] for minute and hour periods are in ascending
    order of time: a symbol without a table in the response of the data
    source gets the empty table; for any other symbol the table of a period
    that the data source serves (1m, 5m) is in ascending order on any data,
    and the table of a synthesized period, whose groups come out in the
    order of their text labels, is in ascending order when the source bars
    at or before the reference time carry session stamps. *)
Theorem khKline_intraday_tables_ascending (src : source)
  (symbol_list : symbols) (period : string) (bar_count : Z)
  (fields : option (list string)) (end_time : option string) (fq : string)
  (force_download : bool) (digits : string) (period_unit : ascii)
  (target_datetime : Z) :
  no_symbols symbol_list = false ->
  0 < bar_count ->
  match_period (lower period) = Some (digits, period_unit) ->
  parse_kline_time end_time = Returned target_datetime ->
  0 < int digits ->
  period_unit = "m"%char \/ period_unit = "h"%char ->
  exists result,
    khKline src symbol_list period bar_count fields end_time fq
      force_download = Returned result /\
    forall code out,
      dict_get code result = Some out ->
      exists data,
        kline_read src (stock_codes_of symbol_list)
          (default default_fields fields) period_unit (int digits) bar_count
          target_datetime (dividend_type_of fq) force_download
        = Returned data /\
        match table_of data code with
        | None => out = empty_frame
        | Some df0 =>
            (period_unit = "m"%char /\ (int digits = 1 \/ int digits = 5)) \/
            (forall x t, In x (rows df0) -> x !! "time" = Some t ->
                         t + 8 * ms_per_hour <= target_datetime ->
                         session_stamp (t + 8 * ms_per_hour)) ->
            StronglySorted (fun a b => time_le a b = true) (rows out)
        end.
Proof.
  intros Hsym Hcount Hmatch Hparse Hnum Hunit.
  assert (Hunit' : period_unit = "m"%char \/ period_unit = "h"%char \/
                   (period_unit = "d"%char /\ int digits = 1))
    by (destruct Hunit; auto).
  destruct (khKline_read_entries src symbol_list period bar_count fields
              end_time fq force_download digits period_unit target_datetime
              Hsym Hcount Hmatch Hparse Hunit') as (result & Hrun & Hentries).
  exists result. split; [exact Hrun|]. intros code out Hget.
  destruct (Hentries code out Hget) as (data & Hdata & Htable).
  exists data. split; [exact Hdata|].
  destruct (table_of data code) as [df0|]; [|exact Htable].
  intros Hsess.
  destruct Htable as [Hu Hn H|Hu Hn H|Hu H|Hu Hn H|tdl ty Hu Hn H].
  - exact (native_frame_ascending _ _ _ _ H).
  - destruct Hsess as [[_ Hd]|Hsess]; [tauto|].
    exact (minute_frame_ascending _ _ _ _ _ _ Hnum H Hsess).
  - destruct Hsess as [[Hd _]|Hsess]; [congruence|].
    assert (Hpm : 0 < int digits * 60) by lia.
    exact (minute_frame_ascending _ _ _ _ _ _ Hpm H Hsess).
  - exfalso. destruct Hunit; congruence.
  - exfalso. destruct Hunit; congruence.
Qed.

End KlineOrder.

(** * The further properties at concrete inputs *)

Lemma trade_days_list_exact_witness :
  exists l,
    _get_trade_days_list (collaborators := Reference.collaborators)
      (Reference.at_time 2024 1 2 0 0) (Reference.at_time 2024 1 8 0 0)
    = Returned l /\
    (forall x, In x l <->
       exists k, 0 <= k /\ x = add_days (Reference.at_time 2024 1 2 0 0) k /\
                 x <= Reference.at_time 2024 1 8 0 0 /\
                 trading (collaborators := Reference.collaborators) x) /\
    StronglySorted Z.lt l.
Proof.
  apply (proj1 (trade_days_list_exact
                  (collaborators := Reference.collaborators)
                  (Reference.at_time 2024 1 2 0 0)
                  (Reference.at_time 2024 1 8 0 0))).
  - vm_compute. discriminate.
  - intros _. vm_compute. discriminate.
Defined.

Lemma trade_days_count_is_list_length_witness :
  exists l,
    _get_trade_days_list (collaborators := Reference.collaborators)
      (Reference.at_time 2024 1 2 0 0) (Reference.at_time 2024 1 8 0 0)
    = Returned l /\
    get_trade_days_count (collaborators := Reference.collaborators)
      "2024-01-02" "2024-01-08" = Z.of_nat (length l).
Proof.
  apply (proj1 (trade_days_count_is_list_length
                  (collaborators := Reference.collaborators)
                  "2024-01-02" "2024-01-08")).
  - vm_compute. reflexivity.
  - vm_compute. reflexivity.
  - vm_compute. discriminate.
  - vm_compute. discriminate.
  - vm_compute. discriminate.
Defined.

Lemma year_first_trade_day_is_first_witness :
  let jan1 := days_from_civil 2024 1 1 * ms_per_day in
  exists d,
    _get_year_first_trade_day (collaborators := Reference.collaborators) 2024
    = Returned d /\
    ((exists k, 0 <= k < 31 /\ d = add_days jan1 k /\
                trading (collaborators := Reference.collaborators) d /\
                forall j, 0 <= j < k ->
                  ~ trading (collaborators := Reference.collaborators)
                      (add_days jan1 j))
     \/ (d = jan1 /\
         forall j, 0 <= j < 31 ->
           ~ trading (collaborators := Reference.collaborators)
               (add_days jan1 j))).
Proof.
  apply (proj1 (year_first_trade_day_is_first
                  (collaborators := Reference.collaborators) 2024)).
  lia.
Defined.

Lemma determine_pool_type_classes_witness :
  determine_pool_type ["510300.SH"; "159915.SZ"] = ("etf_only", 3).
Proof.
  apply (proj2 (proj1 (proj2 (determine_pool_type_classes
                                ["510300.SH"; "159915.SZ"])))).
  split; [discriminate|].
  intros code [<-|[<-|[]]]; reflexivity.
Defined.

Lemma t0_support_agrees_with_details_witness :
  snd (check_t0_support {["513100.SH"]} ["513100.SH"]) = true.
Proof.
  pose proof (t0_support_agrees_with_details {["513100.SH"]} ["513100.SH"])
    as H.
  cbv zeta in H. destruct H as (_ & _ & _ & _ & _ & H).
  apply H. split; [discriminate|].
  intros code [<-|[]]. now apply elem_of_singleton.
Defined.

Lemma khHistory_tables_bounded_ascending_witness :
  exists result,
    khHistory (collaborators := Reference.collaborators)
      Examples.two_symbol_store (Many ["A"; "B"]) ["close"] 2 "1d"
      (Some "20240105") false "pre" false = Returned result /\
    forall code df,
      In (code, df) result ->
      len df <= 2 /\
      StronglySorted (fun a b => time_le a b = true) (rows df).
Proof.
  apply (khHistory_tables_bounded_ascending
           (collaborators := Reference.collaborators)
           Examples.two_symbol_store (Many ["A"; "B"]) ["close"] 2 "1d"
           (Some "20240105") false "pre" false
           (Reference.at_time 2024 1 5 0 0)).
  - reflexivity.
  - discriminate.
  - lia.
  - vm_compute. reflexivity.
Defined.

Lemma khHistory_skip_paused_volume_witness :
  exists result,
    khHistory (collaborators := Reference.collaborators)
      Examples.two_symbol_store (Many ["A"; "B"]) ["close"; "volume"] 2 "1d"
      (Some "20240105") true "pre" false = Returned result /\
    forall code df r v,
      In (code, df) result -> In r (rows df) ->
      r !! "volume" = Some v -> 0 < v.
Proof.
  apply (khHistory_skip_paused_volume
           (collaborators := Reference.collaborators)
           Examples.two_symbol_store (Many ["A"; "B"]) ["close"; "volume"] 2
           "1d" (Some "20240105") "pre" false
           (Reference.at_time 2024 1 5 0 0)).
  - reflexivity.
  - discriminate.
  - lia.
  - vm_compute. reflexivity.
Defined.

Lemma khHistory_bars_are_source_bars_witness :
  exists result,
    khHistory (collaborators := Reference.collaborators)
      Examples.two_symbol_store (Many ["A"; "B"]) ["close"] 2 "1d"
      (Some "20240105") false "pre" false = Returned result /\
    forall code df,
      In (code, df) result ->
      df = empty_frame \/
      exists data sd,
        history_data (collaborators := Reference.collaborators)
          Examples.two_symbol_store (stock_codes_of (Many ["A"; "B"]))
          ["close"] 2 "1d" (Reference.at_time 2024 1 5 0 0)
          (dividend_type_of "pre") false = Returned data /\
        data !! code = Some (Some sd) /\
        columns df = history_columns ["close"] sd /\
        forall r,
          In r (rows df) ->
          exists r0,
            In r0 (rows sd) /\
            r !! "time" = (fun t => t + 8 * ms_per_hour) <$> r0 !! "time" /\
            forall col,
              In col ["close"] -> In col (columns sd) -> col <> "time" ->
              r !! col = r0 !! col.
Proof.
  apply (khHistory_bars_are_source_bars
           (collaborators := Reference.collaborators)
           Examples.two_symbol_store (Many ["A"; "B"]) ["close"] 2 "1d"
           (Some "20240105") false "pre" false
           (Reference.at_time 2024 1 5 0 0)).
  - reflexivity.
  - discriminate.
  - lia.
  - vm_compute. reflexivity.
Defined.

Lemma khHistory_keeps_latest_bars_witness :
  exists result,
    khHistory (collaborators := Reference.collaborators)
      Examples.two_symbol_store (Many ["A"; "B"]) ["close"] 2 "1d"
      (Some "20240105") false "pre" false = Returned result /\
    forall code df,
      In (code, df) result ->
      exists data,
        history_data (collaborators := Reference.collaborators)
          Examples.two_symbol_store (stock_codes_of (Many ["A"; "B"]))
          ["close"] 2 "1d" (Reference.at_time 2024 1 5 0 0)
          (dividend_type_of "pre") false = Returned data /\
        match table_of data code with
        | None => df = empty_frame
        | Some sd =>
            exists dropped kept,
              Permutation (dropped ++ kept)
                (history_qualifying "1d" (Reference.at_time 2024 1 5 0 0)
                   false sd) /\
              rows df = map (project_row (history_columns ["close"] sd)) kept /\
              (dropped <> [] -> len df = 2) /\
              (forall a b, In a dropped -> In b kept -> time_le a b = true)
        end.
Proof.
  apply (khHistory_keeps_latest_bars
           (collaborators := Reference.collaborators)
           Examples.two_symbol_store (Many ["A"; "B"]) ["close"] 2 "1d"
           (Some "20240105") false "pre" false
           (Reference.at_time 2024 1 5 0 0)).
  - reflexivity.
  - discriminate.
  - lia.
  - vm_compute. reflexivity.
Defined.

Lemma khHistory_raises_on_bad_arguments_only_witness :
  raises_value_error
    (khHistory (collaborators := Reference.collaborators)
       Examples.two_symbol_store (Many ["A"; "B"]) ["close"] 0 "1d"
       (Some "20240105") false "pre" false)
  /\ exists result,
       khHistory (collaborators := Reference.collaborators)
         Examples.two_symbol_store (Many ["A"; "B"]) ["close"] 2 "1d"
         (Some "20240105") false "pre" false = Returned result.
Proof.
  split.
  - pose proof (khHistory_raises_on_bad_arguments_only
                  (collaborators := Reference.collaborators)
                  Examples.two_symbol_store (Many ["A"; "B"]) ["close"] 0
                  "1d" (Some "20240105") false "pre" false) as H.
    cbv zeta in H. destruct H as (_ & _ & Hcount & _).
    apply Hcount. lia.
  - pose proof (khHistory_raises_on_bad_arguments_only
                  (collaborators := Reference.collaborators)
                  Examples.two_symbol_store (Many ["A"; "B"]) ["close"] 2
                  "1d" (Some "20240105") false "pre" false) as H.
    cbv zeta in H. destruct H as (_ & _ & _ & _ & Hok).
    apply Hok; [reflexivity|discriminate|lia|].
    right. exists "20240105", "%Y%m%d". split; [reflexivity|].
    split; [simpl; tauto|]. unfold strptime_ok. vm_compute. discriminate.
Defined.

Lemma khHistory_table_without_time_empties_result_witness :
  khHistory (collaborators := Reference.collaborators)
    Examples.untimed_store (Many ["B"; "A"]) ["close"] 2 "1d"
    (Some "20240105") false "pre" false = Returned [].
Proof.
  apply (khHistory_table_without_time_empties_result
           (collaborators := Reference.collaborators)
           Examples.untimed_store (Many ["B"; "A"]) ["close"] 2 "1d"
           (Some "20240105") false "pre" false
           (Reference.at_time 2024 1 5 0 0) Examples.untimed_store "A"
           (mkDF ["close"] [{["close" := 10]}])).
  - reflexivity.
  - discriminate.
  - lia.
  - vm_compute. reflexivity.
  - reflexivity.
  - simpl. tauto.
  - reflexivity.
  - reflexivity.
  - reflexivity.
Defined.

Lemma khKline_tables_bounded_witness :
  exists result,
    khKline (collaborators := Reference.collaborators) Examples.long_store
      (One "000001.SZ") "15m" 3 None (Some "20241202 1500") "pre" false
    = Returned result /\
    forall code out, dict_get code result = Some out -> len out <= 3.
Proof.
  apply (khKline_tables_bounded (collaborators := Reference.collaborators)
           Examples.long_store (One "000001.SZ") "15m" 3 None
           (Some "20241202 1500") "pre" false "15" "m"
           (Reference.at_time 2024 12 2 15 0)).
  - reflexivity.
  - lia.
  - reflexivity.
  - vm_compute. reflexivity.
Defined.

Lemma khKline_no_bar_after_reference_witness :
  exists result,
    khKline (collaborators := Reference.collaborators) Examples.long_store
      (One "000001.SZ") "15m" 3 None (Some "20241202 1000") "pre" false
    = Returned result /\
    forall code out r,
      dict_get code result = Some out -> In r (rows out) ->
      exists df0,
        kline_source (collaborators := Reference.collaborators)
          Examples.long_store (stock_codes_of (One "000001.SZ"))
          (default default_fields None) (Reference.at_time 2024 12 2 10 0)
          (dividend_type_of "pre") false code df0 /\
        stamped_up_to "m" (Reference.at_time 2024 12 2 10 0) df0 r.
Proof.
  apply (khKline_no_bar_after_reference
           (collaborators := Reference.collaborators)
           Examples.long_store (One "000001.SZ") "15m" 3 None
           (Some "20241202 1000") "pre" false "15" "m"
           (Reference.at_time 2024 12 2 10 0)).
  - reflexivity.
  - lia.
  - reflexivity.
  - vm_compute. reflexivity.
Defined.



Lemma khKline_intraday_tables_ascending_witness :
  exists result,
    khKline (collaborators := Reference.collaborators) Examples.long_store
      (One "000001.SZ") "1h" 3 None (Some "20241202 1000") "pre" false
    = Returned result /\
    forall code out,
      dict_get code result = Some out ->
      exists data,
        kline_read (collaborators := Reference.collaborators)
          Examples.long_store (stock_codes_of (One "000001.SZ"))
          (default default_fields None) "h" (int "1") 3
          (Reference.at_time 2024 12 2 10 0) (dividend_type_of "pre") false
        = Returned data /\
        match table_of data code with
        | None => out = empty_frame
        | Some df0 =>
            ("h"%char = "m"%char /\ (int "1" = 1 \/ int "1" = 5)) \/
            (forall x t, In x (rows df0) -> x !! "time" = Some t ->
                         t + 8 * ms_per_hour
                         <= Reference.at_time 2024 12 2 10 0 ->
                         session_stamp (t + 8 * ms_per_hour)) ->
            StronglySorted (fun a b => time_le a b = true) (rows out)
        end.
Proof.
  apply (khKline_intraday_tables_ascending
           (collaborators := Reference.collaborators)
           Examples.long_store (One "000001.SZ") "1h" 3 None
           (Some "20241202 1000") "pre" false "1" "h"
           (Reference.at_time 2024 12 2 10 0)).
  - reflexivity.
  - lia.
  - reflexivity.
  - vm_compute. reflexivity.
  - reflexivity.
  - right. reflexivity.
Defined.

Lemma parse_period_round_trip_witness :
  _parse_period (str_nat 15 ++ String "M" "") = Returned (15, lower_char "M").
Proof.
  apply parse_period_round_trip; [lia|reflexivity].
Defined.

Lemma aggregate_kline_conserves_totals_witness :
  exists out,
    _aggregate_kline Examples.two_bars_grouped "group_id" default_fields
    = Returned out /\
    total "volume" (rows out)
    = total "volume" (rows Examples.two_bars_grouped).
Proof.
  eexists. split; [reflexivity|].
  apply (aggregate_kline_conserves_totals Examples.two_bars_grouped _
           "group_id" [Some "g"; Some "g"] default_fields "volume").
  - now left.
  - reflexivity.
  - reflexivity.
  - reflexivity.
  - intros l [<-|[<-|[]]]; now eexists.
  - unfold rule_table. cbn [In]. intuition discriminate.
  - intros r [<-|[<-|[]]]; now eexists.
  - reflexivity.
  - intros k. unfold rows_of_group.
    change (rows Examples.two_bars_grouped)
      with (map (delete "group_id") (rows Examples.two_bars)).
    unfold Examples.two_bars. cbn [rows map combine List.filter fst].
    destruct (bool_decide (Some "g" = Some k));
      (split; [apply Z.leb_le|apply Z.ltb_lt]); vm_compute; reflexivity.
Defined.
